(** * eco-meteor-bot: the countdown bot of [src/eco_meteor_bot.py]

    A shallow embedding of the bot's helpers ([format_time],
    [parse_datetime_utc]), of its periodic task ([update_loop]) and of its
    two state-changing commands ([create_meteor], [delete_meteor]), with
    the properties of the specification proved about them.

    Conventions of the embedding.
    - Python [int] is [Z]; [str] is [string], read as the UTF-8 bytes of the
      text (so [split] on an ASCII separator and equality of names are
      exact).
    - A [timedelta] is a whole number of microseconds, which is what
      Python's normalised (days, seconds, microseconds) triple denotes.
    - A finite [float] is the rational it denotes, and an operation on
      floats returns the binary64 number nearest to its exact result
      ([Py.true_div]).  [format_time] truncates the float that
      [total_seconds()] returns, [total_seconds_float]; the rounding shows
      there from 2^34 seconds on.  The tests of [update_loop] and of
      [time_left] read the same float; they are written on the quotient
      itself, [total_seconds].  The float has the sign of the quotient at
      every size ([float_sign]), and below 2^34 seconds the same floor by
      86400 and the same side of the 48-hour gate ([float_tests_agree]);
      the quotient by 3600 is rounded to the hour without a float in
      between.
    - [int()] on text is CPython's: the text is brought to ASCII with the
      blanks and decimal digits of Unicode 14.0, then read as an optional
      sign and digits with single underscores, 4300 digits at most.
    - Module-level globals are the fields of [Globals]; Discord is an
      explicit [Guild] (the channels the client sees) and an oracle saying
      which external calls raise. *)

From Stdlib Require Import ZArith QArith Qround String Ascii List Lia.
From stdpp Require Import base gmap sets list strings pretty.

Local Open Scope string_scope.
Local Open Scope list_scope.
Local Open Scope Z_scope.

(** ** Python builtins used by the bot *)

Module Py.

(** [divmod(a, b)] on integers: floor division and the matching remainder. *)
Definition divmod (a b : Z) : Z * Z := (a / b, a mod b).

(** [str(n)] and the [{n}] of an f-string, for an integer. *)
Definition str (n : Z) : string := pretty n.

(** [sep.join(parts)]. *)
Definition join (sep : string) (parts : list string) : string :=
  String.concat sep parts.

(** [int(x)] on a float: truncation toward zero. *)
Definition int_of_float (x : Q) : Z := Z.quot (Qnum x) (Zpos (Qden x)).

(** [x // y] on floats, then [int(...)]: the floor of the quotient. *)
Definition floordiv (x y : Q) : Z := Qfloor (x / y).

(** [round(x)] with one argument: nearest integer, ties to the even one. *)
Definition round (x : Q) : Z :=
  let f := Qfloor x in
  match ((x - inject_Z f) ?= (1 # 2))%Q with
  | Lt => f
  | Gt => f + 1
  | Eq => if Z.even f then f else f + 1
  end.

(** [x * 2^k] for [k >= 0], [x] itself below. *)
Definition shift (x k : Z) : Z := x * 2 ^ Z.max 0 k.

(** The integer nearest to [n / d], the even one of two that are equally
    near; [d > 0]. *)
Definition nearest_even (n d : Z) : Z :=
  let q := n / d in
  match 2 * (n mod d) ?= d with
  | Lt => q
  | Gt => q + 1
  | Eq => if Z.even q then q else q + 1
  end.

(** The binary exponent of [a / d]: the [e] with [2^e <= a / d < 2^(e+1)];
    [a > 0], [d > 0]. *)
Definition exponent (a d : Z) : Z :=
  let e := Z.log2 a - Z.log2 d in
  if shift d e <=? shift a (- e) then e else e - 1.

(** [n / d] on two integers, [d > 0]: the binary64 number nearest to the
    quotient, with a 53-bit significand and ties going to the even one.
    (No quotient of the bot overflows or is subnormal: a [timedelta] is a
    whole number of microseconds below 2^67.) *)
Definition true_div (n d : Z) : Q :=
  if n =? 0 then 0%Q else
  let a := Z.abs n in
  let e := exponent a d in
  let m := nearest_even (shift a (52 - e)) (shift d (e - 52)) in
  Qmake (Z.sgn n * shift m (e - 52)) (Z.to_pos (2 ^ Z.max 0 (52 - e))).

(** Characters [int()] skips around a number: TAB, LF, VT, FF, CR, space. *)
Definition is_space (c : ascii) : bool :=
  let n := Z.of_nat (nat_of_ascii c) in
  ((9 <=? n) && (n <=? 13)) || (n =? 32).

Definition digit_of (c : ascii) : option Z :=
  let n := Z.of_nat (nat_of_ascii c) in
  if (48 <=? n) && (n <=? 57) then Some (n - 48) else None.

Fixpoint lstrip (s : string) : string :=
  match s with
  | String c s' => if is_space c then lstrip s' else s
  | EmptyString => EmptyString
  end.

Fixpoint all_space (s : string) : bool :=
  match s with
  | String c s' => is_space c && all_space s'
  | EmptyString => true
  end.

(** Where the scan of the digits stands: nothing read yet, just after a
    digit, or just after an underscore. *)
Inductive scan := AtStart | AfterDigit | AfterUnderscore.

(** Base-10 digits with single underscores between digits, then trailing
    blanks up to the end of the text. *)
Fixpoint digits (st : scan) (acc : Z) (s : string) : option Z :=
  match s with
  | EmptyString =>
      match st with AfterDigit => Some acc | _ => None end
  | String c s' =>
      match digit_of c with
      | Some d => digits AfterDigit (10 * acc + d) s'
      | None =>
          match st with
          | AfterDigit =>
              if Ascii.eqb c "_" then digits AfterUnderscore acc s'
              else if all_space s then Some acc else None
          | _ => None
          end
      end
  end.

(** The blanks of Unicode above ASCII ([str.isspace]). *)
Definition unicode_space (cp : N) : bool :=
  ((cp =? 0x85) || (cp =? 0xA0) || (cp =? 0x1680)
   || ((0x2000 <=? cp) && (cp <=? 0x200A))
   || (cp =? 0x2028) || (cp =? 0x2029) || (cp =? 0x202F) || (cp =? 0x205F)
   || (cp =? 0x3000))%N.

(** The digit zero of every script with decimal digits; the other nine
    digits follow it (Unicode Character Database 14.0). *)
Definition decimal_zeros : list N :=
 ([0x0660; 0x06F0; 0x07C0; 0x0966; 0x09E6; 0x0A66; 0x0AE6; 0x0B66; 0x0BE6;
   0x0C66; 0x0CE6; 0x0D66; 0x0DE6; 0x0E50; 0x0ED0; 0x0F20; 0x1040; 0x1090;
   0x17E0; 0x1810; 0x1946; 0x19D0; 0x1A80; 0x1A90; 0x1B50; 0x1BB0; 0x1C40;
   0x1C50; 0xA620; 0xA8D0; 0xA900; 0xA9D0; 0xA9F0; 0xAA50; 0xABF0; 0xFF10;
   0x104A0; 0x10D30; 0x11066; 0x110F0; 0x11136; 0x111D0; 0x112F0; 0x11450;
   0x114D0; 0x11650; 0x116C0; 0x11730; 0x118E0; 0x11950; 0x11C50; 0x11D50;
   0x11DA0; 0x16A60; 0x16AC0; 0x16B50; 0x1D7CE; 0x1D7D8; 0x1D7E2; 0x1D7EC;
   0x1D7F6; 0x1E140; 0x1E2F0; 0x1E950; 0x1FBF0])%N.

(** The value of a decimal digit above ASCII ([unicodedata.decimal]). *)
Definition unicode_decimal (cp : N) : option N :=
  (λ zero, cp - zero)%N
    <$> List.find (λ zero, (zero <=? cp) && (cp <? zero + 10))%N decimal_zeros.

(** What [int()] reads in place of a character above ASCII: a space for a
    blank, the ASCII digit for a decimal digit, '?' for anything else. *)
Definition ascii_for (cp : N) : ascii :=
  if unicode_space cp then " "%char
  else match unicode_decimal cp with
       | Some d => ascii_of_N (48 + d)
       | None => "?"%char
       end.

(** The text ends at the first character that is neither. *)
Definition put (cp : N) (rest : string) : string :=
  let c := ascii_for cp in
  if Ascii.eqb c "?" then "?" else String c rest.

(** The six payload bits of a continuation byte. *)
Definition low (c : ascii) : N := (N_of_ascii c mod 64)%N.

(** [int()] first brings the text to ASCII, character by character
    (CPython's [_PyUnicode_TransformDecimalAndSpaceToASCII]); the
    characters are decoded from the UTF-8 bytes. *)
Fixpoint to_ascii (s : string) : string :=
  match s with
  | EmptyString => EmptyString
  | String b0 s1 =>
      let n0 := N_of_ascii b0 in
      if (n0 <? 127)%N then String b0 (to_ascii s1)
      else if (n0 <? 128)%N then "?"
      else
        match s1 with
        | String b1 s2 =>
            if (n0 <? 0xE0)%N then put (n0 mod 32 * 64 + low b1) (to_ascii s2)
            else
              match s2 with
              | String b2 s3 =>
                  if (n0 <? 0xF0)%N
                  then put ((n0 mod 16 * 64 + low b1) * 64 + low b2) (to_ascii s3)
                  else
                    match s3 with
                    | String b3 s4 =>
                        put (((n0 mod 8 * 64 + low b1) * 64 + low b2) * 64 + low b3)
                            (to_ascii s4)
                    | EmptyString => "?"
                    end
              | EmptyString => "?"
              end
        | EmptyString => "?"
        end
  end.

(** An optional sign, then the digits. *)
Definition signed (s : string) : option Z :=
  match s with
  | String c s' =>
      if Ascii.eqb c "+" then digits AtStart 0 s'
      else if Ascii.eqb c "-" then Z.opp <$> digits AtStart 0 s'
      else digits AtStart 0 s
  | EmptyString => None
  end.

(** How many digits the text has. *)
Fixpoint count_digits (s : string) : Z :=
  match s with
  | EmptyString => 0
  | String c s' =>
      (match digit_of c with Some _ => 1 | None => 0 end) + count_digits s'
  end.

(** [sys.get_int_max_str_digits()], which the bot leaves at its default. *)
Definition max_str_digits : Z := 4300.

(** [int(s)] on text, base 10; [None] is [ValueError].  A text with more
    digits than the limit is refused, the others are read after the
    leading blanks. *)
Definition int (s : string) : option Z :=
  let a := to_ascii s in
  if max_str_digits <? count_digits a then None else signed (lstrip a).

(** [s.split(sep)] for a one-character separator. *)
Fixpoint split_go (sep : ascii) (cur : string) (s : string) : list string :=
  match s with
  | EmptyString => [String.rev cur]
  | String c s' =>
      if Ascii.eqb c sep then String.rev cur :: split_go sep EmptyString s'
      else split_go sep (String c cur) s'
  end.

Definition split (sep : ascii) (s : string) : list string :=
  split_go sep EmptyString s.

End Py.

(** ** [datetime]: the part of Python's module the bot relies on *)

Inductive timezone := utc.

Record datetime := Datetime {
  year : Z; month : Z; day : Z;
  hour : Z; minute : Z; second : Z; microsecond : Z;
  tzinfo : option timezone
}.

(** A duration, in microseconds. *)
Definition timedelta := Z.

Definition mk_timedelta (days hours minutes seconds microseconds : Z) : timedelta :=
  (((days * 24 + hours) * 60 + minutes) * 60 + seconds) * 1000000 + microseconds.

(** The seconds of a delta, as the rational they are. *)
Definition total_seconds (delta : timedelta) : Q := Qmake delta 1000000.

(** [delta.total_seconds()]: the microseconds divided by [10**6], a
    float. *)
Definition total_seconds_float (delta : timedelta) : Q :=
  Py.true_div delta 1000000.

Definition is_leap (y : Z) : bool :=
  (y mod 4 =? 0) && (negb (y mod 100 =? 0) || (y mod 400 =? 0)).

Definition days_in_month (y m : Z) : Z :=
  match m with
  | 1 | 3 | 5 | 7 | 8 | 10 | 12 => 31
  | 4 | 6 | 9 | 11 => 30
  | 2 => if is_leap y then 29 else 28
  | _ => 0
  end.

(** The checks of the [datetime(...)] constructor; [None] is [ValueError]. *)
Definition valid_fields (y mo d h mi : Z) : bool :=
  (1 <=? y) && (y <=? 9999) && (1 <=? mo) && (mo <=? 12)
  && (1 <=? d) && (d <=? days_in_month y mo)
  && (0 <=? h) && (h <=? 23) && (0 <=? mi) && (mi <=? 59).

Definition datetime_new (y mo d h mi : Z) (tz : option timezone) : option datetime :=
  if valid_fields y mo d h mi
  then Some (Datetime y mo d h mi 0 0 tz)
  else None.

Definition days_before_year (y : Z) : Z :=
  let y := y - 1 in y * 365 + y / 4 - y / 100 + y / 400.

Fixpoint days_before_month_go (y : Z) (m : nat) : Z :=
  match m with
  | O => 0
  | S m' => days_before_month_go y m' + days_in_month y (Z.of_nat m)
  end.

Definition days_before_month (y m : Z) : Z :=
  days_before_month_go y (Z.to_nat (m - 1)).

Definition toordinal (t : datetime) : Z :=
  days_before_year (year t) + days_before_month (year t) (month t) + day t.

(** Microseconds since the start of day 0 of the proleptic calendar. *)
Definition to_us (t : datetime) : Z :=
  (((toordinal t * 24 + hour t) * 60 + minute t) * 60 + second t) * 1000000
  + microsecond t.

(** [a - b] on two datetimes of the same zone.  Every datetime of the bot
    is built with [tzinfo=timezone.utc], so the [TypeError] of mixing naive
    and aware values cannot arise. *)
Definition datetime_sub (a b : datetime) : timedelta := to_us a - to_us b.

(** ** Configuration constants *)

Definition EVENT_NAME : string := "meteor impact".
Definition REMINDER_DAYS : gset Z := {[28; 21; 14; 7; 2; 1]}.
Definition REMINDER_HOURS : gset Z := {[24; 12; 6; 3; 1]}.
Definition METEOR_ICON : string := "☄️".
Definition FINISHED_NAME : string := METEOR_ICON +:+ " · Impact imminent!".

(** ** Helpers *)

Definition format_time (delta : timedelta) : string :=
  let total := Py.int_of_float (total_seconds_float delta) in
  let total := if total <? 0 then 0 else total in
  let '(days, rem) := Py.divmod total 86400 in
  let '(hours, rem) := Py.divmod rem 3600 in
  let '(minutes, _) := Py.divmod rem 60 in
  let parts : list string := [] in
  let parts := if days >? 0 then app parts [Py.str days +:+ "d"] else parts in
  let parts :=
    if (hours >? 0) || (days >? 0) then app parts [Py.str hours +:+ "h"] else parts in
  let parts := app parts [Py.str minutes +:+ "m"] in
  Py.join " " parts.

(** [None] stands for any exception raised while parsing. *)
Definition parse_datetime_utc (date_str time_str : string) : option datetime :=
  match Py.int <$> Py.split "-" date_str with
  | [Some year; Some month; Some day] =>
      match Py.int <$> Py.split ":" time_str with
      | [Some hour; Some minute] =>
          datetime_new year month day hour minute (Some utc)
      | _ => None
      end
  | _ => None
  end.

(** ** The bot's state and its view of Discord *)

(** The module-level globals that the task and the commands share. *)
Record Globals := MkGlobals {
  COUNTDOWN_CHANNEL_ID : option Z;
  TARGET_TIME : option datetime;
  sent_day_reminders : gset Z;
  sent_hour_reminders : gset Z
}.

Definition initial : Globals := MkGlobals None None ∅ ∅.

(** A program state: the globals, and the channels the client sees
    (channel id to channel name). *)
Record World := MkWorld {
  globals : Globals;
  guild : gmap Z string
}.

(** The calls that leave the process. *)
Inductive Action :=
| Edit (channel : Z) (name : string)      (* channel.edit(name=...) *)
| Send (channel : Z) (text : string)      (* channel.send(...) *)
| DeleteChannel (channel : Z)             (* channel.delete(...) *)
| CreateTextChannel (name : string)       (* guild.create_text_channel(...) *)
| Reply (text : string).                  (* ctx.send(...) *)

(** What one invocation gets from outside: the clock, what
    [bot.fetch_channel] answers ([None]: it raises), which calls raise,
    and the id Discord gives to a channel it creates. *)
Record Env := MkEnv {
  now : datetime;
  fetch_channel : Z → option string;
  raises : Action → bool;
  new_id : Z
}.

(** Every call attempted, in order, each with the globals as they stood
    when it was attempted. *)
Abbreviation Trace := (list (Action * Globals)).

(** Computations: state, log of attempted calls, and exceptions ([None]). *)
Definition M (A : Type) : Type := World → option A * World * Trace.

Definition ret {A} (a : A) : M A := λ w, (Some a, w, []).

Definition bind {A B} (m : M A) (k : A → M B) : M B :=
  λ w, match m w with
       | (Some a, w1, t1) => let '(r, w2, t2) := k a w1 in (r, w2, t1 ++ t2)
       | (None, w1, t1) => (None, w1, t1)
       end.

(** stdpp's [x ← m; k] and [m;; k] are this [bind]. *)
#[export] Instance M_ret : MRet M := @ret.
#[export] Instance M_bind : MBind M := λ A B k m, bind m k.

Definition get_globals : M Globals := λ w, (Some (globals w), w, []).

Definition set_globals (f : Globals → Globals) : M unit :=
  λ w, (Some (), MkWorld (f (globals w)) (guild w), []).

(** [bot.get_channel(id)] / [guild.get_channel(id)]: the channel's name. *)
Definition get_channel (id : Z) : M (option string) :=
  λ w, (Some (guild w !! id), w, []).

(** What a call that succeeds does to the channels. *)
Definition effect (env : Env) (a : Action) (g : gmap Z string) : gmap Z string :=
  match a with
  | Edit ch name => <[ch := name]> g
  | DeleteChannel ch => delete ch g
  | CreateTextChannel name => <[new_id env := name]> g
  | Send _ _ | Reply _ => g
  end.

(** An awaited call: logged, then it raises or takes effect. *)
Definition call (env : Env) (a : Action) : M unit :=
  λ w, if raises env a
       then (None, w, [(a, globals w)])
       else (Some (), MkWorld (globals w) (effect env a (guild w)), [(a, globals w)]).

(** [try: m  except Exception: print(...)]. *)
Definition try_ (m : M unit) : M unit :=
  λ w, match m w with
       | (None, w1, t1) => (Some (), w1, t1)
       | r => r
       end.

Definition when (b : bool) (m : M unit) : M unit := if b then m else ret ().

Definition run {A} (m : M A) (w : World) : World := (m w).1.2.
Definition trace {A} (m : M A) (w : World) : Trace := (m w).2.
Definition result {A} (m : M A) (w : World) : option A := (m w).1.1.

(** The calls of a trace, without the snapshots. *)
Definition actions (t : Trace) : list Action := fst <$> t.

(** ** Messages *)

Definition plural (n : Z) : string := if n =? 1 then "" else "s".

Definition day_text (n : Z) : string :=
  "@everyone **" +:+ Py.str n +:+ " day" +:+ plural n
  +:+ "** remain until **" +:+ EVENT_NAME +:+ "** ☄️".

Definition hour_text (n : Z) : string :=
  "@everyone **" +:+ Py.str n +:+ " hour" +:+ plural n
  +:+ "** remain until **" +:+ EVENT_NAME +:+ "** ☄️".

Definition countdown_name (remaining : timedelta) : string :=
  METEOR_ICON +:+ " · " +:+ format_time remaining +:+ " till impact".

Definition usage_text : string :=
  "❌ Invalid format.
Use: `!createmeteor YYYY-MM-DD HH:MM [channel-name]`
Example: `!createmeteor 2026-01-20 16:47 meteor-impact`".

Definition isoformat (t : datetime) : string :=
  let pad (w : nat) (n : Z) : string :=
    let s := Py.str n in
    String.concat "" (repeat "0" (w - String.length s)) +:+ s in
  pad 4%nat (year t) +:+ "-" +:+ pad 2%nat (month t) +:+ "-" +:+ pad 2%nat (day t)
  +:+ "T" +:+ pad 2%nat (hour t) +:+ ":" +:+ pad 2%nat (minute t) +:+ ":" +:+ pad 2%nat (second t)
  +:+ (if microsecond t =? 0 then "" else "." +:+ pad 6%nat (microsecond t))
  +:+ (match tzinfo t with Some utc => "+00:00" | None => "" end).

Definition created_text (channel : Z) (t : datetime) : string :=
  "✅ Created meteor event for **" +:+ EVENT_NAME +:+ "**.
   • Channel: <#" +:+ Py.str channel +:+ ">
   • Impact time (UTC): **" +:+ isoformat t +:+ "**
   • Countdown and reminders are now active.".

Definition deleted_text (deleted_channel_name : option string) : string :=
  "🗑️ Deleted meteor event."
  +:+ match deleted_channel_name with
      | Some n => if String.eqb n "" then "" else " Removed channel **#" +:+ n +:+ "**."
      | None => ""
      end.

Definition nothing_to_delete_text : string :=
  "There is no active meteor event to delete.".

(** The texts and the clock arithmetic are not to be unfolded by [simpl]. *)
Arguments day_text : simpl never.
Arguments hour_text : simpl never.
Arguments countdown_name : simpl never.
Arguments created_text : simpl never.
Arguments deleted_text : simpl never.
Arguments usage_text : simpl never.
Arguments nothing_to_delete_text : simpl never.
Arguments FINISHED_NAME : simpl never.
Arguments format_time : simpl never.
Arguments datetime_sub : simpl never.
Arguments total_seconds : simpl never.
Arguments total_seconds_float : simpl never.

(** ** The periodic task and the commands *)

(** [sent_day_reminders.add(n)] and [sent_hour_reminders.add(n)]. *)
Definition mark_day (n : Z) (g : Globals) : Globals :=
  MkGlobals (COUNTDOWN_CHANNEL_ID g) (TARGET_TIME g)
            ({[n]} ∪ sent_day_reminders g) (sent_hour_reminders g).

Definition mark_hour (n : Z) (g : Globals) : Globals :=
  MkGlobals (COUNTDOWN_CHANNEL_ID g) (TARGET_TIME g)
            (sent_day_reminders g) ({[n]} ∪ sent_hour_reminders g).

Section Bot.

(** The two threshold sets are configuration: the task is written for any
    sets, and [REMINDER_DAYS], [REMINDER_HOURS] are the ones of the bot. *)
Variable reminder_days reminder_hours : gset Z.

Definition fire_day (env : Env) (channel : Z) (days_remaining : Z) : M unit :=
  set_globals (mark_day days_remaining);;
  try_ (call env (Send channel (day_text days_remaining))).

Definition fire_hour (env : Env) (channel : Z) (hours_remaining : Z) : M unit :=
  set_globals (mark_hour hours_remaining);;
  try_ (call env (Send channel (hour_text hours_remaining))).

(** One run of the body of [update_loop], the task scheduled every
    minute. *)
Definition update_loop_with (env : Env) : M unit :=
  g ← get_globals;
  match TARGET_TIME g, COUNTDOWN_CHANNEL_ID g with
  | Some target, Some id =>
      let remaining := datetime_sub target (now env) in
      let total_seconds := total_seconds remaining in
      cached ← get_channel id;
      match (match cached with Some n => Some n | None => fetch_channel env id end) with
      | None => ret ()                  (* "Could not fetch countdown channel" *)
      | Some name =>
          if Qle_bool total_seconds 0 then
            when (negb (String.eqb name FINISHED_NAME))
                 (try_ (call env (Edit id FINISHED_NAME)))
          else
            let new_name := countdown_name remaining in
            when (negb (String.eqb name new_name))
                 (try_ (call env (Edit id new_name)));;
            let days_remaining := Py.floordiv total_seconds 86400 in
            g ← get_globals;
            when (bool_decide (days_remaining ∈ reminder_days)
                  && bool_decide (days_remaining ∉ sent_day_reminders g))
                 (fire_day env id days_remaining);;
            if negb (Qle_bool (2 * 86400) total_seconds) then
              let hours_remaining := Py.round (total_seconds / 3600) in
              g ← get_globals;
              when (bool_decide (hours_remaining ∈ reminder_hours)
                    && bool_decide (hours_remaining ∉ sent_hour_reminders g))
                   (fire_hour env id hours_remaining)
            else ret ()
      end
  | _, _ => ret ()
  end.

(** *** The task, await by await

    The task keeps the remaining time and the channel in local variables,
    and looks the fired-sets up in the globals again after each await.
    What runs while the task waits (a command) is seen by what the task
    does next. *)

(** The local variables of the task once the rename is over:
    [announce_channel] and [remaining]. *)
Record Suspended := MkSuspended {
  announce_channel : Z;
  time_remaining : timedelta
}.

(** The task up to the end of the rename; [None]: the task has
    returned. *)
Definition update_loop_rename (env : Env) : M (option Suspended) :=
  g ← get_globals;
  match TARGET_TIME g, COUNTDOWN_CHANNEL_ID g with
  | Some target, Some id =>
      let remaining := datetime_sub target (now env) in
      let total_seconds := total_seconds remaining in
      cached ← get_channel id;
      match (match cached with Some n => Some n | None => fetch_channel env id end) with
      | None => ret None
      | Some name =>
          if Qle_bool total_seconds 0 then
            when (negb (String.eqb name FINISHED_NAME))
                 (try_ (call env (Edit id FINISHED_NAME)));;
            ret None
          else
            let new_name := countdown_name remaining in
            when (negb (String.eqb name new_name))
                 (try_ (call env (Edit id new_name)));;
            ret (Some (MkSuspended id remaining))
      end
  | _, _ => ret None
  end.

(** The day reminders, from the local variables and the globals of the
    moment. *)
Definition update_loop_days (env : Env) (l : Suspended) : M unit :=
  let total_seconds := total_seconds (time_remaining l) in
  let days_remaining := Py.floordiv total_seconds 86400 in
  g ← get_globals;
  when (bool_decide (days_remaining ∈ reminder_days)
        && bool_decide (days_remaining ∉ sent_day_reminders g))
       (fire_day env (announce_channel l) days_remaining).

(** The hour reminders, likewise. *)
Definition update_loop_hours (env : Env) (l : Suspended) : M unit :=
  let total_seconds := total_seconds (time_remaining l) in
  if negb (Qle_bool (2 * 86400) total_seconds) then
    let hours_remaining := Py.round (total_seconds / 3600) in
    g ← get_globals;
    when (bool_decide (hours_remaining ∈ reminder_hours)
          && bool_decide (hours_remaining ∉ sent_hour_reminders g))
         (fire_hour env (announce_channel l) hours_remaining)
  else ret ().

End Bot.

(** [update_loop] with the bot's own thresholds. *)
Definition update_loop : Env → M unit := update_loop_with REMINDER_DAYS REMINDER_HOURS.

(** [!createmeteor date time [name]]. *)
Definition create_meteor (env : Env) (date time name : string) : M unit :=
  match parse_datetime_utc date time with
  | None => call env (Reply usage_text)
  | Some impact_dt =>
      g ← get_globals;
      match COUNTDOWN_CHANNEL_ID g with
      | Some old =>
          old_channel ← get_channel old;
          when (bool_decide (is_Some old_channel)) (try_ (call env (DeleteChannel old)))
      | None => ret ()
      end;;
      call env (CreateTextChannel name);;
      set_globals (λ _, MkGlobals (Some (new_id env)) (Some impact_dt) ∅ ∅);;
      call env (Reply (created_text (new_id env) impact_dt))
  end.

(** [!deletemeteor]. *)
Definition delete_meteor (env : Env) : M unit :=
  g ← get_globals;
  match COUNTDOWN_CHANNEL_ID g, TARGET_TIME g with
  | None, None => call env (Reply nothing_to_delete_text)
  | _, _ =>
      deleted_channel_name ←
        match COUNTDOWN_CHANNEL_ID g with
        | Some id =>
            channel ← get_channel id;
            match channel with
            | Some n => try_ (call env (DeleteChannel id));; ret (Some n)
            | None => ret None
            end
        | None => ret None
        end;
      set_globals (λ _, MkGlobals None None ∅ ∅);;
      call env (Reply (deleted_text deleted_channel_name))
  end.

(** Ticks one after another: each runs from the globals the previous one
    left, with its own clock and oracle and with the channels as they look
    by then.  Returns the final globals and the whole log. *)
Fixpoint run_ticks (days hours : gset Z) (steps : list (Env * gmap Z string))
    (g : Globals) : Globals * Trace :=
  match steps with
  | [] => (g, [])
  | (env, gld) :: rest =>
      let '(_, w1, t1) := update_loop_with days hours env (MkWorld g gld) in
      let '(g2, t2) := run_ticks days hours rest (globals w1) in
      (g2, t1 ++ t2)
  end.

(** The globals the running bot can be in.  It starts from [initial] and
    runs the task and the two commands; a command may run while the task
    waits, so the two later parts of the task may come after it, with the
    local variables that some earlier start of the task had left.  (The
    commands change the globals in one step each; what two overlapping
    commands leave, one of them leaves alone.) *)
Inductive reachable : Globals → Prop :=
| reach_initial : reachable initial
| reach_tick env gld g :
    reachable g → reachable (globals (run (update_loop env) (MkWorld g gld)))
| reach_create env gld date time name g :
    reachable g →
    reachable (globals (run (create_meteor env date time name) (MkWorld g gld)))
| reach_delete env gld g :
    reachable g → reachable (globals (run (delete_meteor env) (MkWorld g gld)))
| reach_resume_days env0 gld0 g0 l env gld g :
    reachable g0 →
    result (update_loop_rename env0) (MkWorld g0 gld0) = Some (Some l) →
    reachable g →
    reachable (globals (run (update_loop_days REMINDER_DAYS env l) (MkWorld g gld)))
| reach_resume_hours env0 gld0 g0 l env gld g :
    reachable g0 →
    result (update_loop_rename env0) (MkWorld g0 gld0) = Some (Some l) →
    reachable g →
    reachable (globals (run (update_loop_hours REMINDER_HOURS env l) (MkWorld g gld))).

(** * Properties *)

(** ** Arithmetic of the seconds *)

Definition us_per_day : Z := 86400000000.
Definition us_per_hour : Z := 3600000000.
Arguments us_per_day : simpl never.
Arguments us_per_hour : simpl never.

Lemma expired_test (delta : timedelta) :
  Qle_bool (total_seconds delta) 0 = (delta <=? 0).
Proof.
  unfold Qle_bool, total_seconds; simpl.
  rewrite Z.mul_1_r. reflexivity.
Qed.

Lemma under_two_days_test (delta : timedelta) :
  negb (Qle_bool (2 * 86400) (total_seconds delta)) = (delta <? 2 * us_per_day).
Proof.
  unfold Qle_bool, total_seconds, us_per_day; simpl.
  rewrite Z.mul_1_r, Z.ltb_antisym. reflexivity.
Qed.

Lemma days_remaining_floor (delta : timedelta) :
  Py.floordiv (total_seconds delta) 86400 = delta / us_per_day.
Proof.
  unfold Py.floordiv, total_seconds, us_per_day, Qdiv, Qmult, Qinv, Qfloor; simpl.
  rewrite Z.mul_1_r. reflexivity.
Qed.

(** [round(total_seconds / 3600)] on whole microseconds. *)
Definition hours_rounded (delta : timedelta) : Z :=
  let f := delta / us_per_hour in
  match 2 * (delta mod us_per_hour) ?= us_per_hour with
  | Lt => f
  | Gt => f + 1
  | Eq => if Z.even f then f else f + 1
  end.

Arguments hours_rounded : simpl never.

Lemma hours_remaining_round (delta : timedelta) :
  Py.round (total_seconds delta / 3600) = hours_rounded delta.
Proof.
  unfold Py.round, hours_rounded, total_seconds, us_per_hour.
  unfold Qdiv, Qmult, Qinv, Qfloor, Qminus, Qplus, Qopp, Qcompare, inject_Z; simpl.
  change (Z.pos (1000000 * 3600)) with 3600000000.
  change (1 * Z.pos (1000000 * 3600 * 1)) with 3600000000.
  rewrite ?Z.mul_1_r.
  set (f := delta / 3600000000).
  replace ((delta + - f * 3600000000) * 2) with (2 * (delta mod 3600000000)).
  - reflexivity.
  - pose proof (Z.div_mod delta 3600000000 ltac:(lia)). subst f. lia.
Qed.

(** ** The floats of [total_seconds()] *)

(** The deltas whose seconds the float holds to better than half a
    microsecond: those below 2^34 seconds. *)
Definition float_exact_below : Z := 2 ^ 34 * 1000000.

Lemma nearest_even_bounds (n d : Z) :
  0 < d → 2 * d * Py.nearest_even n d - d ≤ 2 * n ≤ 2 * d * Py.nearest_even n d + d.
Proof.
  intros Hd. unfold Py.nearest_even.
  pose proof (Z.div_mod n d ltac:(lia)) as E.
  pose proof (Z.mod_pos_bound n d Hd) as B.
  destruct (Z.compare_spec (2 * (n mod d)) d); [destruct (Z.even _) | |]; nia.
Qed.


Lemma shift_pos (x k : Z) : 0 < x → 0 < Py.shift x k.
Proof. intros Hx. apply Z.mul_pos_pos; [done | apply Z.pow_pos_nonneg; lia]. Qed.

Lemma shift_nonneg (x k : Z) : 0 ≤ x → 0 ≤ Py.shift x k.
Proof. intros Hx. apply Z.mul_nonneg_nonneg; [done | apply Z.pow_nonneg; lia]. Qed.

Lemma shift_down (x k : Z) : k ≤ 0 → Py.shift x k = x.
Proof. intros Hk. unfold Py.shift. rewrite Z.max_l by lia. apply Z.mul_1_r. Qed.

Lemma nearest_even_nonneg (n d : Z) : 0 ≤ n → 0 < d → 0 ≤ Py.nearest_even n d.
Proof. intros Hn Hd. pose proof (nearest_even_bounds n d Hd). nia. Qed.

(** The float has the sign of the quotient, so truncating it gives a
    number on the same side of zero. *)
Lemma true_div_sign (n d : Z) :
  0 < d →
  (n ≤ 0 → Py.int_of_float (Py.true_div n d) ≤ 0)
  ∧ (0 ≤ n → 0 ≤ Py.int_of_float (Py.true_div n d)).
Proof.
  intros Hd. unfold Py.true_div, Py.int_of_float.
  destruct (Z.eqb_spec n 0) as [-> | Hn]; [done |].
  cbn [Qnum Qden].
  set (e := Py.exponent (Z.abs n) d).
  set (m := Py.nearest_even _ _).
  assert (0 ≤ Py.shift m (e - 52)) as Hm.
  { apply shift_nonneg, nearest_even_nonneg; [apply shift_nonneg; lia | by apply shift_pos]. }
  set (x := Py.shift m (e - 52)) in *. set (p := Z.pos _).
  assert (0 < p) as Hp by done. clearbody x p.
  split; intros Hs.
  - assert (Z.sgn n = -1) as -> by lia.
    Z.to_euclidean_division_equations. nia.
  - assert (Z.sgn n = 1) as -> by lia.
    Z.to_euclidean_division_equations. nia.
Qed.

Lemma exponent_small (delta : Z) :
  0 < delta < float_exact_below → Py.exponent delta 1000000 ≤ 33.
Proof.
  intros [Hpos Hlt]. unfold Py.exponent.
  change (Z.log2 1000000) with 19.
  assert (Z.log2 delta < 54) as Hlog.
  { apply Z.log2_lt_pow2; [done |]. unfold float_exact_below in Hlt. lia. }
  destruct (Z.leb_spec (Py.shift 1000000 (Z.log2 delta - 19))
                       (Py.shift delta (- (Z.log2 delta - 19)))) as [Hle | _]; [| lia].
  destruct (decide (Z.log2 delta - 19 ≤ 33)) as [| Hbig]; [done |].
  assert (Z.log2 delta = 53) as E by lia. rewrite E in Hle.
  exfalso. revert Hle. unfold float_exact_below in Hlt.
  change (Py.shift 1000000 (53 - 19)) with (2 ^ 34 * 1000000).
  rewrite shift_down by lia. lia.
Qed.


(** Below 2^34 seconds the float is [m / P] for a power of two [P], and
    lies in the same whole second as the delta. *)
Lemma float_seconds_near (delta : timedelta) :
  0 < delta < float_exact_below →
  ∃ m P, total_seconds_float delta = Qmake m (Z.to_pos P)
         ∧ 0 < P ∧ 0 < m
         ∧ delta / 1000000 * P ≤ m < (delta / 1000000 + 1) * P.
Proof.
  intros [Hpos Hlt]. unfold total_seconds_float, Py.true_div.
  destruct (Z.eqb_spec delta 0) as [-> | Hne]; [lia |].
  rewrite Z.abs_eq by lia.
  assert (Z.sgn delta = 1) as -> by lia.
  pose proof (exponent_small delta (conj Hpos Hlt)) as He.
  set (e := Py.exponent delta 1000000) in *.
  rewrite !(shift_down _ (e - 52)) by lia.
  unfold Py.shift. rewrite Z.max_r by lia.
  assert (2 ^ 19 ≤ 2 ^ (52 - e)) as HP by (apply Z.pow_le_mono_r; lia).
  set (P := 2 ^ (52 - e)) in *. clearbody P.
  rewrite Z.mul_1_l.
  pose proof (nearest_even_bounds (delta * P) 1000000 ltac:(lia)) as Hm.
  set (m := Py.nearest_even (delta * P) 1000000) in *. clearbody m.
  exists m, P. split; [reflexivity |].
  pose proof (Z.div_mod delta 1000000 ltac:(lia)) as Ed.
  pose proof (Z.mod_pos_bound delta 1000000 ltac:(lia)) as Hr.
  set (k := delta / 1000000) in *. set (r := delta mod 1000000) in *.
  assert (0 ≤ k) as Hk by (subst k; apply Z.div_pos; lia).
  assert (delta * P = 1000000 * (k * P) + r * P) as EP by (rewrite Ed; ring).
  assert (0 ≤ r * P ≤ 999999 * P) as Hv by nia.
  assert (0 ≤ k * P) as Hu by nia.
  assert (1 * P ≤ delta * P) as Hd by (apply Z.mul_le_mono_nonneg_r; lia).
  rewrite EP in Hm, Hd.
  rewrite Z.mul_add_distr_r, Z.mul_1_l.
  set (u := k * P) in *. set (v := r * P) in *. lia.
Qed.

(** Below 2^34 seconds, truncating the float of [total_seconds()] gives
    the whole seconds of the delta. *)
Lemma whole_seconds_exact (delta : timedelta) :
  0 ≤ delta < float_exact_below →
  Py.int_of_float (total_seconds_float delta) = delta / 1000000.
Proof.
  intros [Hnn Hlt].
  destruct (decide (delta = 0)) as [-> | Hne]; [reflexivity |].
  destruct (float_seconds_near delta ltac:(lia)) as (m & P & -> & HP & Hm & Hlo & Hhi).
  unfold Py.int_of_float. cbn [Qnum Qden]. rewrite Z2Pos.id by done.
  rewrite Z.quot_div_nonneg by lia.
  symmetry. apply (Z.div_unique m P _ (m - delta / 1000000 * P)); lia.
Qed.

(** [exponent] does not overshoot: [2^e <= a / d]. *)
Lemma exponent_le (a d : Z) :
  0 < a → 0 < d →
  Py.shift d (Py.exponent a d) ≤ Py.shift a (- Py.exponent a d).
Proof.
  intros Ha Hd. unfold Py.exponent.
  destruct (Z.leb_spec (Py.shift d (Z.log2 a - Z.log2 d))
                       (Py.shift a (- (Z.log2 a - Z.log2 d)))) as [Hle | _]; [done |].
  destruct (Z.log2_spec a Ha) as [Hla _]. destruct (Z.log2_spec d Hd) as [_ Hld].
  pose proof (Z.log2_nonneg a) as Hna. pose proof (Z.log2_nonneg d) as Hnd.
  set (la := Z.log2 a) in *. set (ld := Z.log2 d) in *. unfold Py.shift.
  destruct (Z.le_gt_cases (ld + 1) la) as [Hbig | Hsmall].
  - rewrite Z.max_r, Z.max_l, Z.mul_1_r by lia.
    assert (2 ^ la = 2 ^ (ld + 1) * 2 ^ (la - ld - 1)) as E.
    { rewrite <- Z.pow_add_r by lia. f_equal. lia. }
    assert (0 < 2 ^ (la - ld - 1)) by (apply Z.pow_pos_nonneg; lia).
    replace (Z.succ ld) with (ld + 1) in Hld by lia. nia.
  - rewrite Z.max_l, Z.max_r, Z.mul_1_r by lia.
    assert (2 ^ (ld + 1) = 2 ^ la * 2 ^ (- (la - ld - 1))) as E.
    { rewrite <- Z.pow_add_r by lia. f_equal. lia. }
    assert (0 < 2 ^ (- (la - ld - 1))) by (apply Z.pow_pos_nonneg; lia).
    replace (Z.succ ld) with (ld + 1) in Hld by lia. nia.
Qed.

(** The float of a quotient that is not zero is not zero. *)
Lemma significand_pos (a d : Z) :
  0 < a → 0 < d →
  let e := Py.exponent a d in
  0 < Py.nearest_even (Py.shift a (52 - e)) (Py.shift d (e - 52)).
Proof.
  intros Ha Hd e. pose proof (exponent_le a d Ha Hd) as He. fold e in He.
  assert (Py.shift d (e - 52) ≤ Py.shift a (52 - e)) as Hge.
  { revert He. unfold Py.shift.
    assert (∀ k, 0 ≤ k → 1 ≤ 2 ^ k) as Hpow.
    { intros k Hk. change 1 with (2 ^ 0). apply Z.pow_le_mono_r; lia. }
    destruct (Z.le_gt_cases 52 e) as [H52 | H52].
    - rewrite (Z.max_r 0 e), (Z.max_l 0 (- e)), (Z.max_r 0 (e - 52)),
        (Z.max_l 0 (52 - e)), !Z.mul_1_r by lia.
      intros He. etrans; [| exact He].
      apply Z.mul_le_mono_nonneg_l; [lia |]. apply Z.pow_le_mono_r; lia.
    - rewrite (Z.max_l 0 (e - 52)), (Z.max_r 0 (52 - e)), Z.mul_1_r by lia.
      destruct (Z.le_gt_cases 0 e) as [H0 | H0].
      + rewrite (Z.max_r 0 e), (Z.max_l 0 (- e)), Z.mul_1_r by lia. intros He.
        pose proof (Hpow e H0). pose proof (Hpow (52 - e) ltac:(lia)). nia.
      + rewrite (Z.max_l 0 e), (Z.max_r 0 (- e)), Z.mul_1_r by lia. intros He.
        etrans; [exact He |].
        apply Z.mul_le_mono_nonneg_l; [lia |]. apply Z.pow_le_mono_r; lia. }
  pose proof (shift_pos d (e - 52) Hd) as Hden.
  pose proof (nearest_even_bounds (Py.shift a (52 - e)) (Py.shift d (e - 52)) Hden).
  nia.
Qed.

(** The float of [total_seconds()] has the sign of the delta, whatever
    its size. *)
Lemma float_sign (delta : timedelta) :
  Qle_bool (total_seconds_float delta) 0 = Qle_bool (total_seconds delta) 0.
Proof.
  assert (Qle_bool (total_seconds delta) 0 = (delta <=? 0)) as ->.
  { unfold Qle_bool, total_seconds; simpl. by rewrite Z.mul_1_r. }
  unfold total_seconds_float, Py.true_div, Qle_bool.
  destruct (Z.eqb_spec delta 0) as [-> | Hne]; [reflexivity |].
  cbn [Qnum Qden].
  pose proof (significand_pos (Z.abs delta) 1000000 ltac:(lia) ltac:(lia)) as Hm.
  cbv zeta in Hm.
  set (e := Py.exponent (Z.abs delta) 1000000) in *.
  set (m := Py.nearest_even _ _) in *.
  pose proof (shift_pos m (e - 52) Hm) as Hs.
  destruct (Z.leb_spec delta 0) as [Hle | Hpos].
  - apply Z.leb_le. assert (Z.sgn delta = -1) as -> by lia. lia.
  - apply Z.leb_gt. assert (Z.sgn delta = 1) as -> by lia. lia.
Qed.

(** Below 2^34 seconds, the floor by 86400 and the 48-hour gate of
    [update_loop] come out on the float as on the quotient itself. *)
Lemma float_tests_agree (delta : timedelta) :
  0 < delta < float_exact_below →
  Py.floordiv (total_seconds_float delta) 86400 = Py.floordiv (total_seconds delta) 86400
  ∧ Qle_bool (2 * 86400) (total_seconds_float delta)
    = Qle_bool (2 * 86400) (total_seconds delta).
Proof.
  intros Hd.
  destruct (float_seconds_near delta Hd) as (m & P & -> & HP & Hm & Hlo & Hhi).
  split.
  - unfold Py.floordiv, total_seconds, Qdiv, Qmult, Qinv, Qfloor. cbn [Qnum Qden].
    change (Z.pos (1000000 * 86400)) with (1000000 * 86400).
    rewrite Pos2Z.inj_mul, Z2Pos.id, !Z.mul_1_r by done.
    change (Z.pos 86400) with 86400.
    rewrite <- !Z.div_div by lia. f_equal.
    symmetry. apply (Z.div_unique m P _ (m - delta / 1000000 * P)); lia.
  - unfold Qle_bool, total_seconds. cbn [Qnum Qden Qmult].
    rewrite Z2Pos.id, !Z.mul_1_r by done.
    change (Z.pos (1 * 1)) with 1. change (2 * 86400 * Z.pos 1000000) with 172800000000.
    change (2 * 86400) with 172800.
    destruct (Z.leb_spec 172800000000 delta) as [Hge | Hlt2].
    + apply Z.leb_le.
      assert (172800 ≤ delta / 1000000) by (apply Z.div_le_lower_bound; lia).
      nia.
    + apply Z.leb_gt.
      assert (delta / 1000000 < 172800) by (apply Z.div_lt_upper_bound; lia).
      nia.
Qed.

(** ** What one tick does, case by case *)

(** The channel object the task works on: the cached one, else the
    fetched one. *)
Definition resolve (env : Env) (gld : gmap Z string) (id : Z) : option string :=
  match gld !! id with
  | Some n => Some n
  | None => fetch_channel env id
  end.

(** The part of the log an optional call contributes. *)
Definition logged (b : bool) (a : Action) (g : Globals) : Trace :=
  if b then [(a, g)] else [].

(** Runs the monad's plumbing, and nothing else. *)
Ltac run_m :=
  cbv beta iota zeta delta
    [globals guild mbind M_bind bind mret M_ret ret get_globals get_channel
     set_globals when try_ call fire_day fire_hour];
  cbn beta iota zeta delta [logged app negb andb].

(** Projections of outcomes and of the globals, and nothing else. *)
Ltac proj :=
  cbn beta iota zeta delta
    [fst snd globals guild run trace result mark_day mark_hour
     COUNTDOWN_CHANNEL_ID TARGET_TIME sent_day_reminders sent_hour_reminders].

Section TickShape.

Variable days hours : gset Z.
Variables (env : Env) (g : Globals) (gld : gmap Z string).

Lemma update_loop_idle :
  (TARGET_TIME g = None ∨ COUNTDOWN_CHANNEL_ID g = None
   ∨ ∃ id, COUNTDOWN_CHANNEL_ID g = Some id ∧ resolve env gld id = None) →
  update_loop_with days hours env (MkWorld g gld) = (Some (), MkWorld g gld, []).
Proof.
  unfold update_loop_with, resolve. run_m.
  intros [H | [H | (id & H & Hr)]]; rewrite H.
  - reflexivity.
  - destruct (TARGET_TIME g); reflexivity.
  - destruct (TARGET_TIME g); [| reflexivity]. run_m.
    rewrite Hr. reflexivity.
Qed.

Variables (target : datetime) (id : Z) (name : string).
Hypothesis Htarget : TARGET_TIME g = Some target.
Hypothesis Hid : COUNTDOWN_CHANNEL_ID g = Some id.
Hypothesis Hname : resolve env gld id = Some name.

Let remaining := datetime_sub target (now env).

Lemma update_loop_expired :
  remaining ≤ 0 →
  let rename := negb (String.eqb name FINISHED_NAME) in
  update_loop_with days hours env (MkWorld g gld)
  = (Some (),
     MkWorld g (if rename && negb (raises env (Edit id FINISHED_NAME))
                then <[id := FINISHED_NAME]> gld else gld),
     logged rename (Edit id FINISHED_NAME) g).
Proof.
  intros Hle. unfold update_loop_with. run_m. rewrite Htarget, Hid. run_m.
  unfold resolve in Hname. rewrite Hname.
  fold remaining. rewrite expired_test.
  destruct (Z.leb_spec remaining 0); [| lia].
  destruct (String.eqb name FINISHED_NAME); run_m; [reflexivity |].
  destruct (raises env (Edit id FINISHED_NAME)); reflexivity.
Qed.

Lemma update_loop_active :
  0 < remaining →
  let new_name := countdown_name remaining in
  let rename := negb (String.eqb name new_name) in
  let d := remaining / us_per_day in
  let fire_d := bool_decide (d ∈ days) && bool_decide (d ∉ sent_day_reminders g) in
  let g1 := if fire_d then mark_day d g else g in
  let h := hours_rounded remaining in
  let fire_h := (remaining <? 2 * us_per_day)
                && (bool_decide (h ∈ hours) && bool_decide (h ∉ sent_hour_reminders g)) in
  let g2 := if fire_h then mark_hour h g1 else g1 in
  update_loop_with days hours env (MkWorld g gld)
  = (Some (),
     MkWorld g2 (if rename && negb (raises env (Edit id new_name))
                 then <[id := new_name]> gld else gld),
     logged rename (Edit id new_name) g
     ++ logged fire_d (Send id (day_text d)) g1
     ++ logged fire_h (Send id (hour_text h)) g2).
Proof.
  intros Hpos. unfold update_loop_with. run_m. rewrite Htarget, Hid. run_m.
  unfold resolve in Hname. rewrite Hname.
  fold remaining.
  rewrite expired_test, under_two_days_test, days_remaining_floor, hours_remaining_round.
  destruct (Z.leb_spec remaining 0); [lia |].
  set (d := remaining / us_per_day). set (h := hours_rounded remaining).
  set (new_name := countdown_name remaining).
  destruct (String.eqb name new_name); run_m;
    [| destruct (raises env (Edit id new_name)); run_m];
    (destruct (bool_decide (d ∈ days)); run_m;
     [ change (sent_day_reminders g) with (sent_day_reminders g);
       destruct (bool_decide (d ∉ sent_day_reminders g)); run_m;
       [ destruct (raises env (Send id (day_text d))); run_m |] |]);
    (destruct (remaining <? 2 * us_per_day); run_m; [| reflexivity]);
    (destruct (bool_decide (h ∈ hours)); run_m; [| reflexivity]);
    cbn [sent_hour_reminders mark_day];
    (destruct (bool_decide (h ∉ sent_hour_reminders g)); run_m; [| reflexivity]);
    destruct (raises env (Send id (hour_text h))); reflexivity.
Qed.

End TickShape.

(** ** The reminder texts name their threshold *)

Fixpoint no_space (s : string) : bool :=
  match s with
  | EmptyString => true
  | String c s' => negb (Ascii.eqb c " ") && no_space s'
  end.

Lemma pretty_N_go_no_space (x : N) (s : string) :
  no_space s = true → no_space (pretty_N_go x s) = true.
Proof.
  revert s. induction (N.lt_wf_0 x) as [x _ IH]; intros s Hs.
  destruct (decide (x = 0)%N) as [-> | Hx].
  - by rewrite pretty_N_go_0.
  - rewrite pretty_N_go_step by lia. apply IH.
    + apply N.div_lt; lia.
    + simpl. rewrite Hs, andb_true_r.
      unfold pretty_N_char. by repeat case_match.
Qed.

Lemma str_no_space (n : Z) : no_space (Py.str n) = true.
Proof.
  unfold Py.str, pretty, pretty_Z.
  assert (∀ p : positive, no_space (pretty p) = true) as Hp.
  { intros p. unfold pretty, pretty_positive, pretty, pretty_N.
    case_decide; [done |]. by apply pretty_N_go_no_space. }
  destruct n as [| p | p]; [done | apply Hp |].
  simpl. apply Hp.
Qed.

Lemma until_space (a b r1 r2 : string) :
  no_space a = true → no_space b = true →
  a +:+ String " " r1 = b +:+ String " " r2 → a = b ∧ r1 = r2.
Proof.
  revert b. induction a as [| c a IH]; intros [| c' b] Ha Hb Heq; simpl in *.
  - by injection Heq.
  - injection Heq as <- _. by rewrite Ascii.eqb_refl in Hb.
  - injection Heq as -> _. by rewrite Ascii.eqb_refl in Ha.
  - injection Heq as -> Heq.
    apply andb_true_iff in Ha as [_ Ha]. apply andb_true_iff in Hb as [_ Hb].
    destruct (IH b Ha Hb Heq) as [-> ->]. done.
Qed.

Lemma day_text_inj (n m : Z) : day_text n = day_text m → n = m.
Proof.
  unfold day_text. intros H. apply (inj (String.append _)) in H.
  apply until_space in H as [H _]; auto using str_no_space.
  by apply (inj pretty).
Qed.

Lemma hour_text_inj (n m : Z) : hour_text n = hour_text m → n = m.
Proof.
  unfold hour_text. intros H. apply (inj (String.append _)) in H.
  apply until_space in H as [H _]; auto using str_no_space.
  by apply (inj pretty).
Qed.

Lemma day_text_not_hour_text (n m : Z) : day_text n ≠ hour_text m.
Proof.
  unfold day_text, hour_text. intros H. apply (inj (String.append _)) in H.
  apply until_space in H as [_ H]; auto using str_no_space.
  discriminate H.
Qed.

(** ** Every tick is one of three *)

(** The name the channel should show. *)
Definition desired_name (remaining : timedelta) : string :=
  if remaining <=? 0 then FINISHED_NAME else countdown_name remaining.

Definition is_edit (a : Action) : bool :=
  match a with Edit _ _ => true | _ => false end.

Definition is_send (a : Action) : bool :=
  match a with Send _ _ => true | _ => false end.

Section TickFacts.

Variable days hours : gset Z.
Implicit Types (env : Env) (g gs : Globals) (gld : gmap Z string) (n id : Z).

Local Abbreviation tick env g gld := (update_loop_with days hours env (MkWorld g gld)).

(** The outcome of a tick that reaches the channel, as a function of
    what it saw. *)
Definition tick_outcome env g gld (remaining : timedelta) id (name : string)
    : option unit * World * Trace :=
  if remaining <=? 0 then
    let rename := negb (String.eqb name FINISHED_NAME) in
    (Some (),
     MkWorld g (if rename && negb (raises env (Edit id FINISHED_NAME))
                then <[id := FINISHED_NAME]> gld else gld),
     logged rename (Edit id FINISHED_NAME) g)
  else
    let new_name := countdown_name remaining in
    let rename := negb (String.eqb name new_name) in
    let d := remaining / us_per_day in
    let fire_d := bool_decide (d ∈ days) && bool_decide (d ∉ sent_day_reminders g) in
    let g1 := if fire_d then mark_day d g else g in
    let h := hours_rounded remaining in
    let fire_h := (remaining <? 2 * us_per_day)
                  && (bool_decide (h ∈ hours) && bool_decide (h ∉ sent_hour_reminders g)) in
    let g2 := if fire_h then mark_hour h g1 else g1 in
    (Some (),
     MkWorld g2 (if rename && negb (raises env (Edit id new_name))
                 then <[id := new_name]> gld else gld),
     logged rename (Edit id new_name) g
     ++ logged fire_d (Send id (day_text d)) g1
     ++ logged fire_h (Send id (hour_text h)) g2).

Lemma tick_resolved env g gld target id name :
  TARGET_TIME g = Some target → COUNTDOWN_CHANNEL_ID g = Some id →
  resolve env gld id = Some name →
  tick env g gld = tick_outcome env g gld (datetime_sub target (now env)) id name.
Proof.
  intros Ht Hi Hn. unfold tick_outcome.
  destruct (Z.leb_spec (datetime_sub target (now env)) 0).
  - by apply (update_loop_expired days hours env g gld target id name).
  - by apply (update_loop_active days hours env g gld target id name).
Qed.

Lemma tick_cases env g gld :
  tick env g gld = (Some (), MkWorld g gld, [])
  ∨ ∃ target id name,
      TARGET_TIME g = Some target ∧ COUNTDOWN_CHANNEL_ID g = Some id
      ∧ resolve env gld id = Some name
      ∧ tick env g gld = tick_outcome env g gld (datetime_sub target (now env)) id name.
Proof.
  destruct (TARGET_TIME g) as [target |] eqn:Ht;
    [| left; apply update_loop_idle; auto].
  destruct (COUNTDOWN_CHANNEL_ID g) as [id |] eqn:Hi;
    [| left; apply update_loop_idle; auto].
  destruct (resolve env gld id) as [name |] eqn:Hn;
    [| left; apply update_loop_idle; eauto].
  right. exists target, id, name. repeat split; try done.
  by apply tick_resolved.
Qed.

(** A tick never raises and leaves the event as configured. *)
Lemma tick_keeps_event env g gld :
  let g' := globals (run (update_loop_with days hours env) (MkWorld g gld)) in
  TARGET_TIME g' = TARGET_TIME g ∧ COUNTDOWN_CHANNEL_ID g' = COUNTDOWN_CHANNEL_ID g
  ∧ sent_day_reminders g ⊆ sent_day_reminders g'
  ∧ sent_hour_reminders g ⊆ sent_hour_reminders g'.
Proof.
  intros g'. subst g'. unfold run.
  destruct (tick_cases env g gld) as [-> | (target & id & name & _ & _ & _ & ->)].
  - done.
  - unfold tick_outcome. destruct (_ <=? 0); proj; [done |].
    repeat match goal with |- context [if ?b then mark_day _ _ else _] => destruct b end;
      repeat match goal with |- context [if ?b then mark_hour _ _ else _] => destruct b end;
      proj; repeat split; try done; set_solver.
Qed.

End TickFacts.

Lemma elem_of_logged (b : bool) (a : Action) (g : Globals) (x : Action * Globals) :
  x ∈ logged b a g ↔ b = true ∧ x = (a, g).
Proof.
  unfold logged. destruct b.
  - rewrite list_elem_of_singleton. tauto.
  - rewrite elem_of_nil. split; [tauto | intros [? _]; discriminate].
Qed.

Lemma elem_of_actions (a : Action) (t : Trace) :
  a ∈ actions t ↔ ∃ gs, (a, gs) ∈ t.
Proof.
  unfold actions. rewrite list_elem_of_fmap. split.
  - intros ([a' gs] & -> & H). by exists gs.
  - intros (gs & H). by exists (a, gs).
Qed.

Lemma marked_day (n : Z) (g : Globals) : n ∈ sent_day_reminders (mark_day n g).
Proof. apply elem_of_union_l, elem_of_singleton. reflexivity. Qed.

Lemma marked_hour (n : Z) (g : Globals) : n ∈ sent_hour_reminders (mark_hour n g).
Proof. apply elem_of_union_l, elem_of_singleton. reflexivity. Qed.

Lemma send_entry_eq ch text (gs : Globals) ch' text' gs' :
  (Send ch text, gs) = (Send ch' text', gs') → ch = ch' ∧ text = text' ∧ gs = gs'.
Proof. intros H. by injection H. Qed.

Lemma edit_entry_eq ch name (gs : Globals) ch' name' gs' :
  (Edit ch name, gs) = (Edit ch' name', gs') → ch = ch' ∧ name = name' ∧ gs = gs'.
Proof. intros H. by injection H. Qed.

Section TickSends.

Variable days hours : gset Z.
Implicit Types (env : Env) (g gs : Globals) (gld : gmap Z string) (n id : Z).

Local Abbreviation tick env := (update_loop_with days hours env).

(** A day reminder in the log of a tick: what was true when it was
    attempted, and after the tick. *)
Lemma day_send_inv env g gld ch n gs :
  (Send ch (day_text n), gs) ∈ trace (tick env) (MkWorld g gld) →
  ∃ target name,
    TARGET_TIME g = Some target ∧ COUNTDOWN_CHANNEL_ID g = Some ch
    ∧ resolve env gld ch = Some name
    ∧ 0 < datetime_sub target (now env)
    ∧ n = (datetime_sub target (now env) / us_per_day)
    ∧ n ∈ days ∧ (n ∉ sent_day_reminders g)
    ∧ n ∈ sent_day_reminders gs
    ∧ n ∈ sent_day_reminders (globals (run (tick env) (MkWorld g gld))).
Proof.
  unfold trace, run.
  destruct (tick_cases days hours env g gld)
    as [-> | (target & id & name & Ht & Hi & Hn & ->)]; proj.
  { intros Hx. by apply elem_of_nil in Hx. }
  unfold tick_outcome. destruct (Z.leb_spec (datetime_sub target (now env)) 0); proj.
  { intros Hx. apply elem_of_logged in Hx as [_ Hx]. discriminate Hx. }
  rewrite !elem_of_app, !elem_of_logged.
  intros [[_ [=]] | [[Hf (-> & Hd & ->)%send_entry_eq] | [_ (_ & Hd & _)%send_entry_eq]]].
  - apply day_text_inj in Hd as ->.
    apply andb_true_iff in Hf as Hf'. destruct Hf' as [Hin Hnot].
    apply bool_decide_eq_true in Hin, Hnot. rewrite Hf.
    exists target, name. split_and!; try done.
    + apply marked_day.
    + match goal with |- context [if ?b then mark_hour _ _ else _] => destruct b end;
        apply marked_day.
  - by apply day_text_not_hour_text in Hd.
Qed.

Lemma hour_send_inv env g gld ch n gs :
  (Send ch (hour_text n), gs) ∈ trace (tick env) (MkWorld g gld) →
  ∃ target name,
    TARGET_TIME g = Some target ∧ COUNTDOWN_CHANNEL_ID g = Some ch
    ∧ resolve env gld ch = Some name
    ∧ 0 < datetime_sub target (now env) < 2 * us_per_day
    ∧ n = (hours_rounded (datetime_sub target (now env)))
    ∧ n ∈ hours ∧ (n ∉ sent_hour_reminders g)
    ∧ n ∈ sent_hour_reminders gs
    ∧ n ∈ sent_hour_reminders (globals (run (tick env) (MkWorld g gld))).
Proof.
  unfold trace, run.
  destruct (tick_cases days hours env g gld)
    as [-> | (target & id & name & Ht & Hi & Hn & ->)]; proj.
  { intros Hx. by apply elem_of_nil in Hx. }
  unfold tick_outcome. destruct (Z.leb_spec (datetime_sub target (now env)) 0); proj.
  { intros Hx. apply elem_of_logged in Hx as [_ Hx]. discriminate Hx. }
  rewrite !elem_of_app, !elem_of_logged.
  intros [[_ [=]] | [[_ (_ & Hd & _)%send_entry_eq] | [Hf (-> & Hd & ->)%send_entry_eq]]].
  - symmetry in Hd. by apply day_text_not_hour_text in Hd.
  - apply hour_text_inj in Hd as ->.
    apply andb_true_iff in Hf as Hf'. destruct Hf' as [Hlt Hf'].
    apply andb_true_iff in Hf' as [Hin Hnot].
    apply bool_decide_eq_true in Hin, Hnot. apply Z.ltb_lt in Hlt. rewrite Hf.
    exists target, name. split_and!; try done; apply marked_hour.
Qed.

(** Every send of a tick is a day reminder or an hour reminder. *)
Lemma send_inv env g gld ch text gs :
  (Send ch text, gs) ∈ trace (tick env) (MkWorld g gld) →
  ∃ target, TARGET_TIME g = Some target ∧ 0 < datetime_sub target (now env)
            ∧ ∃ n, text = day_text n ∨ text = hour_text n.
Proof.
  unfold trace.
  destruct (tick_cases days hours env g gld)
    as [-> | (target & id & name & Ht & Hi & Hn & ->)]; proj.
  { intros Hx. by apply elem_of_nil in Hx. }
  unfold tick_outcome. destruct (Z.leb_spec (datetime_sub target (now env)) 0); proj.
  { intros Hx. apply elem_of_logged in Hx as [_ Hx]. discriminate Hx. }
  rewrite !elem_of_app, !elem_of_logged.
  intros [[_ [=]] | [[_ (_ & -> & _)%send_entry_eq] | [_ (_ & -> & _)%send_entry_eq]]];
    eauto 6.
Qed.

(** Every rename of a tick sets the desired name, which the channel did
    not have. *)
Lemma outcome_edit env g gld target id name ch new_name gs :
  (Edit ch new_name, gs)
    ∈ (tick_outcome days hours env g gld (datetime_sub target (now env)) id name).2 →
  ch = id ∧ new_name = desired_name (datetime_sub target (now env))
  ∧ String.eqb name new_name = false.
Proof.
  unfold tick_outcome, desired_name.
  destruct (Z.leb_spec (datetime_sub target (now env)) 0); proj.
  - intros Hx. apply elem_of_logged in Hx as [Hr (-> & -> & _)%edit_entry_eq].
    by apply negb_true_iff in Hr.
  - rewrite !elem_of_app, !elem_of_logged.
    intros [[Hr (-> & -> & _)%edit_entry_eq] | [[_ [=]] | [_ [=]]]].
    by apply negb_true_iff in Hr.
Qed.

Lemma edit_inv env g gld ch new_name gs :
  (Edit ch new_name, gs) ∈ trace (tick env) (MkWorld g gld) →
  ∃ target name,
    TARGET_TIME g = Some target ∧ COUNTDOWN_CHANNEL_ID g = Some ch
    ∧ resolve env gld ch = Some name
    ∧ new_name = desired_name (datetime_sub target (now env))
    ∧ name ≠ new_name.
Proof.
  unfold trace.
  destruct (tick_cases days hours env g gld)
    as [-> | (target & id & name & Ht & Hi & Hn & ->)]; proj.
  { intros Hx. by apply elem_of_nil in Hx. }
  intros (-> & Hd & Hr)%outcome_edit.
  exists target, name. split_and!; try done. by apply String.eqb_neq.
Qed.

(** When a threshold is due, its reminder is attempted. *)
Lemma day_fires env g gld target id name :
  TARGET_TIME g = Some target → COUNTDOWN_CHANNEL_ID g = Some id →
  resolve env gld id = Some name →
  let remaining := datetime_sub target (now env) in
  0 < remaining →
  remaining / us_per_day ∈ days →
  remaining / us_per_day ∉ sent_day_reminders g →
  Send id (day_text (remaining / us_per_day)) ∈ actions (trace (tick env) (MkWorld g gld)).
Proof.
  intros Ht Hi Hn remaining Hpos Hin Hnot. unfold trace.
  rewrite (tick_resolved days hours env g gld target id name Ht Hi Hn).
  unfold tick_outcome. fold remaining.
  destruct (Z.leb_spec remaining 0); [lia |]. proj.
  apply elem_of_actions. eexists. rewrite !elem_of_app, !elem_of_logged.
  right; left. split; [| reflexivity].
  apply andb_true_iff. by rewrite !bool_decide_eq_true.
Qed.

Lemma hour_fires env g gld target id name :
  TARGET_TIME g = Some target → COUNTDOWN_CHANNEL_ID g = Some id →
  resolve env gld id = Some name →
  let remaining := datetime_sub target (now env) in
  0 < remaining < 2 * us_per_day →
  hours_rounded remaining ∈ hours →
  hours_rounded remaining ∉ sent_hour_reminders g →
  Send id (hour_text (hours_rounded remaining)) ∈ actions (trace (tick env) (MkWorld g gld)).
Proof.
  intros Ht Hi Hn remaining [Hpos Hlt] Hin Hnot. unfold trace.
  rewrite (tick_resolved days hours env g gld target id name Ht Hi Hn).
  unfold tick_outcome. fold remaining.
  destruct (Z.leb_spec remaining 0); [lia |]. proj.
  apply elem_of_actions. eexists. rewrite !elem_of_app, !elem_of_logged.
  right; right. split; [| reflexivity].
  rewrite !andb_true_iff, !bool_decide_eq_true, Z.ltb_lt. done.
Qed.

End TickSends.

(** * The claims *)

(** ** A concrete event, for the examples

    The impact is set for 2026-01-20 16:47 UTC; channel 5 shows the
    countdown. *)

Definition ex_target : datetime := Datetime 2026 1 20 16 47 0 0 (Some utc).
Definition ex_globals : Globals := MkGlobals (Some 5) (Some ex_target) ∅ ∅.
Definition ex_guild : gmap Z string := {[ 5 := "meteor-impact" ]}.

(** A clock reading in January 2026. *)
Definition jan (d h mi s us : Z) : datetime := Datetime 2026 1 d h mi s us (Some utc).

(** An environment where nothing can be fetched and [failing] says which
    calls raise. *)
Definition ex_env (t : datetime) (failing : Action → bool) : Env :=
  MkEnv t (λ _, None) failing 77.

Definition no_failure : Action → bool := λ _, false.
Definition sends_fail : Action → bool := is_send.
Definition edits_fail : Action → bool := is_edit.

Lemma in_gset (x : Z) (X : gset Z) : bool_decide (x ∈ X) = true → x ∈ X.
Proof. apply bool_decide_eq_true. Qed.

Lemma not_in_gset (x : Z) (X : gset Z) : bool_decide (x ∈ X) = false → x ∉ X.
Proof. apply bool_decide_eq_false. Qed.

(** ** C1: the duration formatter *)

(** The whole seconds the formatter starts from:
    [int(delta.total_seconds())]. *)
Definition whole_seconds (delta : timedelta) : Z :=
  Py.int_of_float (total_seconds_float delta).

(** The formatter as the specification words it: a delta that is
    negative or zero counts as zero; from the whole seconds take the whole
    days, the hours of the day and the minutes of the hour, and write the
    components that are due with one space between them. *)
Definition format_time_spec (delta : timedelta) : string :=
  let seconds := if delta <=? 0 then 0 else whole_seconds delta in
  let days := seconds / 86400 in
  let hours := (seconds / 3600) mod 24 in
  let minutes := (seconds / 60) mod 60 in
  (if days >? 0 then Py.str days +:+ "d " else "")
  +:+ (if (hours >? 0) || (days >? 0) then Py.str hours +:+ "h " else "")
  +:+ Py.str minutes +:+ "m".

Lemma append_assoc (a b c : string) : (a +:+ b) +:+ c = a +:+ (b +:+ c).
Proof.
  induction a as [| x a IH]; [reflexivity |].
  change (String x ((a +:+ b) +:+ c) = String x (a +:+ (b +:+ c))).
  by rewrite IH.
Qed.

(** Clamping the truncated float is clamping the delta. *)
Lemma clamped_seconds (delta : timedelta) :
  (if whole_seconds delta <? 0 then 0 else whole_seconds delta)
  = (if delta <=? 0 then 0 else whole_seconds delta)
  ∧ 0 ≤ (if delta <=? 0 then 0 else whole_seconds delta).
Proof.
  unfold whole_seconds, total_seconds_float.
  destruct (true_div_sign delta 1000000 ltac:(lia)) as [Hneg Hpos].
  destruct (Z.leb_spec delta 0) as [Hle | Hgt].
  - specialize (Hneg Hle).
    destruct (Z.ltb_spec (Py.int_of_float (Py.true_div delta 1000000)) 0); lia.
  - specialize (Hpos ltac:(lia)).
    destruct (Z.ltb_spec (Py.int_of_float (Py.true_div delta 1000000)) 0); lia.
Qed.

Lemma length_append (a b : string) :
  String.length (a +:+ b) = (String.length a + String.length b)%nat.
Proof.
  induction a as [| c a IH]; [reflexivity |].
  change (S (String.length (a +:+ b)) = S (String.length a + String.length b)).
  by rewrite IH.
Qed.

Lemma hms_of_seconds (s : Z) :
  0 ≤ s →
  (s mod 86400) / 3600 = (s / 3600) mod 24
  ∧ ((s mod 86400) mod 3600) / 60 = (s / 60) mod 60.
Proof. intros Hs. Z.to_euclidean_division_equations. lia. Qed.

Lemma format_time_as_spec (delta : timedelta) :
  format_time delta = format_time_spec delta.
Proof.
  cbv beta iota zeta delta [format_time format_time_spec Py.divmod].
  fold (whole_seconds delta).
  destruct (clamped_seconds delta) as [-> Hs].
  set (s := if delta <=? 0 then 0 else whole_seconds delta) in *.
  destruct (hms_of_seconds s Hs) as [-> ->].
  unfold Py.join.
  destruct (s / 86400 >? 0); destruct ((s / 3600) mod 24 >? 0);
    cbn [orb app String.concat];
    rewrite ?append_assoc; reflexivity.
Qed.


(** ** Runs of ticks *)

Section Runs.

Variable days hours : gset Z.
Implicit Types (env : Env) (g gs : Globals) (gld : gmap Z string) (n id : Z).
Implicit Types steps : list (Env * gmap Z string).

Local Abbreviation tick env := (update_loop_with days hours env).

Lemma run_ticks_cons env gld steps g :
  run_ticks days hours ((env, gld) :: steps) g
  = let g1 := globals (run (tick env) (MkWorld g gld)) in
    ((run_ticks days hours steps g1).1,
     trace (tick env) (MkWorld g gld) ++ (run_ticks days hours steps g1).2).
Proof.
  cbn [run_ticks]. unfold run, trace.
  destruct (tick env (MkWorld g gld)) as [[r w1] t1]. cbn [fst snd].
  destruct (run_ticks days hours steps (globals w1)) as [g2 t2]. reflexivity.
Qed.


(** A threshold that is marked is not sent again, whatever the later
    ticks see. *)
Lemma marked_day_never_sent steps g n ch :
  n ∈ sent_day_reminders g →
  Send ch (day_text n) ∉ actions (run_ticks days hours steps g).2.
Proof.
  revert g. induction steps as [| [env gld] steps IH]; intros g Hn.
  - cbn. apply not_elem_of_nil.
  - rewrite run_ticks_cons. cbn [snd]. unfold actions. rewrite fmap_app.
    rewrite not_elem_of_app. split.
    + intros (gs & Hin)%elem_of_actions.
      apply day_send_inv in Hin as (? & ? & _ & _ & _ & _ & _ & _ & Hnot & _).
      by apply Hnot.
    + apply IH.
      destruct (tick_keeps_event days hours env g gld) as (_ & _ & Hd & _).
      by apply Hd.
Qed.

Lemma marked_hour_never_sent steps g n ch :
  n ∈ sent_hour_reminders g →
  Send ch (hour_text n) ∉ actions (run_ticks days hours steps g).2.
Proof.
  revert g. induction steps as [| [env gld] steps IH]; intros g Hn.
  - cbn. apply not_elem_of_nil.
  - rewrite run_ticks_cons. cbn [snd]. unfold actions. rewrite fmap_app.
    rewrite not_elem_of_app. split.
    + intros (gs & Hin)%elem_of_actions.
      apply hour_send_inv in Hin as (? & ? & _ & _ & _ & _ & _ & _ & Hnot & _).
      by apply Hnot.
    + apply IH.
      destruct (tick_keeps_event days hours env g gld) as (_ & _ & _ & Hh).
      by apply Hh.
Qed.

(** The globals a tick leaves do not depend on which calls raised. *)
Lemma tick_globals_oracle_free env env' g gld :
  now env' = now env → fetch_channel env' = fetch_channel env →
  globals (run (tick env') (MkWorld g gld)) = globals (run (tick env) (MkWorld g gld)).
Proof.
  intros Hnow Hfetch. unfold run.
  destruct (TARGET_TIME g) as [target |] eqn:Ht;
    [| rewrite !update_loop_idle by auto; reflexivity].
  destruct (COUNTDOWN_CHANNEL_ID g) as [id |] eqn:Hi;
    [| rewrite !update_loop_idle by auto; reflexivity].
  assert (resolve env' gld id = resolve env gld id) as Hres.
  { unfold resolve. by rewrite Hfetch. }
  destruct (resolve env gld id) as [name |] eqn:Hn.
  - rewrite (tick_resolved days hours env g gld target id name) by done.
    rewrite (tick_resolved days hours env' g gld target id name) by done.
    rewrite Hnow. unfold tick_outcome.
    destruct (_ <=? 0); reflexivity.
  - rewrite !update_loop_idle by eauto. reflexivity.
Qed.

End Runs.

(** ** C2: the marker goes in before the send, and stays *)

(** C2. A tick that decides to fire a day (hour) reminder, the threshold
    being one of the set and not yet in the fired-set, first puts the
    threshold in the fired-set and then attempts the send: the send is in
    the log with the threshold already in the fired-set of its snapshot.
    Whether or not the send raises, the threshold is in the fired-set after
    the tick, and no later tick of the same event configuration sends that
    reminder again.  Every reminder attempted in a tick has its threshold
    in the fired-set by then, and the globals a tick leaves are the same
    whichever calls raise. *)
Theorem marker_set_before_send (days hours : gset Z) (env : Env)
    (g : Globals) (gld : gmap Z string) (target : datetime) (id : Z)
    (name : string) :
  TARGET_TIME g = Some target → COUNTDOWN_CHANNEL_ID g = Some id →
  resolve env gld id = Some name →
  let remaining := datetime_sub target (now env) in
  let w := MkWorld g gld in
  let m := update_loop_with days hours env in
  let d := Py.floordiv (total_seconds remaining) 86400 in
  let h := Py.round (total_seconds remaining / 3600) in
  0 < remaining →
  (d ∈ days → d ∉ sent_day_reminders g →
     (Send id (day_text d), mark_day d g) ∈ trace m w
     ∧ d ∈ sent_day_reminders (globals (run m w))
     ∧ ∀ steps ch,
         Send ch (day_text d)
           ∉ actions (run_ticks days hours steps (globals (run m w))).2)
  ∧ (remaining < 2 * us_per_day → h ∈ hours → h ∉ sent_hour_reminders g →
     (∃ gs, (Send id (hour_text h), gs) ∈ trace m w
            ∧ sent_hour_reminders gs = {[h]} ∪ sent_hour_reminders g)
     ∧ h ∈ sent_hour_reminders (globals (run m w))
     ∧ ∀ steps ch,
         Send ch (hour_text h)
           ∉ actions (run_ticks days hours steps (globals (run m w))).2)
  ∧ (∀ ch n gs, (Send ch (day_text n), gs) ∈ trace m w → n ∈ sent_day_reminders gs)
  ∧ (∀ ch n gs, (Send ch (hour_text n), gs) ∈ trace m w → n ∈ sent_hour_reminders gs)
  ∧ (∀ env', now env' = now env → fetch_channel env' = fetch_channel env →
       globals (run (update_loop_with days hours env') w) = globals (run m w)).
Proof.
  intros Ht Hi Hn remaining w m d h Hpos.
  assert (d = remaining / us_per_day) as Hd by apply days_remaining_floor.
  assert (h = hours_rounded remaining) as Hh by apply hours_remaining_round.
  clearbody d h. subst d h.
  assert (m w = tick_outcome days hours env g gld remaining id name) as Hout
    by (by apply tick_resolved).
  subst m w. split_and!.
  - intros Hin Hnot.
    assert ((Send id (day_text (remaining / us_per_day)),
             mark_day (remaining / us_per_day) g)
            ∈ trace (update_loop_with days hours env) (MkWorld g gld)) as Hsent.
    { unfold trace. rewrite Hout. unfold tick_outcome.
      destruct (Z.leb_spec remaining 0); [lia |]. proj.
      rewrite !elem_of_app, !elem_of_logged. right; left.
      assert (bool_decide (remaining / us_per_day ∈ days)
              && bool_decide (remaining / us_per_day ∉ sent_day_reminders g) = true)
        as -> by (apply andb_true_iff; by rewrite !bool_decide_eq_true).
      done. }
    split; [exact Hsent |].
    apply day_send_inv in Hsent as (? & ? & _ & _ & _ & _ & _ & _ & _ & _ & Hn').
    split; [exact Hn' |]. intros steps ch. by apply marked_day_never_sent.
  - intros Hlt Hin Hnot.
    assert (∃ gs, (Send id (hour_text (hours_rounded remaining)), gs)
                    ∈ trace (update_loop_with days hours env) (MkWorld g gld)
                  ∧ sent_hour_reminders gs
                    = {[hours_rounded remaining]} ∪ sent_hour_reminders g) as (gs & Hsent & Hgs).
    { unfold trace. rewrite Hout. unfold tick_outcome.
      destruct (Z.leb_spec remaining 0); [lia |]. proj.
      assert ((remaining <? 2 * us_per_day)
              && (bool_decide (hours_rounded remaining ∈ hours)
                  && bool_decide (hours_rounded remaining ∉ sent_hour_reminders g)) = true)
        as ->.
      { rewrite !andb_true_iff, !bool_decide_eq_true, Z.ltb_lt. done. }
      eexists. split.
      - rewrite !elem_of_app, !elem_of_logged. right; right. split; reflexivity.
      - proj. by destruct (_ && _). }
    split; [by exists gs |].
    apply hour_send_inv in Hsent as (? & ? & _ & _ & _ & _ & _ & _ & _ & _ & Hn').
    split; [exact Hn' |]. intros steps ch. by apply marked_hour_never_sent.
  - intros ch n gs Hin.
    by apply day_send_inv in Hin as (? & ? & _ & _ & _ & _ & _ & _ & _ & Hgs & _).
  - intros ch n gs Hin.
    by apply hour_send_inv in Hin as (? & ? & _ & _ & _ & _ & _ & _ & _ & Hgs & _).
  - intros env'. apply tick_globals_oracle_free.
Qed.

(** One day before the impact both reminders are due.  Discord rejects
    both sends: the markers are set all the same, and the tick of a minute
    later attempts neither again. *)
Lemma marker_set_before_send_witness :
  let env := ex_env (jan 19 16 47 0 0) sends_fail in
  let m := update_loop env in
  let w := MkWorld ex_globals ex_guild in
  actions (trace m w)
  = [Edit 5 (countdown_name (mk_timedelta 1 0 0 0 0));
     Send 5 (day_text 1); Send 5 (hour_text 24)]
  ∧ (Send 5 (day_text 1), mark_day 1 ex_globals) ∈ trace m w
  ∧ 1 ∈ sent_day_reminders (globals (run m w))
  ∧ 24 ∈ sent_hour_reminders (globals (run m w))
  ∧ ∀ steps ch,
      Send ch (day_text 1)
        ∉ actions (run_ticks REMINDER_DAYS REMINDER_HOURS steps (globals (run m w))).2.
Proof.
  intros env m w.
  assert (resolve env ex_guild 5 = Some "meteor-impact") as Hn by (by vm_compute).
  assert (0 < datetime_sub ex_target (now env)) as Hpos by (vm_compute; reflexivity).
  assert (datetime_sub ex_target (now env) < 2 * us_per_day) as Hlt
    by (vm_compute; reflexivity).
  assert (actions (trace m w)
          = [Edit 5 (countdown_name (mk_timedelta 1 0 0 0 0));
             Send 5 (day_text 1); Send 5 (hour_text 24)]) as Hact
    by (vm_compute; reflexivity).
  destruct (marker_set_before_send REMINDER_DAYS REMINDER_HOURS env ex_globals
              ex_guild ex_target 5 "meteor-impact" eq_refl eq_refl Hn Hpos)
    as (Hday & Hhour & _).
  destruct Hday as (Hsent & Hmarked & Hnever).
  { apply in_gset. vm_compute. reflexivity. }
  { apply not_elem_of_empty. }
  destruct Hhour as (_ & Hmarked_h & _).
  { exact Hlt. }
  { apply in_gset. vm_compute. reflexivity. }
  { apply not_elem_of_empty. }
  split; [exact Hact |]. split; [exact Hsent |]. split; [exact Hmarked |].
  split; [exact Hmarked_h |]. exact Hnever.
Defined.

(** ** C3: the hour threshold is the nearest whole hour *)

(** [n] is the whole number of hours nearest to [delta], the even one of
    the two when [delta] lies half-way. *)
Definition nearest_hour (delta : timedelta) (n : Z) : Prop :=
  2 * Z.abs (delta - n * us_per_hour) < us_per_hour
  ∨ (2 * Z.abs (delta - n * us_per_hour) = us_per_hour ∧ Z.even n = true).

Lemma hours_rounded_nearest (delta : timedelta) (n : Z) :
  hours_rounded delta = n ↔ nearest_hour delta n.
Proof.
  unfold hours_rounded, nearest_hour, us_per_hour.
  pose proof (Z.div_mod delta 3600000000 ltac:(lia)) as Hdm.
  pose proof (Z.mod_pos_bound delta 3600000000 ltac:(lia)) as Hb.
  set (f := delta / 3600000000) in *. set (r := delta mod 3600000000) in *.
  assert (Z.even (f + 1) = negb (Z.even f)) as Hev.
  { rewrite Z.add_1_r, Z.even_succ, <- Z.negb_even. reflexivity. }
  destruct (Z.compare_spec (2 * r) 3600000000) as [Heq | Hlt | Hgt].
  - destruct (Z.even f) eqn:Ef; split.
    + intros <-. right. split; [lia | done].
    + intros [H | [H He]]; [lia |].
      assert (n = f ∨ n = f + 1) as [-> | ->] by lia; [done |].
      rewrite Hev in He. discriminate.
    + intros <-. right. split; [lia | by rewrite Hev].
    + intros [H | [H He]]; [lia |].
      assert (n = f ∨ n = f + 1) as [-> | ->] by lia; [| done].
      rewrite Ef in He. discriminate.
  - split; [intros <-; left; lia | intros [H | [H _]]; lia].
  - split; [intros <-; left; lia | intros [H | [H _]]; lia].
Qed.

Lemma days_floor (delta : timedelta) (n : Z) :
  delta / us_per_day = n ↔ n * us_per_day ≤ delta < (n + 1) * us_per_day.
Proof.
  unfold us_per_day. split.
  - intros <-. Z.to_euclidean_division_equations. lia.
  - intros H. Z.to_euclidean_division_equations. lia.
Qed.

(** C3. In a tick that reaches the channel with time left, the hour
    reminder for [n] is attempted exactly when less than 48 hours remain,
    [n] is a configured threshold not yet fired, and [n] is
    [round(total_seconds / 3600)]; this is the whole number of hours
    nearest to the remaining time (ties to the even one), not its floor:
    3 h 20 min and 2 h 40 min both give 3, where flooring gives 3 and 2. *)
Theorem hour_threshold_is_rounded (days hours : gset Z) (env : Env)
    (g : Globals) (gld : gmap Z string) (target : datetime) (id : Z)
    (name : string) (n : Z) :
  TARGET_TIME g = Some target → COUNTDOWN_CHANNEL_ID g = Some id →
  resolve env gld id = Some name →
  let remaining := datetime_sub target (now env) in
  0 < remaining →
  (Send id (hour_text n)
     ∈ actions (trace (update_loop_with days hours env) (MkWorld g gld))
   ↔ remaining < 2 * us_per_day ∧ n ∈ hours ∧ (n ∉ sent_hour_reminders g)
     ∧ Py.round (total_seconds remaining / 3600) = n)
  ∧ (Py.round (total_seconds remaining / 3600) = n ↔ nearest_hour remaining n)
  ∧ Py.round (total_seconds (mk_timedelta 0 3 20 0 0) / 3600) = 3
  ∧ Py.round (total_seconds (mk_timedelta 0 2 40 0 0) / 3600) = 3
  ∧ Py.floordiv (total_seconds (mk_timedelta 0 2 40 0 0)) 3600 = 2.
Proof.
  intros Ht Hi Hn remaining Hpos. split_and!.
  - rewrite hours_remaining_round. split.
    + intros (gs & Hin)%elem_of_actions.
      apply hour_send_inv in Hin
        as (target' & ? & Ht' & _ & _ & [_ Hlt] & Hr & Hin & Hnot & _).
      assert (target' = target) as -> by congruence. by subst n.
    + intros (Hlt & Hin & Hnot & <-).
      by apply (hour_fires days hours env g gld target id name).
  - rewrite hours_remaining_round. apply hours_rounded_nearest.
  - by vm_compute.
  - by vm_compute.
  - by vm_compute.
Qed.

(** With 2 h 40 min left (the clock reads 14:07) the "3 hours" reminder is
    sent, twenty minutes after the three-hour mark. *)
Lemma hour_threshold_is_rounded_witness :
  datetime_sub ex_target (now (ex_env (jan 20 14 7 0 0) no_failure))
  = mk_timedelta 0 2 40 0 0
  ∧ Send 5 (hour_text 3)
      ∈ actions (trace (update_loop (ex_env (jan 20 14 7 0 0) no_failure))
                       (MkWorld ex_globals ex_guild)).
Proof.
  split; [by vm_compute |].
  apply (hour_threshold_is_rounded REMINDER_DAYS REMINDER_HOURS
           (ex_env (jan 20 14 7 0 0) no_failure) ex_globals ex_guild
           ex_target 5 "meteor-impact" 3);
    [reflexivity | reflexivity | by vm_compute | by vm_compute |].
  split_and!.
  - by vm_compute.
  - apply in_gset. by vm_compute.
  - apply not_in_gset. by vm_compute.
  - by vm_compute.
Defined.

(** With 3 h 20 min left (13:27) it is sent as well, twenty minutes before
    the mark, when no earlier tick sent it. *)
Example hour_reminder_before_the_mark :
  actions (trace (update_loop (ex_env (jan 20 13 27 0 0) no_failure))
                 (MkWorld ex_globals ex_guild))
  = [Edit 5 (countdown_name (mk_timedelta 0 3 20 0 0)); Send 5 (hour_text 3)].
Proof. by vm_compute. Qed.

(** ** C4: no hour reminder from 48 hours up *)

(** C4. In a tick with 48 hours or more remaining no hour reminder is
    attempted and the hour fired-set is left as it was, whatever the
    configured hour thresholds are. *)
Theorem hour_reminders_gated (days hours : gset Z) (env : Env)
    (g : Globals) (gld : gmap Z string) (target : datetime) (ch n : Z) :
  TARGET_TIME g = Some target →
  2 * us_per_day ≤ datetime_sub target (now env) →
  let m := update_loop_with days hours env in
  (Send ch (hour_text n) ∉ actions (trace m (MkWorld g gld)))
  ∧ sent_hour_reminders (globals (run m (MkWorld g gld))) = sent_hour_reminders g.
Proof.
  intros Ht Hge m. split.
  - intros (gs & Hin)%elem_of_actions.
    apply hour_send_inv in Hin as (target' & ? & Ht' & _ & _ & [_ Hlt] & _).
    assert (target' = target) as -> by congruence. lia.
  - subst m. unfold run.
    destruct (tick_cases days hours env g gld)
      as [-> | (target' & id & name & Ht' & _ & _ & ->)]; [reflexivity |].
    assert (target' = target) as -> by congruence.
    unfold tick_outcome.
    destruct (Z.leb_spec (datetime_sub target (now env)) 0); [reflexivity |].
    destruct (Z.ltb_spec (datetime_sub target (now env)) (2 * us_per_day)); [lia |].
    proj.
    match goal with |- context [if ?b then mark_day _ _ else _] => destruct b end;
      reflexivity.
Qed.

(** With 49 hours left and 49 among the hour thresholds, the rounded hour
    count is a threshold not yet fired, and still nothing is sent for it. *)
Lemma hour_reminders_gated_witness :
  let env := ex_env (jan 18 15 47 0 0) no_failure in
  let hours : gset Z := {[49; 24; 12; 6; 3; 1]} in
  datetime_sub ex_target (now env) = mk_timedelta 0 49 0 0 0
  ∧ Py.round (total_seconds (datetime_sub ex_target (now env)) / 3600) ∈ hours
  ∧ (Send 5 (hour_text 49)
       ∉ actions (trace (update_loop_with REMINDER_DAYS hours env)
                        (MkWorld ex_globals ex_guild)))
  ∧ sent_hour_reminders
      (globals (run (update_loop_with REMINDER_DAYS hours env)
                    (MkWorld ex_globals ex_guild))) = ∅.
Proof.
  intros env hours. split_and!.
  - by vm_compute.
  - apply in_gset. by vm_compute.
  - apply (hour_reminders_gated REMINDER_DAYS hours env ex_globals ex_guild
             ex_target 5 49); [reflexivity | by vm_compute].
  - apply (hour_reminders_gated REMINDER_DAYS hours env ex_globals ex_guild
             ex_target 5 49); [reflexivity | by vm_compute].
Defined.

(** ** C9: the day reminder goes out on the floor of the remaining days *)





(** ** C8: after the impact time *)

(** A tick at or after the target time: at most the rename to the
    imminent label, issued only to a channel not showing it; the globals
    do not change. *)
Lemma expired_tick (days hours : gset Z) (env : Env) (g : Globals)
    (gld : gmap Z string) (target : datetime) :
  TARGET_TIME g = Some target → datetime_sub target (now env) ≤ 0 →
  let m := update_loop_with days hours env in
  globals (run m (MkWorld g gld)) = g
  ∧ (actions (trace m (MkWorld g gld)) = []
     ∨ ∃ id name, actions (trace m (MkWorld g gld)) = [Edit id FINISHED_NAME]
                  ∧ COUNTDOWN_CHANNEL_ID g = Some id
                  ∧ resolve env gld id = Some name ∧ name ≠ FINISHED_NAME).
Proof.
  intros Ht Hle m. subst m. unfold run, trace.
  destruct (tick_cases days hours env g gld)
    as [-> | (target' & id & name & Ht' & Hi & Hn & ->)]; [by split; [| left] |].
  assert (target' = target) as -> by congruence.
  unfold tick_outcome.
  destruct (Z.leb_spec (datetime_sub target (now env)) 0); [| lia].
  proj. split; [reflexivity |].
  destruct (String.eqb_spec name FINISHED_NAME) as [-> | Hne]; [by left |].
  right. by exists id, name.
Qed.

Lemma expired_run (days hours : gset Z) (target : datetime)
    (steps : list (Env * gmap Z string)) (g : Globals) :
  TARGET_TIME g = Some target →
  Forall (λ s, datetime_sub target (now s.1) ≤ 0) steps →
  (run_ticks days hours steps g).1 = g
  ∧ ∀ a, a ∈ actions (run_ticks days hours steps g).2 →
         ∃ id, a = Edit id FINISHED_NAME.
Proof.
  intros Ht. induction steps as [| [env gld] steps IH]; intros Hall.
  - split; [reflexivity |]. intros a Hin. by apply elem_of_nil in Hin.
  - apply Forall_cons in Hall as [Hhere Hrest]. cbn [fst] in Hhere.
    rewrite run_ticks_cons.
    destruct (expired_tick days hours env g gld target Ht Hhere) as [Hg Hact].
    cbv zeta. rewrite Hg. destruct (IH Hrest) as [IHg IHact].
    cbn [fst snd]. split; [exact IHg |].
    intros a. unfold actions. rewrite fmap_app, elem_of_app.
    intros [Hin | Hin]; [| by apply IHact].
    fold (actions (trace (update_loop_with days hours env) (MkWorld g gld))) in Hin.
    destruct Hact as [Hnil | (id & name & Hone & _)].
    + rewrite Hnil in Hin. by apply elem_of_nil in Hin.
    + rewrite Hone in Hin. apply list_elem_of_singleton in Hin. eauto.
Qed.

(** C8. Let a tick find the target time reached (remaining <= 0), and let
    any ticks follow it whose clocks are not earlier.  The first tick
    changes no global and attempts nothing but, when the channel does not
    show it yet, the rename to the imminent label.  Over the whole run no
    message is sent, every call is a rename to the imminent label, and the
    two fired-sets end as they started. *)
Theorem expired_never_reminds (days hours : gset Z) (env : Env)
    (gld : gmap Z string) (later : list (Env * gmap Z string))
    (g : Globals) (target : datetime) :
  TARGET_TIME g = Some target →
  datetime_sub target (now env) ≤ 0 →
  Forall (λ s, to_us (now env) ≤ to_us (now s.1)) later →
  let m := update_loop_with days hours env in
  let out := run_ticks days hours ((env, gld) :: later) g in
  (globals (run m (MkWorld g gld)) = g
   ∧ (actions (trace m (MkWorld g gld)) = []
      ∨ ∃ id name, actions (trace m (MkWorld g gld)) = [Edit id FINISHED_NAME]
                   ∧ COUNTDOWN_CHANNEL_ID g = Some id
                   ∧ resolve env gld id = Some name ∧ name ≠ FINISHED_NAME))
  ∧ (∀ a, a ∈ actions out.2 → is_send a = false ∧ ∃ id, a = Edit id FINISHED_NAME)
  ∧ sent_day_reminders out.1 = sent_day_reminders g
  ∧ sent_hour_reminders out.1 = sent_hour_reminders g.
Proof.
  intros Ht Hle Hlater m out.
  split; [by apply (expired_tick days hours env g gld target) |].
  assert (Forall (λ s, datetime_sub target (now s.1) ≤ 0) ((env, gld) :: later))
    as Hall.
  { apply Forall_cons. split; [exact Hle |].
    eapply Forall_impl; [exact Hlater |].
    intros s Hs. unfold datetime_sub in *. lia. }
  destruct (expired_run days hours target _ g Ht Hall) as [Hg Hact].
  fold out in Hg, Hact. split_and!.
  - intros a Hin. destruct (Hact a Hin) as [id ->]. eauto.
  - by rewrite Hg.
  - by rewrite Hg.
Qed.


(** The impact was at 16:47: the tick of 16:48 renames the channel, the
    ticks of 16:49 and 17:49 find nothing to do, and nothing is sent. *)
Lemma expired_never_reminds_witness :
  let env := ex_env (jan 20 16 48 0 0) no_failure in
  let later := [(ex_env (jan 20 16 49 0 0) no_failure,
                 <[5 := FINISHED_NAME]> ex_guild);
                (ex_env (jan 20 17 49 0 0) no_failure,
                 <[5 := FINISHED_NAME]> ex_guild)] in
  actions (run_ticks REMINDER_DAYS REMINDER_HOURS ((env, ex_guild) :: later) ex_globals).2
  = [Edit 5 FINISHED_NAME]
  ∧ ∀ a, a ∈ actions (run_ticks REMINDER_DAYS REMINDER_HOURS
                        ((env, ex_guild) :: later) ex_globals).2 →
         is_send a = false.
Proof.
  intros env later. split; [by vm_compute |].
  assert (datetime_sub ex_target (now env) ≤ 0) as Hle by (by vm_compute).
  assert (Forall (λ s : Env * gmap Z string, to_us (now env) ≤ to_us (now s.1)) later)
    as Hlater.
  { repeat (apply Forall_cons; split; [by vm_compute |]). apply Forall_nil_2. }
  destruct (expired_never_reminds REMINDER_DAYS REMINDER_HOURS env ex_guild later
              ex_globals ex_target eq_refl Hle Hlater) as (_ & Hall & _).
  intros a Hin. by destruct (Hall a Hin) as [Hs _].
Defined.

(** ** The two commands, case by case *)

Lemma create_meteor_invalid (env : Env) (date time name : string)
    (g : Globals) (gld : gmap Z string) :
  parse_datetime_utc date time = None →
  let m := create_meteor env date time name in
  run m (MkWorld g gld) = MkWorld g gld
  ∧ trace m (MkWorld g gld) = [(Reply usage_text, g)].
Proof.
  intros Hp m. subst m. unfold create_meteor, run, trace. rewrite Hp. run_m.
  destruct (raises env (Reply usage_text)); by split.
Qed.

Lemma create_meteor_globals (env : Env) (date time name : string)
    (g : Globals) (gld : gmap Z string) :
  globals (run (create_meteor env date time name) (MkWorld g gld))
  = match parse_datetime_utc date time with
    | None => g
    | Some impact_dt =>
        if raises env (CreateTextChannel name) then g
        else MkGlobals (Some (new_id env)) (Some impact_dt) ∅ ∅
    end.
Proof.
  destruct (parse_datetime_utc date time) as [dt |] eqn:Hp.
  - unfold create_meteor, run. rewrite Hp. run_m.
    destruct (COUNTDOWN_CHANNEL_ID g) as [old |]; run_m.
    + destruct (bool_decide (is_Some (gld !! old))); run_m;
        [destruct (raises env (DeleteChannel old)); run_m |];
        (destruct (raises env (CreateTextChannel name)); run_m; [reflexivity |]);
        destruct (raises env (Reply (created_text (new_id env) dt))); reflexivity.
    + destruct (raises env (CreateTextChannel name)); run_m; [reflexivity |].
      destruct (raises env (Reply (created_text (new_id env) dt))); reflexivity.
  - by destruct (create_meteor_invalid env date time name g gld Hp) as [-> _].
Qed.

Lemma delete_meteor_globals (env : Env) (g : Globals) (gld : gmap Z string) :
  globals (run (delete_meteor env) (MkWorld g gld))
  = match COUNTDOWN_CHANNEL_ID g, TARGET_TIME g with
    | None, None => g
    | _, _ => MkGlobals None None ∅ ∅
    end.
Proof.
  unfold delete_meteor, run. run_m.
  destruct (COUNTDOWN_CHANNEL_ID g) as [id |]; run_m.
  - destruct (TARGET_TIME g); run_m;
      (destruct (gld !! id) as [n |]; run_m;
       [destruct (raises env (DeleteChannel id)); run_m |]);
      match goal with
      | |- context [raises env ?a] => destruct (raises env a); reflexivity
      end.
  - destruct (TARGET_TIME g); run_m;
      match goal with
      | |- context [raises env ?a] => destruct (raises env a); reflexivity
      end.
Qed.

(** ** A tick of the example event, and the state it leaves *)

Lemma reachable_eq (g g' : Globals) : g = g' → reachable g → reachable g'.
Proof. by intros ->. Qed.

(** The example event after the tick of 13 January 16:00, which sent
    "7 days remain". *)
Definition ex_fired : Globals :=
  globals (run (update_loop (ex_env (jan 13 16 0 0 0) no_failure))
               (MkWorld ex_globals ex_guild)).

Lemma ex_fired_reachable : reachable ex_fired.
Proof.
  apply reach_tick.
  apply (reachable_eq
           (globals (run (create_meteor (MkEnv (jan 1 0 0 0 0) (λ _, None) no_failure 5)
                                        "2026-01-20" "16:47" "meteor-impact")
                         (MkWorld initial ∅)))).
  - by vm_compute.
  - apply reach_create, reach_initial.
Qed.

(** ** C5: a tick that waits while the event is replaced *)

(** The parts of the task, run one after the other with nothing in
    between, are the task. *)
Lemma update_loop_phases (days hours : gset Z) (env : Env) (w : World) :
  update_loop_with days hours env w
  = (l ← update_loop_rename env;
     match l with
     | Some l => update_loop_days days env l;; update_loop_hours hours env l
     | None => ret ()
     end) w.
Proof.
  destruct w as [g gld].
  unfold update_loop_with, update_loop_rename, update_loop_days, update_loop_hours.
  run_m.
  destruct (TARGET_TIME g) as [target |]; [| reflexivity].
  destruct (COUNTDOWN_CHANNEL_ID g) as [id |]; [| reflexivity].
  run_m.
  destruct (match gld !! id with Some n => Some n | None => fetch_channel env id end)
    as [name |]; [| reflexivity].
  repeat (run_m; cbn beta iota zeta delta [announce_channel time_remaining];
          match goal with
          | |- context [if ?b then _ else _] => destruct b
          end);
    reflexivity.
Qed.

(** C5.  The tick of 13 January 16:00 of the example event finds 7 days
    left and renames the channel.  While it waits for the rename,
    [!createmeteor 2026-02-20 16:47] runs and leaves the new event with
    empty fired-sets.  The tick then goes on with what it had computed for
    January: it puts 7 in the fired-set of the February event and sends
    "7 days remain" to the channel of the January event (rejected here,
    the channel being gone).  The February event never sends its own
    "7 days remain".  Had the tick ended before the command ran, the
    February event would start with empty fired-sets and send it on
    13 February. *)
Theorem suspended_tick_marks_new_event :
  let tick_env := ex_env (jan 13 16 0 0 0) sends_fail in
  let command_env := ex_env (jan 13 16 0 1 0) no_failure in
  let command := create_meteor command_env "2026-02-20" "16:47" "meteor-impact" in
  let february := Datetime 2026 2 20 16 47 0 0 (Some utc) in
  let l := MkSuspended 5 (mk_timedelta 7 0 47 0 0) in
  let resumed := update_loop_days REMINDER_DAYS tick_env l;;
                 update_loop_hours REMINDER_HOURS tick_env l in
  let w0 := MkWorld ex_globals ex_guild in
  let w1 := run (update_loop_rename tick_env) w0 in
  let w2 := run command w1 in
  let w3 := run resumed w2 in
  let w2' := run command (run (update_loop tick_env) w0) in
  let february_tick :=
    update_loop (ex_env (Datetime 2026 2 13 16 47 0 0 (Some utc)) no_failure) in
  (result (update_loop_rename tick_env) w0 = Some (Some l)
   ∧ actions (trace (update_loop_rename tick_env) w0)
     = [Edit 5 (countdown_name (mk_timedelta 7 0 47 0 0))])
  ∧ globals w2 = MkGlobals (Some 77) (Some february) ∅ ∅
  ∧ (trace resumed w2
     = [(Send 5 (day_text 7), MkGlobals (Some 77) (Some february) {[7]} ∅)]
     ∧ globals w3 = MkGlobals (Some 77) (Some february) {[7]} ∅)
  ∧ ((Send 77 (day_text 7) ∉ actions (trace february_tick w3))
     ∧ ∀ steps ch,
         Send ch (day_text 7)
           ∉ actions (run_ticks REMINDER_DAYS REMINDER_HOURS steps (globals w3)).2)
  ∧ (globals w2' = MkGlobals (Some 77) (Some february) ∅ ∅
     ∧ Send 77 (day_text 7) ∈ actions (trace february_tick w2')).
Proof.
  intros tick_env command_env command february l resumed w0 w1 w2 w3 w2' february_tick.
  assert (globals w3 = MkGlobals (Some 77) (Some february) {[7]} ∅) as Hw3
    by (vm_compute; reflexivity).
  split_and!.
  - vm_compute. reflexivity.
  - vm_compute. reflexivity.
  - vm_compute. reflexivity.
  - vm_compute. reflexivity.
  - exact Hw3.
  - assert (actions (trace february_tick w3)
            = [Edit 77 (countdown_name (mk_timedelta 7 0 0 0 0))]) as ->
      by (vm_compute; reflexivity).
    intros Hin. apply list_elem_of_singleton in Hin. discriminate Hin.
  - intros steps ch. apply marked_day_never_sent. rewrite Hw3.
    cbn [sent_day_reminders]. by apply elem_of_singleton.
  - vm_compute. reflexivity.
  - assert (actions (trace february_tick w2')
            = [Edit 77 (countdown_name (mk_timedelta 7 0 0 0 0)); Send 77 (day_text 7)])
      as -> by (vm_compute; reflexivity).
    apply list_elem_of_In. right. by left.
Qed.

(** ** C6: an invalid date changes nothing *)

Lemma impossible_date (time : string) : parse_datetime_utc "2025-13-40" time = None.
Proof.
  unfold parse_datetime_utc.
  change (Py.int <$> Py.split "-" "2025-13-40") with [Some 2025; Some 13; Some 40].
  destruct (Py.int <$> Py.split ":" time) as [| [h |] [| [mi |] [|]]]; reflexivity.
Qed.

(** C6. When the date and time do not parse into a timestamp,
    [create_meteor] replies with the usage text and does nothing else: no
    channel is deleted or created, and the channel id, the target time and
    both fired-sets stay as they were.  "2025-13-40" is such a date, with
    any time. *)
Theorem invalid_date_changes_nothing (env : Env) (date time name : string)
    (g : Globals) (gld : gmap Z string) :
  parse_datetime_utc date time = None →
  let m := create_meteor env date time name in
  run m (MkWorld g gld) = MkWorld g gld
  ∧ actions (trace m (MkWorld g gld)) = [Reply usage_text]
  ∧ ∀ t, parse_datetime_utc "2025-13-40" t = None.
Proof.
  intros Hp m.
  destruct (create_meteor_invalid env date time name g gld Hp) as [Hrun Htrace].
  fold m in Hrun, Htrace. split_and!.
  - exact Hrun.
  - by rewrite Htrace.
  - exact impossible_date.
Qed.

Lemma invalid_date_changes_nothing_witness :
  let m := create_meteor (ex_env (jan 14 9 0 0 0) no_failure)
                         "2025-13-40" "10:00" "meteor-impact" in
  parse_datetime_utc "2025-13-40" "10:00" = None
  ∧ run m (MkWorld ex_fired ex_guild) = MkWorld ex_fired ex_guild
  ∧ actions (trace m (MkWorld ex_fired ex_guild)) = [Reply usage_text].
Proof.
  intros m.
  assert (parse_datetime_utc "2025-13-40" "10:00" = None) as Hp by (by vm_compute).
  split; [exact Hp |].
  destruct (invalid_date_changes_nothing (ex_env (jan 14 9 0 0 0) no_failure)
              "2025-13-40" "10:00" "meteor-impact" ex_fired ex_guild Hp)
    as (Hrun & Htrace & _).
  by split.
Defined.

(** ** C10: what the parser accepts *)

Lemma valid_fields_spec (y mo d h mi : Z) :
  valid_fields y mo d h mi = true
  ↔ 1 ≤ y ≤ 9999 ∧ 1 ≤ mo ≤ 12 ∧ 1 ≤ d ≤ days_in_month y mo
    ∧ 0 ≤ h ≤ 23 ∧ 0 ≤ mi ≤ 59.
Proof.
  unfold valid_fields. rewrite !andb_true_iff, !Z.leb_le. tauto.
Qed.

(** The claim's condition holds of "2025-13-40" and "10:00": three integer
    fields, two integer fields; and the parser raises. *)
Lemma integer_fields_not_enough :
  Py.int <$> Py.split "-" "2025-13-40" = [Some 2025; Some 13; Some 40]
  ∧ Py.int <$> Py.split ":" "10:00" = [Some 10; Some 0]
  ∧ parse_datetime_utc "2025-13-40" "10:00" = None.
Proof. by vm_compute. Qed.

(** *** Texts of digits *)

Lemma append_nil_r (s : string) : s +:+ "" = s.
Proof.
  induction s as [| c s IH]; [reflexivity |].
  change (String c (s +:+ "") = String c s). by rewrite IH.
Qed.

Fixpoint all_digits (s : string) : bool :=
  match s with
  | EmptyString => true
  | String c s' => bool_decide (is_Some (Py.digit_of c)) && all_digits s'
  end.

Lemma all_digits_app (a b : string) :
  all_digits (a +:+ b) = all_digits a && all_digits b.
Proof.
  induction a as [| c a IH]; [reflexivity |].
  change (all_digits (String c (a +:+ b)) = all_digits (String c a) && all_digits b).
  cbn [all_digits]. by rewrite IH, andb_assoc.
Qed.

(** *** The integer literals of [int()] *)

(** The number a text of digits writes, continuing from [acc]. *)
Fixpoint value_from (acc : Z) (s : string) : Z :=
  match s with
  | EmptyString => acc
  | String c s' => value_from (10 * acc + default 0 (Py.digit_of c)) s'
  end.

(** A group of digits: one digit or more. *)
Definition digit_group (g : string) : Prop := g ≠ "" ∧ all_digits g = true.

(** Groups of digits written with one underscore before each. *)
Definition underscored (groups : list string) : string :=
  String.concat "" ((λ g, "_" +:+ g) <$> groups).

(** [a] is a decimal literal for [n]: blanks, an optional sign, groups of
    digits with one underscore between them, blanks; no more than
    [max_str_digits] digits in all. *)
Definition integer_literal (a : string) (n : Z) : Prop :=
  ∃ lead sign first more trail,
    a = lead +:+ sign +:+ first +:+ underscored more +:+ trail
    ∧ Py.all_space lead = true ∧ Py.all_space trail = true
    ∧ digit_group first ∧ Forall digit_group more
    ∧ Z.of_nat (String.length (first +:+ String.concat "" more)) ≤ Py.max_str_digits
    ∧ ((sign = "" ∨ sign = "+") ∧ n = value_from 0 (first +:+ String.concat "" more)
       ∨ sign = "-" ∧ n = - value_from 0 (first +:+ String.concat "" more)).

(** What [int()] accepts: a text that, brought to ASCII, is a literal. *)
Definition integer_text (s : string) (n : Z) : Prop :=
  integer_literal (Py.to_ascii s) n.

(** Characters, by cases *)

Lemma space_not_digit (c : ascii) :
  Py.is_space c = true → Py.digit_of c = None ∧ c ≠ "_"%char.
Proof.
  destruct c as [[] [] [] [] [] [] [] []]; try discriminate; by split.
Qed.

Lemma digit_not_other (c : ascii) :
  is_Some (Py.digit_of c) →
  Py.is_space c = false ∧ Ascii.eqb c "+" = false ∧ Ascii.eqb c "-" = false
  ∧ Ascii.eqb c "_" = false ∧ (N_of_ascii c <? 127)%N = true.
Proof.
  destruct c as [[] [] [] [] [] [] [] []]; intros [d Hd]; try discriminate Hd; done.
Qed.

Lemma concat_cons (g : string) (l : list string) :
  String.concat "" (g :: l) = g +:+ String.concat "" l.
Proof. destruct l; [by rewrite append_nil_r | reflexivity]. Qed.

Lemma underscored_cons (g : string) (l : list string) :
  underscored (g :: l) = String "_" (g +:+ underscored l).
Proof. unfold underscored. rewrite fmap_cons, concat_cons. reflexivity. Qed.

Lemma value_from_app (acc : Z) (a b : string) :
  value_from acc (a +:+ b) = value_from (value_from acc a) b.
Proof.
  revert acc. induction a as [| c a IH]; intros acc; [reflexivity |].
  change (value_from acc (String c (a +:+ b)) = value_from (value_from acc (String c a)) b).
  cbn [value_from]. apply IH.
Qed.

(** *** A literal is read as its value *)

Lemma digits_group (g r : string) (st : Py.scan) (acc : Z) :
  digit_group g →
  Py.digits st acc (g +:+ r) = Py.digits Py.AfterDigit (value_from acc g) r.
Proof.
  intros [Hne Hg]. revert st acc. induction g as [| c g IH]; intros st acc; [done |].
  cbn [all_digits] in Hg. apply andb_true_iff in Hg as [Hc Hg].
  apply bool_decide_eq_true in Hc. destruct Hc as [d Hd].
  change (Py.digits st acc (String c (g +:+ r))
          = Py.digits Py.AfterDigit (value_from acc (String c g)) r).
  cbn [Py.digits value_from]. rewrite Hd. cbn [default from_option id].
  destruct g as [| c' g]; [reflexivity |].
  by apply IH.
Qed.

Lemma digits_trail (trail : string) (acc : Z) :
  Py.all_space trail = true → Py.digits Py.AfterDigit acc trail = Some acc.
Proof.
  destruct trail as [| c trail]; [reflexivity |]. intros Hsp.
  cbn [Py.digits]. rewrite Hsp.
  cbn [Py.all_space] in Hsp. apply andb_true_iff in Hsp as [Hc _].
  destruct (space_not_digit c Hc) as [-> Hu].
  apply Ascii.eqb_neq in Hu. by rewrite Hu.
Qed.

Lemma digits_more (more : list string) (trail : string) (acc : Z) :
  Forall digit_group more → Py.all_space trail = true →
  Py.digits Py.AfterDigit acc (underscored more +:+ trail)
  = Some (value_from acc (String.concat "" more)).
Proof.
  intros Hmore Htrail. revert acc.
  induction Hmore as [| g more Hg _ IH]; intros acc.
  - by apply digits_trail.
  - rewrite underscored_cons, concat_cons, value_from_app.
    change (Py.digits Py.AfterDigit acc (String "_" ((g +:+ underscored more) +:+ trail))
            = Some (value_from (value_from acc g) (String.concat "" more))).
    cbn [Py.digits]. change (Py.digit_of "_") with (@None Z). cbn iota.
    change (Ascii.eqb "_" "_") with true. cbn iota.
    rewrite append_assoc, (digits_group g _ _ _ Hg). apply IH.
Qed.

Lemma digits_literal (first : string) (more : list string) (trail : string) :
  digit_group first → Forall digit_group more → Py.all_space trail = true →
  Py.digits Py.AtStart 0 (first +:+ underscored more +:+ trail)
  = Some (value_from 0 (first +:+ String.concat "" more)).
Proof.
  intros Hf Hm Ht. rewrite (digits_group first _ _ _ Hf), value_from_app.
  by apply digits_more.
Qed.

Lemma lstrip_lead (lead rest : string) :
  Py.all_space lead = true → Py.lstrip (lead +:+ rest) = Py.lstrip rest.
Proof.
  induction lead as [| c lead IH]; [reflexivity |].
  cbn [Py.all_space]. intros [Hc Hl]%andb_true_iff.
  change (Py.lstrip (String c (lead +:+ rest)) = Py.lstrip rest).
  cbn [Py.lstrip]. rewrite Hc. by apply IH.
Qed.

Lemma lstrip_split (a : string) :
  ∃ lead, a = lead +:+ Py.lstrip a ∧ Py.all_space lead = true.
Proof.
  induction a as [| c a (lead & E & Hl)]; [by exists "" |].
  cbn [Py.lstrip]. destruct (Py.is_space c) eqn:Hc.
  - exists (String c lead). split.
    + change (String c a = String c (lead +:+ Py.lstrip a)). by rewrite <- E.
    + cbn [Py.all_space]. by rewrite Hc.
  - by exists "".
Qed.

(** *** Counting the digits *)

Lemma count_digits_app (a b : string) :
  Py.count_digits (a +:+ b) = Py.count_digits a + Py.count_digits b.
Proof.
  induction a as [| c a IH]; [reflexivity |].
  change (Py.count_digits (String c (a +:+ b))
          = Py.count_digits (String c a) + Py.count_digits b).
  cbn [Py.count_digits]. rewrite IH. lia.
Qed.

Lemma count_digits_space (s : string) :
  Py.all_space s = true → Py.count_digits s = 0.
Proof.
  induction s as [| c s IH]; [reflexivity |].
  cbn [Py.all_space Py.count_digits]. intros [Hc Hs]%andb_true_iff.
  destruct (space_not_digit c Hc) as [-> _]. by rewrite IH.
Qed.

Lemma count_digits_group (g : string) :
  all_digits g = true → Py.count_digits g = Z.of_nat (String.length g).
Proof.
  induction g as [| c g IH]; [reflexivity |].
  cbn [all_digits Py.count_digits String.length]. intros [Hc Hg]%andb_true_iff.
  apply bool_decide_eq_true in Hc. destruct Hc as [d ->]. rewrite IH by done. lia.
Qed.

Lemma count_digits_more (more : list string) :
  Forall digit_group more →
  Py.count_digits (underscored more) = Z.of_nat (String.length (String.concat "" more)).
Proof.
  induction 1 as [| g more [_ Hg] _ IH]; [reflexivity |].
  rewrite underscored_cons, concat_cons, length_append.
  cbn [Py.count_digits]. change (Py.digit_of "_") with (@None Z). cbn iota.
  rewrite count_digits_app, IH, count_digits_group by done. lia.
Qed.

Lemma count_digits_literal (lead sign first : string) (more : list string) (trail : string) :
  Py.all_space lead = true → Py.all_space trail = true →
  sign = "" ∨ sign = "+" ∨ sign = "-" →
  digit_group first → Forall digit_group more →
  Py.count_digits (lead +:+ sign +:+ first +:+ underscored more +:+ trail)
  = Z.of_nat (String.length (first +:+ String.concat "" more)).
Proof.
  intros Hl Ht Hs [_ Hf] Hm.
  rewrite !count_digits_app, length_append, Nat2Z.inj_add.
  rewrite (count_digits_space lead), (count_digits_space trail) by done.
  rewrite (count_digits_group first), count_digits_more by done.
  assert (Py.count_digits sign = 0) as -> by (by destruct Hs as [-> | [-> | ->]]).
  lia.
Qed.

(** *** What is read is a literal *)

Lemma digits_inv (s : string) (st : Py.scan) (acc n : Z) :
  Py.digits st acc s = Some n →
  ∃ first more trail,
    s = first +:+ underscored more +:+ trail
    ∧ all_digits first = true ∧ (st ≠ Py.AfterDigit → first ≠ "")
    ∧ Forall digit_group more ∧ Py.all_space trail = true
    ∧ n = value_from acc (first +:+ String.concat "" more).
Proof.
  revert st acc. induction s as [| c s IH]; intros st acc.
  - destruct st; try discriminate. intros [= <-].
    exists "", [], "". by split_and!.
  - cbn [Py.digits]. destruct (Py.digit_of c) as [d |] eqn:Hd.
    + intros (first & more & trail & -> & Hf & _ & Hm & Ht & ->)%IH.
      exists (String c first), more, trail. split_and!; try done.
      * cbn [all_digits]. rewrite Hd, Hf. done.
      * change (value_from (10 * acc + d) (first +:+ String.concat "" more)
                = value_from acc (String c (first +:+ String.concat "" more))).
        cbn [value_from]. by rewrite Hd.
    + destruct st; try discriminate.
      destruct (Ascii.eqb_spec c "_") as [-> | Hne].
      * intros (first & more & trail & -> & Hf & Hne & Hm & Ht & ->)%IH.
        exists "", (first :: more), trail. split_and!; try done.
        -- rewrite underscored_cons.
           change (String "_" (first +:+ underscored more +:+ trail)
                   = String "_" ((first +:+ underscored more) +:+ trail)).
           by rewrite append_assoc.
        -- constructor; [| done]. split; [by apply Hne | done].
        -- by rewrite concat_cons.
      * destruct (Py.all_space (String c s)) eqn:Hsp; [| discriminate].
        intros [= <-]. exists "", [], (String c s). by split_and!.
Qed.

(** [int()] accepts exactly the literals, and reads their value. *)
Lemma int_literal (s : string) (n : Z) : Py.int s = Some n ↔ integer_text s n.
Proof.
  unfold Py.int, integer_text. set (a := Py.to_ascii s). clearbody a. split.
  - destruct (Z.ltb_spec Py.max_str_digits (Py.count_digits a)) as [| Hcount];
      [discriminate |].
    destruct (lstrip_split a) as (lead & Ea & Hlead).
    destruct (Py.lstrip a) as [| c r] eqn:Hstrip; [discriminate |].
    unfold Py.signed.
    assert (∀ sign body, a = lead +:+ sign +:+ body →
              sign = "" ∨ sign = "+" ∨ sign = "-" →
              ∀ v, Py.digits Py.AtStart 0 body = Some v →
              ∃ first more trail,
                a = lead +:+ sign +:+ first +:+ underscored more +:+ trail
                ∧ Py.all_space trail = true ∧ digit_group first
                ∧ Forall digit_group more
                ∧ Z.of_nat (String.length (first +:+ String.concat "" more))
                  ≤ Py.max_str_digits
                ∧ v = value_from 0 (first +:+ String.concat "" more)) as Hbody.
    { intros sign body E Hsign v
        (first & more & trail & -> & Hf & Hne & Hm & Ht & ->)%digits_inv.
      assert (digit_group first) as Hg by (split; [by apply Hne | done]).
      exists first, more, trail. split_and!; try done.
      rewrite <- (count_digits_literal lead sign first more trail) by done.
      by rewrite <- E. }
    destruct (Ascii.eqb_spec c "+") as [-> | Hplus].
    { intros Hd.
      destruct (Hbody "+" r Ea ltac:(auto) n Hd) as (f & m & t & E & Ht & Hf & Hm & Hc & Hv).
      exists lead, "+", f, m, t. split_and!; try done. left. by split; [right |]. }
    destruct (Ascii.eqb_spec c "-") as [-> | Hminus].
    { destruct (Py.digits Py.AtStart 0 r) as [v |] eqn:Hd; [| discriminate].
      intros [= <-].
      destruct (Hbody "-" r Ea ltac:(auto) v Hd) as (f & m & t & E & Ht & Hf & Hm & Hc & Hv).
      exists lead, "-", f, m, t. split_and!; try done. right. by rewrite Hv. }
    intros Hd.
    destruct (Hbody "" (String c r) Ea ltac:(auto) n Hd)
      as (f & m & t & E & Ht & Hf & Hm & Hc & Hv).
    exists lead, "", f, m, t. split_and!; try done. left. by split; [left |].
  - intros (lead & sign & first & more & trail & -> & Hl & Ht & Hf & Hm & Hc & Hn).
    assert (sign = "" ∨ sign = "+" ∨ sign = "-") as Hsign.
    { destruct Hn as [[[-> | ->] _] | [-> _]]; auto. }
    rewrite (count_digits_literal lead sign first more trail) by done.
    destruct (Z.ltb_spec Py.max_str_digits
                (Z.of_nat (String.length (first +:+ String.concat "" more))));
      [lia |].
    rewrite lstrip_lead by done.
    pose proof (digits_literal first more trail Hf Hm Ht) as Hd.
    destruct Hf as [Hne Hf]. destruct first as [| c f]; [done |].
    cbn [all_digits] in Hf. apply andb_true_iff in Hf as [Hcd _].
    apply bool_decide_eq_true in Hcd.
    destruct (digit_not_other c Hcd) as (Hsp & Hplus & Hminus & _).
    destruct Hn as [[[-> | ->] ->] | [-> ->]].
    + change (Py.signed (Py.lstrip (String c (f +:+ underscored more +:+ trail)))
              = Some (value_from 0 (String c f +:+ String.concat "" more))).
      cbn [Py.lstrip]. rewrite Hsp. unfold Py.signed. rewrite Hplus, Hminus. exact Hd.
    + change (Py.signed (Py.lstrip (String "+" (String c f +:+ underscored more +:+ trail)))
              = Some (value_from 0 (String c f +:+ String.concat "" more))).
      cbn [Py.lstrip]. change (Py.is_space "+") with false. cbn iota.
      unfold Py.signed. change (Ascii.eqb "+" "+") with true. cbn iota. exact Hd.
    + change (Py.signed (Py.lstrip (String "-" (String c f +:+ underscored more +:+ trail)))
              = Some (- value_from 0 (String c f +:+ String.concat "" more))).
      cbn [Py.lstrip]. change (Py.is_space "-") with false. cbn iota.
      unfold Py.signed. change (Ascii.eqb "-" "+") with false.
      change (Ascii.eqb "-" "-") with true. cbn iota. by rewrite Hd.
Qed.

(** *** The pieces [split] returns *)

(** A text without the separator. *)
Fixpoint free_of (sep : ascii) (s : string) : bool :=
  match s with
  | EmptyString => true
  | String c s' => negb (Ascii.eqb c sep) && free_of sep s'
  end.

(** What [split] returns first: the text up to the first separator, and
    the pieces of what follows it. *)
Lemma split_go_inv (sep : ascii) (s cur : string) :
  ∃ p ps, Py.split_go sep cur s = String.rev_app cur p :: ps
          ∧ free_of sep p = true
          ∧ (s = p ∧ ps = []
             ∨ ∃ r, s = p +:+ String sep r ∧ ps = Py.split_go sep "" r).
Proof.
  revert cur. induction s as [| c s IH]; intros cur.
  - exists "", []. split_and!; [reflexivity | reflexivity | by left].
  - cbn [Py.split_go]. destruct (Ascii.eqb_spec c sep) as [-> | Hne].
    + exists "", (Py.split_go sep "" s). split_and!; [reflexivity | reflexivity |].
      right. by exists s.
    + destruct (IH (String c cur)) as (p & ps & E & Hp & Hs).
      exists (String c p), ps. split_and!.
      * exact E.
      * cbn [free_of]. apply Ascii.eqb_neq in Hne. by rewrite Hne.
      * destruct Hs as [[-> ->] | (r & -> & ->)]; [by left |].
        right. by exists r.
Qed.

Lemma split_go_piece_free (sep : ascii) (a cur r : string) :
  free_of sep a = true →
  Py.split_go sep cur (a +:+ String sep r)
  = String.rev_app cur a :: Py.split_go sep "" r.
Proof.
  revert cur. induction a as [| c a IH]; intros cur Ha.
  - change (Py.split_go sep cur (String sep r)
            = String.rev_app cur "" :: Py.split_go sep "" r).
    cbn [Py.split_go]. by rewrite Ascii.eqb_refl.
  - cbn [free_of] in Ha. apply andb_true_iff in Ha as [Hc Ha].
    apply negb_true_iff in Hc.
    change (Py.split_go sep cur (String c (a +:+ String sep r))
            = String.rev_app cur (String c a) :: Py.split_go sep "" r).
    cbn [Py.split_go]. rewrite Hc, IH by done. reflexivity.
Qed.

Lemma split_go_last_free (sep : ascii) (a cur : string) :
  free_of sep a = true → Py.split_go sep cur a = [String.rev_app cur a].
Proof.
  revert cur. induction a as [| c a IH]; intros cur Ha; [reflexivity |].
  cbn [free_of] in Ha. apply andb_true_iff in Ha as [Hc Ha].
  apply negb_true_iff in Hc.
  cbn [Py.split_go]. rewrite Hc, IH by done. reflexivity.
Qed.

(** [split] gives two pieces exactly for a text with one separator. *)
Lemma split_two_iff (sep : ascii) (s a b : string) :
  Py.split sep s = [a; b]
  ↔ s = a +:+ String sep b ∧ free_of sep a = true ∧ free_of sep b = true.
Proof.
  unfold Py.split. split.
  - destruct (split_go_inv sep s "") as (p1 & ps1 & -> & Hp1 & [[_ ->] | (r1 & -> & ->)]);
      [discriminate |].
    destruct (split_go_inv sep r1 "") as (p2 & ps2 & -> & Hp2 & [[-> ->] | (r2 & _ & ->)]).
    + intros [= <- <-]. done.
    + destruct (split_go_inv sep r2 "") as (p3 & ps3 & -> & _). discriminate.
  - intros (-> & Ha & Hb). by rewrite split_go_piece_free, split_go_last_free.
Qed.

(** And three pieces exactly for a text with two. *)
Lemma split_three_iff (sep : ascii) (s a b c : string) :
  Py.split sep s = [a; b; c]
  ↔ s = a +:+ String sep (b +:+ String sep c)
    ∧ free_of sep a = true ∧ free_of sep b = true ∧ free_of sep c = true.
Proof.
  split.
  - unfold Py.split.
    destruct (split_go_inv sep s "") as (p1 & ps1 & -> & Hp1 & [[_ ->] | (r1 & -> & ->)]);
      [discriminate |].
    intros [= <- Hrest]. apply (split_two_iff sep r1 b c) in Hrest as (-> & Hb & Hc).
    done.
  - intros (-> & Ha & Hb & Hc). unfold Py.split.
    rewrite split_go_piece_free by done.
    by rewrite split_go_piece_free, split_go_last_free.
Qed.

(** *** The parser, field by field *)

Lemma parse_fields (date_str time_str : string) (t : datetime) :
  parse_datetime_utc date_str time_str = Some t
  ↔ ∃ y mo d h mi,
      Py.int <$> Py.split "-" date_str = [Some y; Some mo; Some d]
      ∧ Py.int <$> Py.split ":" time_str = [Some h; Some mi]
      ∧ valid_fields y mo d h mi = true
      ∧ t = Datetime y mo d h mi 0 0 (Some utc).
Proof.
  unfold parse_datetime_utc, datetime_new. split.
  - destruct (Py.int <$> Py.split "-" date_str)
      as [| [y |] [| [mo |] [| [d |] [|]]]]; try discriminate.
    destruct (Py.int <$> Py.split ":" time_str)
      as [| [h |] [| [mi |] [|]]]; try discriminate.
    destruct (valid_fields y mo d h mi) eqn:Hv; [| discriminate].
    intros [= <-]. by exists y, mo, d, h, mi.
  - intros (y & mo & d & h & mi & -> & -> & Hv & ->). by rewrite Hv.
Qed.

Lemma fields_three (s : string) (y mo d : Z) :
  Py.int <$> Py.split "-" s = [Some y; Some mo; Some d]
  ↔ ∃ a b c,
      s = a +:+ "-" +:+ b +:+ "-" +:+ c
      ∧ free_of "-" a = true ∧ free_of "-" b = true ∧ free_of "-" c = true
      ∧ integer_text a y ∧ integer_text b mo ∧ integer_text c d.
Proof.
  split.
  - destruct (Py.split "-" s) as [| a [| b [| c [|]]]] eqn:E; try discriminate.
    cbn [fmap list_fmap]. intros [= Ha Hb Hc].
    apply split_three_iff in E as (-> & Hfa & Hfb & Hfc).
    exists a, b, c. rewrite <- !int_literal. by split_and!.
  - intros (a & b & c & -> & Hfa & Hfb & Hfc & Ha & Hb & Hc).
    apply int_literal in Ha, Hb, Hc.
    assert (Py.split "-" (a +:+ "-" +:+ b +:+ "-" +:+ c) = [a; b; c]) as ->
      by (by apply split_three_iff).
    cbn [fmap list_fmap]. by rewrite Ha, Hb, Hc.
Qed.

Lemma fields_two (s : string) (h mi : Z) :
  Py.int <$> Py.split ":" s = [Some h; Some mi]
  ↔ ∃ a b,
      s = a +:+ ":" +:+ b ∧ free_of ":" a = true ∧ free_of ":" b = true
      ∧ integer_text a h ∧ integer_text b mi.
Proof.
  split.
  - destruct (Py.split ":" s) as [| a [| b [|]]] eqn:E; try discriminate.
    cbn [fmap list_fmap]. intros [= Ha Hb].
    apply split_two_iff in E as (-> & Hfa & Hfb).
    exists a, b. rewrite <- !int_literal. by split_and!.
  - intros (a & b & -> & Hfa & Hfb & Ha & Hb).
    apply int_literal in Ha, Hb.
    assert (Py.split ":" (a +:+ ":" +:+ b) = [a; b]) as -> by (by apply split_two_iff).
    cbn [fmap list_fmap]. by rewrite Ha, Hb.
Qed.

(** C10, amended. The parser returns a timestamp exactly when the date is
    three integer fields with one '-' between them, the time is two
    integer fields with one ':' between them, and the five numbers are a
    date of the calendar and a time of day (year 1..9999, month 1..12,
    day 1..length of the month, hour 0..23, minute 0..59); otherwise it
    raises.  An integer field is a text that [int()] reads: blanks, an
    optional sign, decimal digits with single underscores between them,
    blanks, with the blanks and the decimal digits of any script and at
    most 4300 digits.  A time with seconds, such as "23:59:30", is
    rejected with any date.  A timestamp it returns has the five numbers
    read, zero seconds and microseconds, and the UTC zone.  A date in
    full-width digits is read as well. *)
Theorem parse_accepts_exactly (date_str time_str : string) (t : datetime) :
  (parse_datetime_utc date_str time_str = Some t
   ↔ ∃ a b c h m y mo d hh mi,
       date_str = a +:+ "-" +:+ b +:+ "-" +:+ c
       ∧ free_of "-" a = true ∧ free_of "-" b = true ∧ free_of "-" c = true
       ∧ time_str = h +:+ ":" +:+ m
       ∧ free_of ":" h = true ∧ free_of ":" m = true
       ∧ integer_text a y ∧ integer_text b mo ∧ integer_text c d
       ∧ integer_text h hh ∧ integer_text m mi
       ∧ (1 ≤ y ≤ 9999 ∧ 1 ≤ mo ≤ 12 ∧ 1 ≤ d ≤ days_in_month y mo
          ∧ 0 ≤ hh ≤ 23 ∧ 0 ≤ mi ≤ 59)
       ∧ t = Datetime y mo d hh mi 0 0 (Some utc))
  ∧ (parse_datetime_utc date_str time_str = Some t →
     second t = 0 ∧ microsecond t = 0 ∧ tzinfo t = Some utc)
  ∧ parse_datetime_utc date_str "23:59:30" = None
  ∧ parse_datetime_utc "２０２５-01-05" " 10:00"
    = Some (Datetime 2025 1 5 10 0 0 0 (Some utc)).
Proof.
  split_and!.
  - rewrite parse_fields. split.
    + intros (y & mo & d & hh & mi & Hdate & Htime & Hv & ->).
      apply fields_three in Hdate as (a & b & c & -> & Hfa & Hfb & Hfc & Ha & Hb & Hc).
      apply fields_two in Htime as (h & m & -> & Hfh & Hfm & Hh & Hm).
      apply valid_fields_spec in Hv.
      exists a, b, c, h, m, y, mo, d, hh, mi. split_and!; try done; lia.
    + intros (a & b & c & h & m & y & mo & d & hh & mi
              & -> & Hfa & Hfb & Hfc & -> & Hfh & Hfm & Ha & Hb & Hc & Hh & Hm & Hv & ->).
      exists y, mo, d, hh, mi. split_and!.
      * apply fields_three. exists a, b, c. by split_and!.
      * apply fields_two. exists h, m. by split_and!.
      * by apply valid_fields_spec.
      * reflexivity.
  - intros (y & mo & d & h & mi & _ & _ & _ & ->)%parse_fields. done.
  - unfold parse_datetime_utc.
    change (Py.int <$> Py.split ":" "23:59:30") with [Some 23; Some 59; Some 30].
    destruct (Py.int <$> Py.split "-" date_str)
      as [| [y |] [| [mo |] [| [d |] [|]]]]; reflexivity.
  - by vm_compute.
Qed.

(** ** C7: renames and reminders over two ticks *)

Lemma send_text_eq ch text ch' text' : Send ch text = Send ch' text' → text = text'.
Proof. intros H. by injection H. Qed.

Ltac list_m :=
  cbn beta iota zeta delta
    [logged app actions fmap list_fmap List.filter is_edit is_send fst snd length].

Section TwoTicks.

Variable days hours : gset Z.
Implicit Types (env : Env) (g gs : Globals) (gld : gmap Z string) (w : World).

Local Abbreviation tick env := (update_loop_with days hours env).

Lemma tick_total env w : ∃ w1 t1, tick env w = (Some (), w1, t1).
Proof.
  destruct w as [g gld].
  destruct (tick_cases days hours env g gld) as [-> | (target & id & name & _ & _ & _ & ->)];
    [eauto |].
  unfold tick_outcome. destruct (_ <=? 0); eauto.
Qed.

Lemma tick_seq env1 env2 w :
  trace (tick env1;; tick env2) w
  = trace (tick env1) w ++ trace (tick env2) (run (tick env1) w).
Proof.
  unfold trace, run, mbind, M_bind, bind.
  destruct (tick_total env1 w) as (w1 & t1 & ->). cbn [fst snd].
  destruct (tick env2 w1) as [[r2 w2] t2]. reflexivity.
Qed.

(** One tick: at most one rename, and no message twice. *)
Lemma tick_one_edit env g gld :
  (length (List.filter is_edit (actions (trace (tick env) (MkWorld g gld)))) ≤ 1)%nat.
Proof.
  unfold trace.
  destruct (tick_cases days hours env g gld) as [-> | (target & id & name & _ & _ & _ & ->)];
    [cbn; lia |].
  unfold tick_outcome. destruct (_ <=? 0); proj.
  - destruct (negb _); list_m; lia.
  - destruct (negb _);
      destruct (bool_decide _ && bool_decide _);
      destruct (_ && (bool_decide _ && bool_decide _)); list_m; lia.
Qed.

Lemma tick_sends_nodup env g gld :
  NoDup (List.filter is_send (actions (trace (tick env) (MkWorld g gld)))).
Proof.
  unfold trace.
  destruct (tick_cases days hours env g gld) as [-> | (target & id & name & _ & _ & _ & ->)];
    [apply NoDup_nil_2 |].
  unfold tick_outcome. destruct (_ <=? 0); proj.
  - destruct (negb _); list_m; apply NoDup_nil_2.
  - destruct (negb _);
      destruct (bool_decide _ && bool_decide _);
      destruct (_ && (bool_decide _ && bool_decide _)); list_m;
      repeat (apply NoDup_cons_2; [| try apply NoDup_nil_2]);
      try apply not_elem_of_nil; try apply NoDup_nil_2;
      (intros Heq%list_elem_of_singleton%send_text_eq;
       by apply day_text_not_hour_text in Heq).
Qed.

(** A rename that does not raise shows in the channels. *)
Lemma tick_edit_applied env g gld ch new_name gs :
  (Edit ch new_name, gs) ∈ trace (tick env) (MkWorld g gld) →
  raises env (Edit ch new_name) = false →
  guild (run (tick env) (MkWorld g gld)) !! ch = Some new_name.
Proof.
  unfold trace, run.
  destruct (tick_cases days hours env g gld) as [-> | (target & id & name & _ & _ & _ & ->)];
    proj.
  { intros Hx. by apply elem_of_nil in Hx. }
  unfold tick_outcome. destruct (_ <=? 0); proj.
  - intros Hx Hok. apply elem_of_logged in Hx as [Hr (-> & -> & _)%edit_entry_eq].
    rewrite Hr, Hok. apply lookup_insert_eq.
  - rewrite !elem_of_app, !elem_of_logged.
    intros [[Hr (-> & -> & _)%edit_entry_eq] | [[_ [=]] | [_ [=]]]] Hok.
    rewrite Hr, Hok. apply lookup_insert_eq.
Qed.

Lemma filter_is_edit_nil (l : list Action) :
  (∀ ch new_name, Edit ch new_name ∉ l) → List.filter is_edit l = [].
Proof.
  intros Hno. induction l as [| a l IH]; [reflexivity |].
  cbn [List.filter].
  destruct a as [ch nm | | | |]; cbn [is_edit];
    try (apply IH; intros ch' nm' Hin; apply (Hno ch' nm'); by right).
  exfalso. apply (Hno ch nm). by left.
Qed.

Lemma in_filter_is_send (a : Action) (l : list Action) :
  a ∈ List.filter is_send l → ∃ ch text, a = Send ch text ∧ a ∈ l.
Proof.
  intros Hin. apply list_elem_of_In, filter_In in Hin as [Hin Hs].
  apply list_elem_of_In in Hin.
  destruct a; try discriminate. eauto.
Qed.

(** No message of a tick is sent again by the tick that follows. *)
Lemma ticks_share_no_send env1 env2 g gld gld' a :
  a ∈ List.filter is_send (actions (trace (tick env1) (MkWorld g gld))) →
  a ∉ List.filter is_send
        (actions (trace (tick env2)
                        (MkWorld (globals (run (tick env1) (MkWorld g gld))) gld'))).
Proof.
  intros (ch & text & -> & (gs & Hin)%elem_of_actions)%in_filter_is_send
         (ch' & text' & Heq & (gs' & Hin')%elem_of_actions)%in_filter_is_send.
  apply send_text_eq in Heq as Htext. subst text'.
  destruct (send_inv days hours env1 g gld ch text gs Hin) as (_ & _ & _ & n & [-> | ->]).
  - apply day_send_inv in Hin as (_ & _ & _ & _ & _ & _ & _ & _ & _ & _ & Hmarked).
    apply day_send_inv in Hin' as (_ & _ & _ & _ & _ & _ & _ & _ & Hnot & _).
    by apply Hnot.
  - apply hour_send_inv in Hin as (_ & _ & _ & _ & _ & _ & _ & _ & _ & _ & Hmarked).
    apply hour_send_inv in Hin' as (_ & _ & _ & _ & _ & _ & _ & _ & Hnot & _).
    by apply Hnot.
Qed.

End TwoTicks.

(** The claim fails when the first rename is rejected: five days before the
    impact (no reminder is due), with renames failing, two ticks at the
    same instant and from the same fired-sets issue the rename twice. *)
Lemma rename_reissued_after_failure :
  let env := ex_env (jan 15 16 47 0 0) edits_fail in
  let w := MkWorld ex_globals ex_guild in
  globals (run (update_loop env) w) = ex_globals
  ∧ actions (trace (update_loop env;; update_loop env) w)
    = [Edit 5 (countdown_name (mk_timedelta 5 0 0 0 0));
       Edit 5 (countdown_name (mk_timedelta 5 0 0 0 0))]
  ∧ length (List.filter is_edit
              (actions (trace (update_loop env;; update_loop env) w))) = 2%nat.
Proof. by vm_compute. Qed.

(** C7, amended. A tick issues a rename only to the desired name (the
    imminent label when remaining <= 0, else the countdown name) and only
    when the channel does not show it.  Over two ticks at the same instant,
    the second run on what the first left: if the first tick's rename, when
    there is one, is not rejected, at most one rename is issued in total (a
    rejected rename leaves the name as it was and is issued again); and in
    every case no reminder message is sent twice. *)
Theorem rename_only_when_name_differs (days hours : gset Z) (env1 env2 : Env)
    (g : Globals) (gld : gmap Z string) :
  now env2 = now env1 →
  let m1 := update_loop_with days hours env1 in
  let m2 := update_loop_with days hours env2 in
  let w := MkWorld g gld in
  let both := actions (trace (m1;; m2) w) in
  (∀ ch new_name,
     Edit ch new_name ∈ actions (trace m1 w) →
     ∃ target name,
       TARGET_TIME g = Some target ∧ resolve env1 gld ch = Some name
       ∧ new_name = desired_name (datetime_sub target (now env1))
       ∧ name ≠ new_name)
  ∧ ((∀ ch new_name,
        Edit ch new_name ∈ actions (trace m1 w) →
        raises env1 (Edit ch new_name) = false) →
     (length (List.filter is_edit both) ≤ 1)%nat)
  ∧ NoDup (List.filter is_send both).
Proof.
  intros Hnow m1 m2 w both. split_and!.
  - intros ch nm (gs & Hin)%elem_of_actions.
    apply edit_inv in Hin as (target & name & Ht & _ & Hres & Hnm & Hne).
    by exists target, name.
  - intros Hok. subst both m1 m2. rewrite tick_seq.
    unfold actions. rewrite fmap_app, List.filter_app, length_app.
    fold (actions (trace (update_loop_with days hours env1) w)).
    fold (actions (trace (update_loop_with days hours env2)
                         (run (update_loop_with days hours env1) w))).
    pose proof (tick_one_edit days hours env1 g gld) as H1. fold w in H1.
    pose proof (tick_keeps_event days hours env1 g gld) as Hkeep.
    cbv zeta in Hkeep. fold w in Hkeep.
    destruct (List.filter is_edit (actions (trace (update_loop_with days hours env1) w)))
      as [| a l] eqn:Hf1.
    { destruct (run (update_loop_with days hours env1) w) as [g1 gld1].
      pose proof (tick_one_edit days hours env2 g1 gld1). cbn [length]. lia. }
    assert (a ∈ List.filter is_edit (actions (trace (update_loop_with days hours env1) w)))
      as Ha by (rewrite Hf1; by left).
    apply list_elem_of_In, filter_In in Ha as [Ha Hedit].
    destruct a as [ch1 nm1 | | | |]; try discriminate.
    apply list_elem_of_In in Ha. specialize (Hok ch1 nm1 Ha).
    apply elem_of_actions in Ha as (gs1 & Hin1).
    pose proof (tick_edit_applied days hours env1 g gld ch1 nm1 gs1 Hin1 Hok) as Hshown.
    fold w in Hshown.
    apply edit_inv in Hin1 as (target & name1 & Ht1 & Hc1 & _ & Hnm1 & _).
    destruct (run (update_loop_with days hours env1) w) as [g1 gld1].
    cbn [guild globals] in Hshown, Hkeep. destruct Hkeep as (Ht & Hc & _).
    rewrite filter_is_edit_nil; [cbn [length] in *; lia |].
    intros ch2 nm2 (gs2 & Hin2)%elem_of_actions.
    apply edit_inv in Hin2 as (target2 & name2 & Ht2 & Hc2 & Hres2 & Hnm2 & Hne2).
    assert (target2 = target) as -> by congruence.
    assert (ch2 = ch1) as -> by congruence.
    unfold resolve in Hres2. rewrite Hshown in Hres2.
    rewrite Hnow in Hnm2. congruence.
  - subst both m1 m2. rewrite tick_seq.
    unfold actions. rewrite fmap_app, List.filter_app.
    fold (actions (trace (update_loop_with days hours env1) w)).
    fold (actions (trace (update_loop_with days hours env2)
                         (run (update_loop_with days hours env1) w))).
    apply NoDup_app. split_and!.
    + apply tick_sends_nodup.
    + intros a Ha.
      pose proof (ticks_share_no_send days hours env1 env2 g gld
                    (guild (run (update_loop_with days hours env1) w)) a Ha) as Hno.
      fold w in Hno.
      by destruct (run (update_loop_with days hours env1) w) as [g1 gld1].
    + destruct (run (update_loop_with days hours env1) w) as [g1 gld1].
      apply tick_sends_nodup.
Qed.

(** Seven days and 47 minutes before the impact, nothing failing: the first
    tick renames the channel and sends "7 days remain"; the second tick, at
    the same instant, does nothing. *)
Lemma rename_only_when_name_differs_witness :
  let env := ex_env (jan 13 16 0 0 0) no_failure in
  let both := actions (trace (update_loop env;; update_loop env)
                             (MkWorld ex_globals ex_guild)) in
  both = [Edit 5 (countdown_name (mk_timedelta 7 0 47 0 0)); Send 5 (day_text 7)]
  ∧ (length (List.filter is_edit both) ≤ 1)%nat
  ∧ NoDup (List.filter is_send both).
Proof.
  intros env both. split; [by vm_compute |].
  destruct (rename_only_when_name_differs REMINDER_DAYS REMINDER_HOURS env env
              ex_globals ex_guild eq_refl) as (_ & Hedits & Hsends).
  split; [| exact Hsends].
  apply Hedits. intros ch nm _. reflexivity.
Defined.

(** * The rest of the bot *)

(** ** The two query commands *)

Definition no_event_text : string :=
  "There is no active meteor event. Use `!createmeteor` first.".

Definition occurred_text : string :=
  "The **" +:+ EVENT_NAME +:+ "** has already occurred!".

Definition time_left_text (remaining : timedelta) : string :=
  "☄️ Time until impact: **" +:+ format_time remaining +:+ "**".

Definition impact_text (pretty iso_str : string) : string :=
  "☄️ Impact date & time for **" +:+ EVENT_NAME +:+ "**:
   • " +:+ pretty +:+ "
   • ISO: `" +:+ iso_str +:+ "`".

Arguments no_event_text : simpl never.
Arguments occurred_text : simpl never.
Arguments time_left_text : simpl never.
Arguments impact_text : simpl never.

(** [!timeleft]. *)
Definition time_left (env : Env) : M unit :=
  g ← get_globals;
  match TARGET_TIME g with
  | None => call env (Reply no_event_text)
  | Some target =>
      let remaining := datetime_sub target (now env) in
      if Qle_bool (total_seconds remaining) 0
      then call env (Reply occurred_text)
      else call env (Reply (time_left_text remaining))
  end.

(** [!impact].  [strftime t] stands for
    [t.strftime("%Y-%m-%d %H:%M (UTC)")], a function of the C library. *)
Definition impact_info (strftime : datetime → string) (env : Env) : M unit :=
  g ← get_globals;
  match TARGET_TIME g with
  | None => call env (Reply no_event_text)
  | Some target =>
      let iso_str := isoformat target in
      let pretty := strftime target in
      call env (Reply (impact_text pretty iso_str))
  end.

(** After a tick that reaches the channel and whose rename is not
    rejected, the channel shows the desired name. *)
Lemma tick_shows_desired (days hours : gset Z) (env : Env) (g : Globals)
    (gld : gmap Z string) (target : datetime) (id : Z) (name : string) :
  TARGET_TIME g = Some target → COUNTDOWN_CHANNEL_ID g = Some id →
  resolve env gld id = Some name →
  let remaining := datetime_sub target (now env) in
  raises env (Edit id (desired_name remaining)) = false →
  resolve env (guild (run (update_loop_with days hours env) (MkWorld g gld))) id
  = Some (desired_name remaining).
Proof.
  intros Ht Hi Hn remaining Hok. unfold run.
  rewrite (tick_resolved days hours env g gld target id name Ht Hi Hn).
  fold remaining. revert Hok. unfold tick_outcome, desired_name.
  destruct (remaining <=? 0); intros Hok; proj; rewrite Hok.
  - destruct (String.eqb_spec name FINISHED_NAME) as [<- | Hne]; cbn [negb andb].
    + exact Hn.
    + unfold resolve. by rewrite lookup_insert_eq.
  - destruct (String.eqb_spec name (countdown_name remaining)) as [<- | Hne];
      cbn [negb andb].
    + exact Hn.
    + unfold resolve. by rewrite lookup_insert_eq.
Qed.

(** X1. [!timeleft] changes neither the globals nor the channels and
    attempts exactly one reply, in every state: with no event, the notice
    that there is none; with the target time reached, that the event has
    occurred; otherwise [format_time] of the remaining time.  A tick at
    the same instant that reaches the channel, and whose rename is not
    rejected, leaves the channel with the imminent label when the target
    time is reached, and otherwise with the name made of the same
    duration. *)
Theorem time_left_agrees_with_tick (days hours : gset Z) (env : Env)
    (g : Globals) (gld : gmap Z string) :
  let w := MkWorld g gld in
  run (time_left env) w = w
  ∧ actions (trace (time_left env) w)
    = [Reply match TARGET_TIME g with
             | None => no_event_text
             | Some target =>
                 if datetime_sub target (now env) <=? 0 then occurred_text
                 else time_left_text (datetime_sub target (now env))
             end]
  ∧ ∀ target id name,
      TARGET_TIME g = Some target → COUNTDOWN_CHANNEL_ID g = Some id →
      resolve env gld id = Some name →
      let remaining := datetime_sub target (now env) in
      raises env (Edit id (desired_name remaining)) = false →
      resolve env (guild (run (update_loop_with days hours env) w)) id
      = Some (if remaining <=? 0 then FINISHED_NAME else countdown_name remaining).
Proof.
  intros w. subst w. split_and!.
  - unfold time_left, run. run_m. destruct (TARGET_TIME g) as [target |].
    + rewrite expired_test. destruct (_ <=? 0); run_m;
        match goal with |- context [raises env ?a] => by destruct (raises env a) end.
    + run_m. by destruct (raises env (Reply no_event_text)).
  - unfold time_left, trace. run_m. destruct (TARGET_TIME g) as [target |].
    + rewrite expired_test. destruct (_ <=? 0); run_m;
        match goal with |- context [raises env ?a] => by destruct (raises env a) end.
    + run_m. by destruct (raises env (Reply no_event_text)).
  - intros target id name Ht Hi Hn remaining Hok.
    pose proof (tick_shows_desired days hours env g gld target id name Ht Hi Hn Hok)
      as Hshown.
    etrans; [exact Hshown | reflexivity].
Qed.

(** Two hours and forty minutes before the impact, and before any event
    is configured. *)
Lemma time_left_agrees_with_tick_witness :
  let env := ex_env (jan 20 14 7 0 0) no_failure in
  let w := MkWorld ex_globals ex_guild in
  actions (trace (time_left env) w)
  = [Reply (time_left_text (mk_timedelta 0 2 40 0 0))]
  ∧ run (time_left env) w = w
  ∧ actions (trace (time_left env) (MkWorld initial ∅)) = [Reply no_event_text].
Proof.
  intros env w.
  destruct (time_left_agrees_with_tick REMINDER_DAYS REMINDER_HOURS env
              ex_globals ex_guild) as (Hrun & Hact & _).
  destruct (time_left_agrees_with_tick REMINDER_DAYS REMINDER_HOURS env initial ∅)
    as (_ & Hnone & _).
  split; [| split; [exact Hrun | exact Hnone]].
  etrans; [exact Hact |]. vm_compute. reflexivity.
Defined.

(** ** The two state-changing commands, in full *)

(** The channels once a command has tried to delete the countdown channel
    it knows: the channel goes when the client sees it and the deletion is
    not rejected. *)
Definition without_old (env : Env) (g : Globals) (gld : gmap Z string)
    : gmap Z string :=
  match COUNTDOWN_CHANNEL_ID g with
  | Some old =>
      if bool_decide (is_Some (gld !! old)) && negb (raises env (DeleteChannel old))
      then delete old gld else gld
  | None => gld
  end.

(** The deletion a command attempts on the channel it knows. *)
Definition old_deletion (g : Globals) (gld : gmap Z string) : list Action :=
  match COUNTDOWN_CHANNEL_ID g with
  | Some old => if bool_decide (is_Some (gld !! old)) then [DeleteChannel old] else []
  | None => []
  end.

Lemma create_meteor_outcome (env : Env) (date time name : string)
    (g : Globals) (gld : gmap Z string) (impact_dt : datetime) :
  parse_datetime_utc date time = Some impact_dt →
  let m := create_meteor env date time name in
  let w := MkWorld g gld in
  if raises env (CreateTextChannel name) then
    result m w = None
    ∧ run m w = MkWorld g (without_old env g gld)
    ∧ actions (trace m w) = old_deletion g gld ++ [CreateTextChannel name]
  else
    result m w
    = (if raises env (Reply (created_text (new_id env) impact_dt))
       then None else Some ())
    ∧ run m w = MkWorld (MkGlobals (Some (new_id env)) (Some impact_dt) ∅ ∅)
                        (<[new_id env := name]> (without_old env g gld))
    ∧ actions (trace m w)
      = old_deletion g gld
        ++ [CreateTextChannel name; Reply (created_text (new_id env) impact_dt)].
Proof.
  intros Hp m w. subst m w.
  unfold create_meteor, result, run, trace, without_old, old_deletion.
  rewrite Hp. run_m.
  destruct (COUNTDOWN_CHANNEL_ID g) as [old |]; run_m.
  - destruct (bool_decide (is_Some (gld !! old))); run_m;
      [destruct (raises env (DeleteChannel old)); run_m |];
      (destruct (raises env (CreateTextChannel name)); run_m; [by split_and! |]);
      destruct (raises env (Reply (created_text (new_id env) impact_dt)));
      by split_and!.
  - destruct (raises env (CreateTextChannel name)); run_m; [by split_and! |].
    destruct (raises env (Reply (created_text (new_id env) impact_dt)));
      by split_and!.
Qed.

Lemma delete_meteor_outcome (env : Env) (g : Globals) (gld : gmap Z string) (id : Z) :
  COUNTDOWN_CHANNEL_ID g = Some id →
  let m := delete_meteor env in
  let w := MkWorld g gld in
  result m w = (if raises env (Reply (deleted_text (gld !! id))) then None else Some ())
  ∧ run m w = MkWorld initial (without_old env g gld)
  ∧ actions (trace m w) = old_deletion g gld ++ [Reply (deleted_text (gld !! id))].
Proof.
  intros Hi m w. subst m w.
  unfold delete_meteor, result, run, trace, without_old, old_deletion.
  run_m. rewrite Hi. run_m.
  destruct (gld !! id) as [n |]; run_m.
  - change (bool_decide (is_Some (Some n))) with true. cbn [andb].
    destruct (raises env (DeleteChannel id)); run_m;
      destruct (raises env (Reply (deleted_text (Some n)))); by split_and!.
  - change (bool_decide (is_Some (@None string))) with false. cbn [andb].
    destruct (raises env (Reply (deleted_text None))); by split_and!.
Qed.

(** X3. [!deletemeteor] on a configured event always ends with the
    initial globals.  The channel deletion is attempted once, when the
    client sees the channel, and is best effort: when it is rejected the
    channel stays while the bot has forgotten it, and when it is not the
    channel is gone.  Either way, every later tick does nothing. *)
Theorem delete_meteor_forgets_channel (env : Env) (g : Globals)
    (gld : gmap Z string) (id : Z) :
  COUNTDOWN_CHANNEL_ID g = Some id →
  let w' := run (delete_meteor env) (MkWorld g gld) in
  globals w' = initial
  ∧ actions (trace (delete_meteor env) (MkWorld g gld))
    = (if bool_decide (is_Some (gld !! id)) then [DeleteChannel id] else [])
      ++ [Reply (deleted_text (gld !! id))]
  ∧ (raises env (DeleteChannel id) = true → guild w' = gld)
  ∧ (raises env (DeleteChannel id) = false → guild w' = delete id gld)
  ∧ ∀ days hours env', update_loop_with days hours env' w' = (Some (), w', []).
Proof.
  intros Hi w'.
  destruct (delete_meteor_outcome env g gld id Hi) as (_ & Hrun & Hact).
  subst w'. rewrite Hrun, Hact. unfold without_old, old_deletion. rewrite Hi.
  cbn [globals guild]. split_and!.
  - reflexivity.
  - reflexivity.
  - intros ->. by rewrite andb_false_r.
  - intros ->. rewrite andb_true_r.
    destruct (gld !! id) eqn:Hl.
    + reflexivity.
    + change (bool_decide (is_Some (@None string))) with false. cbn iota.
      symmetry. by apply delete_id.
  - intros days hours env'. apply update_loop_idle. by left.
Qed.

(** The rejected deletion of channel 5: the event is gone, the channel is
    not. *)
Lemma delete_meteor_forgets_channel_witness :
  let env := ex_env (jan 14 9 0 0 0) (λ a, match a with DeleteChannel _ => true | _ => false end) in
  let w' := run (delete_meteor env) (MkWorld ex_fired ex_guild) in
  globals w' = initial ∧ guild w' = ex_guild.
Proof.
  intros env w'.
  assert (COUNTDOWN_CHANNEL_ID ex_fired = Some 5) as Hi by (by vm_compute).
  destruct (delete_meteor_forgets_channel env ex_fired ex_guild 5 Hi)
    as (Hg & _ & Hkept & _).
  split; [exact Hg | by apply Hkept].
Defined.

(** X4. When the date parses but Discord rejects the channel creation,
    [!createmeteor] raises without replying and without touching the
    globals; the old countdown channel has been deleted by then, when the
    client saw it and the deletion went through, so the bot is left
    pointing at a channel that no longer exists. *)
Theorem create_meteor_creation_rejected (env : Env) (date time name : string)
    (g : Globals) (gld : gmap Z string) (impact_dt : datetime) :
  parse_datetime_utc date time = Some impact_dt →
  raises env (CreateTextChannel name) = true →
  let m := create_meteor env date time name in
  let w := MkWorld g gld in
  result m w = None
  ∧ globals (run m w) = g
  ∧ (∀ text, Reply text ∉ actions (trace m w))
  ∧ ∀ old, COUNTDOWN_CHANNEL_ID g = Some old → is_Some (gld !! old) →
           raises env (DeleteChannel old) = false →
           COUNTDOWN_CHANNEL_ID (globals (run m w)) = Some old
           ∧ guild (run m w) !! old = None.
Proof.
  intros Hp Hc m w.
  pose proof (create_meteor_outcome env date time name g gld impact_dt Hp) as Hout.
  cbv zeta in Hout. rewrite Hc in Hout. destruct Hout as (Hres & Hrun & Hact).
  subst m w. rewrite Hres, Hrun, Hact. cbn [globals guild]. split_and!.
  - reflexivity.
  - reflexivity.
  - intros text. rewrite not_elem_of_app. split.
    + unfold old_deletion. destruct (COUNTDOWN_CHANNEL_ID g); [| apply not_elem_of_nil].
      destruct (bool_decide _); [| apply not_elem_of_nil].
      intros Hin. apply list_elem_of_singleton in Hin. discriminate Hin.
    + intros Hin. apply list_elem_of_singleton in Hin. discriminate Hin.
  - intros old Hold Hsome Hdel. split; [exact Hold |].
    unfold without_old. rewrite Hold, Hdel.
    rewrite (bool_decide_eq_true_2 _ Hsome). cbn [negb andb].
    apply lookup_delete_eq.
Qed.

Lemma create_meteor_creation_rejected_witness :
  let env := ex_env (jan 14 9 0 0 0)
                    (λ a, match a with CreateTextChannel _ => true | _ => false end) in
  let m := create_meteor env "2026-02-20" "16:47" "meteor-impact" in
  let w := MkWorld ex_fired ex_guild in
  actions (trace m w) = [DeleteChannel 5; CreateTextChannel "meteor-impact"]
  ∧ result m w = None
  ∧ globals (run m w) = ex_fired
  ∧ guild (run m w) !! 5 = None.
Proof.
  intros env m w.
  assert (parse_datetime_utc "2026-02-20" "16:47"
          = Some (Datetime 2026 2 20 16 47 0 0 (Some utc))) as Hp by (by vm_compute).
  destruct (create_meteor_creation_rejected env "2026-02-20" "16:47" "meteor-impact"
              ex_fired ex_guild _ Hp eq_refl) as (Hres & Hg & _ & Hold).
  split; [by vm_compute |]. split; [exact Hres |]. split; [exact Hg |].
  apply (Hold 5); [by vm_compute | | reflexivity].
  exists "meteor-impact". by vm_compute.
Defined.

(** X5. After a configuration that goes through, the new channel is there
    under the name asked for, and the first tick that is not rejected
    leaves it showing the desired name.  The target time may lie in the
    past: the tick then sets the imminent label at once, sends nothing and
    marks nothing. *)
Theorem create_then_first_tick (days hours : gset Z) (env env' : Env)
    (date time name : string) (g : Globals) (gld : gmap Z string)
    (impact_dt : datetime) :
  parse_datetime_utc date time = Some impact_dt →
  raises env (CreateTextChannel name) = false →
  let w1 := run (create_meteor env date time name) (MkWorld g gld) in
  let remaining := datetime_sub impact_dt (now env') in
  let tick := update_loop_with days hours env' in
  raises env' (Edit (new_id env) (desired_name remaining)) = false →
  guild w1 !! new_id env = Some name
  ∧ resolve env' (guild (run tick w1)) (new_id env) = Some (desired_name remaining)
  ∧ (remaining ≤ 0 →
     globals (run tick w1) = MkGlobals (Some (new_id env)) (Some impact_dt) ∅ ∅
     ∧ ∀ a, a ∈ actions (trace tick w1) → a = Edit (new_id env) FINISHED_NAME).
Proof.
  intros Hp Hc w1 remaining tick Hok.
  pose proof (create_meteor_outcome env date time name g gld impact_dt Hp) as Hout.
  cbv zeta in Hout. rewrite Hc in Hout. destruct Hout as (_ & Hrun & _).
  subst w1 tick. rewrite Hrun. cbn [guild].
  set (g1 := MkGlobals (Some (new_id env)) (Some impact_dt) ∅ ∅).
  set (gld1 := <[new_id env := name]> (without_old env g gld)).
  assert (gld1 !! new_id env = Some name) as Hl by apply lookup_insert_eq.
  assert (resolve env' gld1 (new_id env) = Some name) as Hn.
  { unfold resolve. by rewrite Hl. }
  split_and!.
  - exact Hl.
  - by apply (tick_shows_desired days hours env' g1 gld1 impact_dt (new_id env) name).
  - intros Hle.
    destruct (expired_tick days hours env' g1 gld1 impact_dt eq_refl Hle)
      as [Hg [Hnil | (id & name' & Hone & Hid & _)]].
    + split; [exact Hg |]. intros a Hin. rewrite Hnil in Hin.
      by apply elem_of_nil in Hin.
    + split; [exact Hg |]. intros a Hin. rewrite Hone in Hin.
      apply list_elem_of_singleton in Hin. injection Hid as <-. exact Hin.
Qed.

(** An event configured on 14 January for the 10th, four days gone: the
    first tick only sets the imminent label. *)
Lemma create_then_first_tick_witness :
  let env := ex_env (jan 14 9 0 0 0) no_failure in
  let w1 := run (create_meteor env "2026-01-10" "16:47" "meteor-impact")
                (MkWorld initial ∅) in
  let tick := update_loop (ex_env (jan 14 9 1 0 0) no_failure) in
  actions (trace tick w1) = [Edit 77 FINISHED_NAME]
  ∧ guild (run tick w1) !! 77 = Some FINISHED_NAME
  ∧ globals (run tick w1) = MkGlobals (Some 77) (Some (jan 10 16 47 0 0)) ∅ ∅.
Proof.
  intros env w1 tick.
  assert (parse_datetime_utc "2026-01-10" "16:47" = Some (jan 10 16 47 0 0)) as Hp
    by (by vm_compute).
  destruct (create_then_first_tick REMINDER_DAYS REMINDER_HOURS env
              (ex_env (jan 14 9 1 0 0) no_failure)
              "2026-01-10" "16:47" "meteor-impact" initial ∅ _ Hp eq_refl eq_refl)
    as (_ & _ & Hpast).
  split; [by vm_compute |]. split; [by vm_compute |].
  apply Hpast. by vm_compute.
Defined.

(** X6. Configuring an event from the initial state and then deleting it
    brings the bot and the channels back to where they were, when Discord
    gives the new channel an id not in use and rejects neither the
    creation nor the deletion. *)
Theorem create_then_delete_restores (env env' : Env) (date time name : string)
    (gld : gmap Z string) (impact_dt : datetime) :
  parse_datetime_utc date time = Some impact_dt →
  gld !! new_id env = None →
  raises env (CreateTextChannel name) = false →
  raises env' (DeleteChannel (new_id env)) = false →
  run (delete_meteor env')
      (run (create_meteor env date time name) (MkWorld initial gld))
  = MkWorld initial gld.
Proof.
  intros Hp Hfresh Hc Hd.
  pose proof (create_meteor_outcome env date time name initial gld impact_dt Hp) as Hout.
  cbv zeta in Hout. rewrite Hc in Hout. destruct Hout as (_ & -> & _).
  destruct (delete_meteor_outcome env'
              (MkGlobals (Some (new_id env)) (Some impact_dt) ∅ ∅)
              (<[new_id env := name]> (without_old env initial gld))
              (new_id env) eq_refl) as (_ & -> & _).
  f_equal. unfold without_old. cbn [COUNTDOWN_CHANNEL_ID initial].
  rewrite Hd, lookup_insert_eq, andb_true_r.
  change (bool_decide (is_Some (Some name))) with true. cbn iota.
  by apply delete_insert_id.
Qed.

Lemma create_then_delete_restores_witness :
  let env := ex_env (jan 14 9 0 0 0) no_failure in
  run (delete_meteor env)
      (run (create_meteor env "2026-01-20" "16:47" "meteor-impact")
           (MkWorld initial ∅))
  = MkWorld initial ∅.
Proof.
  intros env.
  assert (parse_datetime_utc "2026-01-20" "16:47" = Some ex_target) as Hp
    by (by vm_compute).
  exact (create_then_delete_restores env env "2026-01-20" "16:47" "meteor-impact"
           ∅ ex_target Hp eq_refl eq_refl eq_refl).
Defined.

(** ** Invariants of the running bot *)

(** A tick marks thresholds only. *)
Lemma tick_marks_thresholds (days hours : gset Z) (env : Env) (g : Globals)
    (gld : gmap Z string) :
  let g' := globals (run (update_loop_with days hours env) (MkWorld g gld)) in
  (sent_day_reminders g ⊆ days → sent_day_reminders g' ⊆ days)
  ∧ (sent_hour_reminders g ⊆ hours → sent_hour_reminders g' ⊆ hours).
Proof.
  intros g'. subst g'. unfold run.
  destruct (tick_cases days hours env g gld)
    as [-> | (target & id & name & _ & _ & _ & ->)]; [done |].
  unfold tick_outcome. destruct (_ <=? 0); proj; [done |].
  set (d := datetime_sub target (now env) / us_per_day).
  set (h := hours_rounded (datetime_sub target (now env))).
  destruct (bool_decide (d ∈ days)) eqn:Hd; cbn [andb];
    [apply bool_decide_eq_true in Hd; destruct (bool_decide (d ∉ sent_day_reminders g)) |];
    (destruct (_ <? _); cbn [andb];
     [ destruct (bool_decide (h ∈ hours)) eqn:Hh; cbn [andb];
       [ apply bool_decide_eq_true in Hh;
         destruct (bool_decide (h ∉ sent_hour_reminders g)) |] |]);
    proj; split; intros Hsub; try exact Hsub;
    apply union_subseteq; split; try exact Hsub; by apply singleton_subseteq_l.
Qed.

Definition utc_minute (t : datetime) : Prop :=
  tzinfo t = Some utc ∧ second t = 0 ∧ microsecond t = 0
  ∧ valid_fields (year t) (month t) (day t) (hour t) (minute t) = true.

(** What holds of every state the bot can be in. *)
Definition consistent (g : Globals) : Prop :=
  (COUNTDOWN_CHANNEL_ID g = None ↔ TARGET_TIME g = None)
  ∧ sent_day_reminders g ⊆ REMINDER_DAYS
  ∧ sent_hour_reminders g ⊆ REMINDER_HOURS
  ∧ ∀ t, TARGET_TIME g = Some t → utc_minute t.

Lemma parsed_utc_minute (date time : string) (t : datetime) :
  parse_datetime_utc date time = Some t → utc_minute t.
Proof.
  unfold parse_datetime_utc, datetime_new, utc_minute.
  destruct (Py.int <$> Py.split "-" date)
    as [| [y |] [| [mo |] [| [d |] [|]]]]; try discriminate.
  destruct (Py.int <$> Py.split ":" time)
    as [| [h |] [| [mi |] [|]]]; try discriminate.
  destruct (valid_fields y mo d h mi) eqn:Hv; [| discriminate].
  intros [= <-]. by cbn.
Qed.

(** What the two later parts of the task leave in the globals. *)
Lemma update_loop_days_globals (days : gset Z) (env : Env) (l : Suspended)
    (g : Globals) (gld : gmap Z string) :
  let d := time_remaining l / us_per_day in
  globals (run (update_loop_days days env l) (MkWorld g gld))
  = if bool_decide (d ∈ days) && bool_decide (d ∉ sent_day_reminders g)
    then mark_day d g else g.
Proof.
  intros d. unfold update_loop_days, run. rewrite days_remaining_floor. fold d. run_m.
  destruct (bool_decide (d ∈ days) && bool_decide (d ∉ sent_day_reminders g));
    run_m; [| reflexivity].
  destruct (raises env (Send (announce_channel l) (day_text d))); reflexivity.
Qed.

Lemma update_loop_hours_globals (hours : gset Z) (env : Env) (l : Suspended)
    (g : Globals) (gld : gmap Z string) :
  let h := hours_rounded (time_remaining l) in
  globals (run (update_loop_hours hours env l) (MkWorld g gld))
  = if (time_remaining l <? 2 * us_per_day)
       && (bool_decide (h ∈ hours) && bool_decide (h ∉ sent_hour_reminders g))
    then mark_hour h g else g.
Proof.
  intros h. unfold update_loop_hours, run.
  rewrite under_two_days_test, hours_remaining_round. fold h.
  destruct (time_remaining l <? 2 * us_per_day); run_m; [| reflexivity].
  destruct (bool_decide (h ∈ hours) && bool_decide (h ∉ sent_hour_reminders g));
    run_m; [| reflexivity].
  destruct (raises env (Send (announce_channel l) (hour_text h))); reflexivity.
Qed.

(** X7. In every state the bot can reach from its start by ticks and
    commands: the channel id is set exactly when the target time is; the
    fired-sets hold thresholds only; and the target time is a valid
    calendar minute in UTC, zone-aware, so that subtracting the zone-aware
    clock from it cannot raise. *)
Theorem reachable_consistent (g : Globals) : reachable g → consistent g.
Proof.
  induction 1 as [| env gld g Hr IH | env gld date time name g Hr IH | env gld g Hr IH
                  | env0 gld0 g0 l env gld g _ _ _ Hr IH
                  | env0 gld0 g0 l env gld g _ _ _ Hr IH].
  - unfold consistent, initial. cbn. split_and!; try done.
  - destruct IH as (Hiff & Hd & Hh & Hutc).
    destruct (tick_keeps_event REMINDER_DAYS REMINDER_HOURS env g gld)
      as (Ht & Hc & _).
    destruct (tick_marks_thresholds REMINDER_DAYS REMINDER_HOURS env g gld)
      as (Hd' & Hh').
    unfold update_loop, consistent. rewrite Ht, Hc. split_and!.
    + exact Hiff.
    + by apply Hd'.
    + by apply Hh'.
    + exact Hutc.
  - rewrite create_meteor_globals.
    destruct (parse_datetime_utc date time) as [dt |] eqn:Hp; [| exact IH].
    destruct (raises env (CreateTextChannel name)); [exact IH |].
    unfold consistent. cbn. split_and!; try done.
    intros t [= <-]. by apply (parsed_utc_minute date time).
  - rewrite delete_meteor_globals.
    destruct (COUNTDOWN_CHANNEL_ID g) eqn:Hc, (TARGET_TIME g) eqn:Ht;
      try (unfold consistent; cbn; split_and!; done).
    exact IH.
  - rewrite update_loop_days_globals.
    destruct (bool_decide (_ ∈ REMINDER_DAYS)) eqn:Hin; cbn [andb]; [| exact IH].
    destruct (bool_decide (_ ∉ _)); [| exact IH].
    apply bool_decide_eq_true in Hin.
    destruct IH as (Hiff & Hd & Hh & Hutc). unfold consistent. proj.
    split_and!; try done.
    apply union_subseteq. split; [by apply singleton_subseteq_l | exact Hd].
  - rewrite update_loop_hours_globals.
    destruct (_ <? _); cbn [andb]; [| exact IH].
    destruct (bool_decide (_ ∈ REMINDER_HOURS)) eqn:Hin; cbn [andb]; [| exact IH].
    destruct (bool_decide (_ ∉ _)); [| exact IH].
    apply bool_decide_eq_true in Hin.
    destruct IH as (Hiff & Hd & Hh & Hutc). unfold consistent. proj.
    split_and!; try done.
    apply union_subseteq. split; [by apply singleton_subseteq_l | exact Hh].
Qed.

Lemma reachable_consistent_witness :
  7 ∈ sent_day_reminders ex_fired ∧ consistent ex_fired.
Proof.
  split; [apply in_gset; by vm_compute |].
  exact (reachable_consistent ex_fired ex_fired_reachable).
Defined.

(** ** More on ticks *)



(** X9. No backfill.  Once a tick has found less than [n] whole days left,
    no later tick (with a clock that does not go back) sends the [n]-day
    reminder, whether or not it was ever sent: a threshold crossed while
    the bot was not running is skipped for good. *)
Theorem missed_day_threshold_skipped (days hours : gset Z) (env : Env)
    (gld : gmap Z string) (later : list (Env * gmap Z string))
    (g : Globals) (target : datetime) (n ch : Z) :
  TARGET_TIME g = Some target →
  datetime_sub target (now env) < n * us_per_day →
  Forall (λ s, to_us (now env) ≤ to_us (now s.1)) later →
  Send ch (day_text n)
    ∉ actions (run_ticks days hours ((env, gld) :: later) g).2.
Proof.
  intros Ht Hlt Hlater.
  assert (Forall (λ s, datetime_sub target (now s.1) < n * us_per_day)
                 ((env, gld) :: later)) as Hall.
  { apply Forall_cons. split; [exact Hlt |].
    eapply Forall_impl; [exact Hlater |].
    intros s Hs. unfold datetime_sub in *. lia. }
  clear Hlt Hlater. revert g Ht.
  induction Hall as [| [e gl] steps Hhere _ IH]; intros g Ht.
  - cbn. apply not_elem_of_nil.
  - rewrite run_ticks_cons. cbn [snd fst] in *. unfold actions.
    rewrite fmap_app, not_elem_of_app. split.
    + intros (gs & Hin)%elem_of_actions.
      apply day_send_inv in Hin as (target' & _ & Ht' & _ & _ & _ & Hn & _).
      assert (target' = target) as -> by congruence.
      symmetry in Hn. apply days_floor in Hn. lia.
    + apply IH.
      destruct (tick_keeps_event days hours e g gl) as (Ht' & _). congruence.
Qed.

(** The bot first looks at the clock with 6 days 23 hours left: "7 days
    remain" is not sent then, nor an hour later. *)
Lemma missed_day_threshold_skipped_witness :
  let env := ex_env (jan 13 17 47 0 0) no_failure in
  let later := [(ex_env (jan 13 18 47 0 0) no_failure, ex_guild)] in
  datetime_sub ex_target (now env) = mk_timedelta 6 23 0 0 0
  ∧ (Send 5 (day_text 7)
       ∉ actions (run_ticks REMINDER_DAYS REMINDER_HOURS
                    ((env, ex_guild) :: later) ex_globals).2).
Proof.
  intros env later. split; [by vm_compute |].
  assert (datetime_sub ex_target (now env) < 7 * us_per_day) as Hlt by (by vm_compute).
  assert (Forall (λ s : Env * gmap Z string, to_us (now env) ≤ to_us (now s.1)) later)
    as Hlater.
  { repeat (apply Forall_cons; split; [by vm_compute |]). apply Forall_nil_2. }
  exact (missed_day_threshold_skipped REMINDER_DAYS REMINDER_HOURS env ex_guild
           later ex_globals ex_target 7 5 eq_refl Hlt Hlater).
Defined.

(** X10. With the bot's own thresholds, a tick that reaches the channel
    with between 24 hours and 24 hours 30 minutes left, neither reminder
    having fired, sends both "1 day remain" and "24 hours remain", in this
    order: the two mentions arrive together. *)
Theorem day_and_hour_reminder_together (env : Env) (g : Globals)
    (gld : gmap Z string) (target : datetime) (id : Z) (name : string) :
  TARGET_TIME g = Some target → COUNTDOWN_CHANNEL_ID g = Some id →
  resolve env gld id = Some name →
  (1 ∉ sent_day_reminders g) → (24 ∉ sent_hour_reminders g) →
  let remaining := datetime_sub target (now env) in
  mk_timedelta 1 0 0 0 0 ≤ remaining ≤ mk_timedelta 1 0 30 0 0 →
  List.filter is_send (actions (trace (update_loop env) (MkWorld g gld)))
  = [Send id (day_text 1); Send id (hour_text 24)].
Proof.
  intros Ht Hi Hn Hd Hh remaining Hr. unfold update_loop, trace.
  rewrite (tick_resolved _ _ env g gld target id name Ht Hi Hn).
  fold remaining. unfold mk_timedelta in Hr. unfold tick_outcome.
  destruct (Z.leb_spec remaining 0); [lia |].
  destruct (Z.ltb_spec remaining (2 * us_per_day)); [| unfold us_per_day in *; lia].
  assert (remaining / us_per_day = 1) as ->.
  { apply days_floor. unfold us_per_day. lia. }
  assert (hours_rounded remaining = 24) as ->.
  { apply hours_rounded_nearest. unfold nearest_hour, us_per_hour.
    destruct (Z.eq_dec remaining 88200000000) as [-> | Hne]; [by right | left; lia]. }
  rewrite (bool_decide_eq_true_2 (1 ∈ REMINDER_DAYS)) by (apply in_gset; by vm_compute).
  rewrite (bool_decide_eq_true_2 (24 ∈ REMINDER_HOURS)) by (apply in_gset; by vm_compute).
  rewrite (bool_decide_eq_true_2 _ Hd), (bool_decide_eq_true_2 _ Hh).
  proj. cbn [andb]. destruct (negb _); reflexivity.
Qed.

Lemma day_and_hour_reminder_together_witness :
  let env := ex_env (jan 19 16 30 0 0) no_failure in
  actions (trace (update_loop env) (MkWorld ex_globals ex_guild))
  = [Edit 5 (countdown_name (mk_timedelta 1 0 17 0 0));
     Send 5 (day_text 1); Send 5 (hour_text 24)]
  ∧ List.filter is_send (actions (trace (update_loop env) (MkWorld ex_globals ex_guild)))
    = [Send 5 (day_text 1); Send 5 (hour_text 24)].
Proof.
  intros env. split; [by vm_compute |].
  assert (resolve env ex_guild 5 = Some "meteor-impact") as Hn by (by vm_compute).
  assert (mk_timedelta 1 0 0 0 0 ≤ datetime_sub ex_target (now env)
          ≤ mk_timedelta 1 0 30 0 0) as Hr by (by vm_compute).
  exact (day_and_hour_reminder_together env ex_globals ex_guild ex_target 5
           "meteor-impact" eq_refl eq_refl Hn
           (not_elem_of_empty 1) (not_elem_of_empty 24) Hr).
Defined.

(** A day marker that appears in a tick comes with its reminder. *)
Lemma day_marked_means_sent (days hours : gset Z) (env : Env) (g : Globals)
    (gld : gmap Z string) (id n : Z) :
  COUNTDOWN_CHANNEL_ID g = Some id →
  n ∉ sent_day_reminders g →
  n ∈ sent_day_reminders (globals (run (update_loop_with days hours env) (MkWorld g gld))) →
  Send id (day_text n) ∈ actions (trace (update_loop_with days hours env) (MkWorld g gld)).
Proof.
  intros Hi Hnot. unfold run, trace.
  destruct (tick_cases days hours env g gld)
    as [-> | (target & id' & name & _ & Hi' & _ & ->)]; [done |].
  assert (id' = id) as -> by congruence.
  unfold tick_outcome. destruct (_ <=? 0); proj; [done |].
  assert (∀ b h g', sent_day_reminders (if b : bool then mark_hour h g' else g')
                    = sent_day_reminders g') as -> by (by intros []).
  match goal with |- context [if ?b then mark_day _ _ else _] => destruct b end;
    [| done].
  proj. rewrite elem_of_union, elem_of_singleton.
  intros [-> | Hin]; [| done].
  apply elem_of_actions. eexists. rewrite !elem_of_app, !elem_of_logged.
  right; left. by split.
Qed.

(** X11. A day threshold that has not fired is sent by a run of ticks as
    soon as one of them reaches the channel while [n] days <= remaining <
    [n]+1 days.  Ticks that cannot reach the channel (it is neither cached
    nor fetchable) do not use the threshold up. *)
Theorem due_day_reminder_is_sent (days hours : gset Z)
    (steps : list (Env * gmap Z string)) (g : Globals) (target : datetime)
    (id n : Z) :
  TARGET_TIME g = Some target → COUNTDOWN_CHANNEL_ID g = Some id →
  0 < n → n ∈ days → (n ∉ sent_day_reminders g) →
  Exists (λ s, is_Some (resolve s.1 s.2 id)
               ∧ n * us_per_day ≤ datetime_sub target (now s.1) < (n + 1) * us_per_day)
         steps →
  Send id (day_text n) ∈ actions (run_ticks days hours steps g).2.
Proof.
  intros Ht Hi Hpos Hin Hnot Hex. revert g Ht Hi Hnot.
  induction Hex as [[e gl] rest ([name Hn] & Hwin) | [e gl] rest _ IH];
    intros g Ht Hi Hnot; rewrite run_ticks_cons; cbn [snd fst] in *;
    unfold actions; rewrite fmap_app, elem_of_app.
  - left. apply days_floor in Hwin as Hd. rewrite <- Hd.
    apply (day_fires days hours e g gl target id name); try done.
    + unfold us_per_day in *. lia.
    + by rewrite Hd.
    + by rewrite Hd.
  - destruct (decide (n ∈ sent_day_reminders
                        (globals (run (update_loop_with days hours e) (MkWorld g gl)))))
      as [Hmarked | Hstill].
    + left. by apply day_marked_means_sent.
    + right. destruct (tick_keeps_event days hours e g gl) as (Ht' & Hi' & _).
      apply IH; [congruence | congruence | exact Hstill].
Qed.

(** At 16:00 on 13 January the channel cannot be reached and nothing
    happens; a minute later it can, and "7 days remain" goes out. *)
Lemma due_day_reminder_is_sent_witness :
  let steps := [(ex_env (jan 13 16 0 0 0) no_failure, (∅ : gmap Z string));
                (ex_env (jan 13 16 1 0 0) no_failure, ex_guild)] in
  actions (run_ticks REMINDER_DAYS REMINDER_HOURS steps ex_globals).2
  = [Edit 5 (countdown_name (mk_timedelta 7 0 46 0 0)); Send 5 (day_text 7)]
  ∧ Send 5 (day_text 7)
      ∈ actions (run_ticks REMINDER_DAYS REMINDER_HOURS steps ex_globals).2.
Proof.
  intros steps. split; [by vm_compute |].
  apply (due_day_reminder_is_sent REMINDER_DAYS REMINDER_HOURS steps ex_globals
           ex_target 5 7 eq_refl eq_refl).
  - lia.
  - apply in_gset. by vm_compute.
  - apply not_elem_of_empty.
  - apply Exists_cons_tl, Exists_cons_hd. split.
    + exists "meteor-impact". by vm_compute.
    + by vm_compute.
Defined.

(** ** More on the formatter *)

(** The whole minutes of a delta, after clamping. *)
Definition whole_minutes (delta : timedelta) : Z := Z.max delta 0 / 60000000.

(** The text for a number of whole minutes. *)
Definition render_minutes (M : Z) : string :=
  let days := M / 1440 in
  let hours := (M / 60) mod 24 in
  let minutes := M mod 60 in
  (if days >? 0 then Py.str days +:+ "d " else "")
  +:+ (if (hours >? 0) || (days >? 0) then Py.str hours +:+ "h " else "")
  +:+ Py.str minutes +:+ "m".

(** The whole minutes the formatter shows. *)
Definition shown_minutes (delta : timedelta) : Z :=
  (if delta <=? 0 then 0 else whole_seconds delta) / 60.

Lemma shown_minutes_nonneg (delta : timedelta) : 0 ≤ shown_minutes delta.
Proof.
  unfold shown_minutes. destruct (clamped_seconds delta) as [_ Hs].
  by apply Z.div_pos.
Qed.

Lemma format_time_shown (delta : timedelta) :
  format_time delta = render_minutes (shown_minutes delta).
Proof.
  rewrite format_time_as_spec. unfold format_time_spec, render_minutes, shown_minutes.
  destruct (clamped_seconds delta) as [_ Hs].
  set (c := if delta <=? 0 then 0 else whole_seconds delta) in *.
  assert (c / 86400 = c / 60 / 1440) as ->
    by (Z.to_euclidean_division_equations; lia).
  assert ((c / 3600) mod 24 = (c / 60 / 60) mod 24) as ->
    by (Z.to_euclidean_division_equations; lia).
  reflexivity.
Qed.

(** Below 2^34 seconds these are the whole minutes of the delta. *)
Lemma shown_minutes_exact (delta : timedelta) :
  delta < float_exact_below → shown_minutes delta = whole_minutes delta.
Proof.
  intros Hlt. unfold shown_minutes, whole_minutes.
  destruct (Z.leb_spec delta 0) as [Hle | Hpos].
  - by rewrite Z.max_r by lia.
  - rewrite Z.max_l by lia. unfold whole_seconds.
    rewrite whole_seconds_exact by lia.
    Z.to_euclidean_division_equations; lia.
Qed.

Lemma format_time_render (delta : timedelta) :
  delta < float_exact_below →
  format_time delta = render_minutes (whole_minutes delta).
Proof. intros Hlt. by rewrite format_time_shown, shown_minutes_exact. Qed.

Lemma append_nil_l (s : string) : "" +:+ s = s.
Proof. reflexivity. Qed.

Lemma no_space_app (a b : string) :
  no_space (a +:+ b) = no_space a && no_space b.
Proof.
  induction a as [| c a IH]; [reflexivity |].
  change (no_space (String c (a +:+ b)) = no_space (String c a) && no_space b).
  cbn [no_space]. by rewrite IH, andb_assoc.
Qed.

Lemma snoc_inj (a b : string) (c c' : ascii) :
  a +:+ String c "" = b +:+ String c' "" → a = b ∧ c = c'.
Proof.
  revert b. induction a as [| x a IH]; intros [| y b] Heq.
  - by injection Heq.
  - injection Heq as _ Heq. by destruct b.
  - injection Heq as _ Heq. by destruct a.
  - injection Heq as -> Heq. by destruct (IH b Heq) as [-> ->].
Qed.

Lemma unit_no_space (n : Z) (u : ascii) :
  u ≠ " "%char → no_space (Py.str n +:+ String u "") = true.
Proof.
  intros Hu. rewrite no_space_app, str_no_space. cbn [no_space andb].
  apply Ascii.eqb_neq in Hu. by rewrite Hu.
Qed.

(** A component and what follows it, one space apart. *)
Lemma component_inj (n n' : Z) (u u' : ascii) (r r' : string) :
  u ≠ " "%char → u' ≠ " "%char →
  Py.str n +:+ (String u " " +:+ r) = Py.str n' +:+ (String u' " " +:+ r') →
  n = n' ∧ u = u' ∧ r = r'.
Proof.
  intros Hu Hu' Heq.
  assert (∀ m v s, Py.str m +:+ (String v " " +:+ s)
                   = (Py.str m +:+ String v "") +:+ String " " s) as Hshape.
  { intros m v s. rewrite append_assoc. reflexivity. }
  rewrite !Hshape in Heq.
  apply until_space in Heq as [Heq ->]; [| by apply unit_no_space..].
  apply snoc_inj in Heq as [Heq ->]. split; [| done].
  by apply (inj pretty).
Qed.

Lemma last_component_inj (n n' : Z) :
  Py.str n +:+ "m" = Py.str n' +:+ "m" → n = n'.
Proof. intros [Heq _]%snoc_inj. by apply (inj pretty). Qed.

Lemma last_component_no_more (n n' : Z) (u : ascii) (r : string) :
  u ≠ " "%char →
  Py.str n +:+ "m" ≠ Py.str n' +:+ (String u " " +:+ r).
Proof.
  intros Hu Heq.
  assert (no_space (Py.str n' +:+ (String u " " +:+ r)) = true) as Hns.
  { rewrite <- Heq. by apply unit_no_space. }
  rewrite !no_space_app in Hns. cbn [no_space] in Hns.
  rewrite Ascii.eqb_refl in Hns. cbn [negb andb] in Hns.
  rewrite !andb_false_r in Hns. discriminate.
Qed.

Lemma render_minutes_inj (M M' : Z) :
  0 ≤ M → 0 ≤ M' → render_minutes M = render_minutes M' → M = M'.
Proof.
  intros HM HM'. unfold render_minutes.
  set (d := M / 1440). set (h := (M / 60) mod 24). set (m := M mod 60).
  set (d' := M' / 1440). set (h' := (M' / 60) mod 24). set (m' := M' mod 60).
  assert (M = 1440 * d + 60 * h + m ∧ 0 ≤ d ∧ 0 ≤ h) as (HMeq & Hd & Hh).
  { subst d h m. Z.to_euclidean_division_equations. lia. }
  assert (M' = 1440 * d' + 60 * h' + m' ∧ 0 ≤ d' ∧ 0 ≤ h') as (HMeq' & Hd' & Hh').
  { subst d' h' m'. Z.to_euclidean_division_equations. lia. }
  assert ("d"%char ≠ " "%char ∧ "h"%char ≠ " "%char) as [Hcd Hch] by done.
  destruct (Z.gtb_spec d 0) as [Hdp | Hdz]; destruct (Z.gtb_spec d' 0) as [Hdp' | Hdz'];
    destruct (Z.gtb_spec h 0) as [Hhp | Hhz]; destruct (Z.gtb_spec h' 0) as [Hhp' | Hhz'];
    cbn [orb]; rewrite ?append_assoc, ?append_nil_l;
    intros Heq;
    repeat match goal with
    | H : Py.str _ +:+ (String _ " " +:+ _) = Py.str _ +:+ (String _ " " +:+ _) |- _ =>
        apply component_inj in H as (? & ? & H); [| done | done]
    | H : Py.str _ +:+ "m" = Py.str _ +:+ "m" |- _ =>
        apply last_component_inj in H
    | H : Py.str _ +:+ "m" = Py.str _ +:+ (String _ " " +:+ _) |- _ =>
        exfalso; eapply last_component_no_more; [| exact H]; done
    | H : Py.str _ +:+ (String _ " " +:+ _) = Py.str _ +:+ "m" |- _ =>
        symmetry in H
    end;
    try discriminate; try lia.
Qed.

(** X12. Two deltas below 2^34 seconds (some 544 years) give the same
    text exactly when they have the same number of whole minutes after
    clamping at zero: the text changes with every minute of the countdown
    and with nothing finer.  Beyond that size the float of
    [total_seconds()] is too coarse for this: one microsecond less than
    208334 days reads as 208334 days. *)
Theorem format_time_minute_exact (a b : timedelta) :
  a < float_exact_below → b < float_exact_below →
  (format_time a = format_time b ↔ whole_minutes a = whole_minutes b)
  ∧ format_time (mk_timedelta 208334 0 0 0 (-1)) = format_time (mk_timedelta 208334 0 0 0 0)
  ∧ whole_minutes (mk_timedelta 208334 0 0 0 (-1))
    ≠ whole_minutes (mk_timedelta 208334 0 0 0 0).
Proof.
  intros Ha Hb. split; [| by vm_compute].
  rewrite !format_time_render by done. split.
  - apply render_minutes_inj; unfold whole_minutes; apply Z.div_pos; lia.
  - by intros ->.
Qed.

(** 7 days 46 minutes 45 seconds and 7 days 46 minutes 15 seconds read the
    same; a minute less does not. *)
Lemma format_time_minute_exact_witness :
  format_time (mk_timedelta 7 0 46 45 0) = format_time (mk_timedelta 7 0 46 15 0)
  ∧ format_time (mk_timedelta 7 0 46 45 0) ≠ format_time (mk_timedelta 7 0 45 45 0).
Proof.
  assert (∀ h m s, 0 ≤ h < 24 → 0 ≤ m < 60 → 0 ≤ s < 60 →
            mk_timedelta 7 h m s 0 < float_exact_below) as Hsmall.
  { intros h m s Hh Hm Hs. unfold mk_timedelta, float_exact_below. lia. }
  split.
  - apply (format_time_minute_exact _ _ (Hsmall 0 46 45 ltac:(lia) ltac:(lia) ltac:(lia))
             (Hsmall 0 46 15 ltac:(lia) ltac:(lia) ltac:(lia))).
    by vm_compute.
  - intros Heq.
    apply (format_time_minute_exact _ _ (Hsmall 0 46 45 ltac:(lia) ltac:(lia) ltac:(lia))
             (Hsmall 0 45 45 ltac:(lia) ltac:(lia) ltac:(lia))) in Heq.
    by vm_compute in Heq.
Defined.

(** ** The parser reads back what the bot prints *)

(** Zero padding to a width, as [isoformat] does for each field. *)
Definition zero_pad (w : nat) (n : Z) : string :=
  let s := Py.str n in
  String.concat "" (repeat "0" (w - String.length s)) +:+ s.

(** The date and the hour and minute of [isoformat]. *)
Definition iso_date (t : datetime) : string :=
  zero_pad 4 (year t) +:+ "-" +:+ zero_pad 2 (month t) +:+ "-" +:+ zero_pad 2 (day t).

Definition iso_minute (t : datetime) : string :=
  zero_pad 2 (hour t) +:+ ":" +:+ zero_pad 2 (minute t).

Lemma digit_of_char (x : N) :
  (x < 10)%N → Py.digit_of (pretty_N_char x) = Some (Z.of_N x).
Proof.
  intros Hx.
  assert (x = 0 ∨ x = 1 ∨ x = 2 ∨ x = 3 ∨ x = 4 ∨ x = 5 ∨ x = 6 ∨ x = 7
          ∨ x = 8 ∨ x = 9)%N as Hc by lia.
  repeat destruct Hc as [-> | Hc]; try subst x; reflexivity.
Qed.

Lemma pretty_N_go_digits (x : N) (s : string) :
  all_digits s = true → all_digits (pretty_N_go x s) = true.
Proof.
  revert s. induction (N.lt_wf_0 x) as [x _ IH]; intros s Hs.
  destruct (decide (x = 0)%N) as [-> | Hx].
  - by rewrite pretty_N_go_0.
  - rewrite pretty_N_go_step by lia. apply IH.
    + apply N.div_lt; lia.
    + cbn [all_digits]. rewrite Hs, andb_true_r.
      rewrite digit_of_char by (apply N.mod_lt; lia). done.
Qed.

(** Reading the digits [pretty] wrote gives the number back. *)
Lemma digits_pretty_N_go (x : N) (st : Py.scan) (s : string) :
  (0 < x)%N →
  Py.digits st 0 (pretty_N_go x s) = Py.digits Py.AfterDigit (Z.of_N x) s.
Proof.
  revert st s. induction (N.lt_wf_0 x) as [x _ IH]; intros st s Hx.
  rewrite pretty_N_go_step by done.
  assert (Py.digit_of (pretty_N_char (x `mod` 10)) = Some (Z.of_N (x `mod` 10)))
    as Hc by (apply digit_of_char, N.mod_lt; lia).
  assert (Z.of_N x = 10 * Z.of_N (x `div` 10) + Z.of_N (x `mod` 10)) as Hx10.
  { pose proof (N.div_mod x 10 ltac:(lia)) as E. lia. }
  destruct (decide (x `div` 10 = 0)%N) as [Hz | Hnz].
  - rewrite Hz in *. rewrite pretty_N_go_0. cbn [Py.digits]. rewrite Hc.
    f_equal. change (Z.of_N 0) with 0 in Hx10. lia.
  - rewrite IH; [| apply N.div_lt; lia | by apply N.neq_0_lt_0].
    cbn [Py.digits]. rewrite Hc. by rewrite Hx10.
Qed.

Lemma str_digits (n : Z) : 0 ≤ n → all_digits (Py.str n) = true.
Proof.
  intros Hn. unfold Py.str, pretty, pretty_Z.
  destruct n as [| p | p]; [done | | lia].
  unfold pretty, pretty_positive, pretty, pretty_N.
  case_decide; [done |]. by apply pretty_N_go_digits.
Qed.

Lemma digits_str (n : Z) (st : Py.scan) :
  0 ≤ n → Py.digits st 0 (Py.str n) = Some n.
Proof.
  intros Hn. unfold Py.str, pretty, pretty_Z.
  destruct n as [| p | p]; [reflexivity | | lia].
  unfold pretty, pretty_positive, pretty, pretty_N.
  case_decide; [done |]. rewrite digits_pretty_N_go by lia. reflexivity.
Qed.

Lemma zeros_digits (k : nat) : all_digits (String.concat "" (repeat "0" k)) = true.
Proof.
  induction k as [| k IH]; [reflexivity |].
  destruct k; [reflexivity |].
  change (all_digits ("0" +:+ "" +:+ String.concat "" (repeat "0" (S k))) = true).
  by rewrite !all_digits_app, IH.
Qed.

Lemma zero_pad_digits (w : nat) (n : Z) : 0 ≤ n → all_digits (zero_pad w n) = true.
Proof.
  intros Hn. unfold zero_pad. by rewrite all_digits_app, zeros_digits, str_digits.
Qed.

Lemma digits_zeros (k : nat) (st : Py.scan) (s : string) :
  Py.digits st 0 (String.concat "" (repeat "0" k) +:+ s)
  = Py.digits (match k with O => st | S _ => Py.AfterDigit end) 0 s.
Proof.
  revert st. induction k as [| k IH]; intros st; [reflexivity |].
  destruct k as [| k].
  - reflexivity.
  - change (Py.digits st 0 (String "0" (String.concat "" (repeat "0" (S k)) +:+ s))
            = Py.digits Py.AfterDigit 0 s).
    cbn [Py.digits]. change (Py.digit_of "0") with (Some 0).
    cbn iota. change (10 * 0 + 0) with 0. apply IH.
Qed.

Lemma digits_zero_pad (w : nat) (n : Z) :
  0 ≤ n → Py.digits Py.AtStart 0 (zero_pad w n) = Some n.
Proof.
  intros Hn. unfold zero_pad. rewrite digits_zeros. by apply digits_str.
Qed.

(** A text of digits is ASCII already. *)
Lemma to_ascii_digits (s : string) : all_digits s = true → Py.to_ascii s = s.
Proof.
  induction s as [| c s IH]; [reflexivity |].
  cbn [all_digits]. intros [Hc Hs]%andb_true_iff. apply bool_decide_eq_true in Hc.
  destruct (digit_not_other c Hc) as (_ & _ & _ & _ & Hascii).
  cbn [Py.to_ascii]. rewrite Hascii. by rewrite IH.
Qed.

(** A text of digits, not too long, is read by [int] as its digits
    are. *)
Lemma int_of_digits (s : string) :
  all_digits s = true → Z.of_nat (String.length s) ≤ Py.max_str_digits →
  Py.int s = Py.digits Py.AtStart 0 s.
Proof.
  intros Hs Hlen. unfold Py.int.
  rewrite to_ascii_digits, count_digits_group by done.
  destruct (Z.ltb_spec Py.max_str_digits (Z.of_nat (String.length s))); [lia |].
  destruct s as [| c s]; [reflexivity |].
  cbn [all_digits] in Hs. apply andb_true_iff in Hs as [Hc _].
  apply bool_decide_eq_true in Hc.
  destruct (digit_not_other c Hc) as (Hsp & Hplus & Hminus & _).
  cbn [Py.lstrip]. rewrite Hsp. unfold Py.signed. by rewrite Hplus, Hminus.
Qed.

Lemma pretty_N_go_length (k : nat) (x : N) (s : string) :
  (x < 10 ^ N.of_nat k)%N →
  (String.length (pretty_N_go x s) ≤ String.length s + k)%nat.
Proof.
  revert x s. induction k as [| k IH]; intros x s Hx.
  - assert (x = 0%N) as -> by (change (10 ^ N.of_nat 0)%N with 1%N in Hx; lia).
    rewrite pretty_N_go_0. lia.
  - destruct (decide (x = 0)%N) as [-> | Hnz]; [rewrite pretty_N_go_0; lia |].
    rewrite pretty_N_go_step by lia.
    etrans; [apply IH |]; [| cbn [String.length]; lia].
    apply N.Div0.div_lt_upper_bound.
    rewrite Nat2N.inj_succ, N.pow_succ_r' in Hx. exact Hx.
Qed.

Lemma str_length (n : Z) : 0 ≤ n ≤ 9999 → (String.length (Py.str n) ≤ 4)%nat.
Proof.
  intros Hn. unfold Py.str, pretty, pretty_Z.
  destruct n as [| p | p]; [cbn; lia | | lia].
  unfold pretty, pretty_positive, pretty, pretty_N.
  case_decide; [cbn; lia |].
  apply (pretty_N_go_length 4 (N.pos p) ""). change (10 ^ N.of_nat 4)%N with 10000%N. lia.
Qed.

Lemma zeros_length (k : nat) : String.length (String.concat "" (repeat "0" k)) = k.
Proof.
  induction k as [| k IH]; [reflexivity |].
  destruct k; [reflexivity |].
  change (String.length (String "0" (String.concat "" (repeat "0" (S k)))) = S (S k)).
  cbn [String.length]. by rewrite IH.
Qed.

Lemma int_zero_pad (w : nat) (n : Z) :
  (w ≤ 4)%nat → 0 ≤ n ≤ 9999 → Py.int (zero_pad w n) = Some n.
Proof.
  intros Hw Hn. rewrite int_of_digits.
  - apply digits_zero_pad. lia.
  - apply zero_pad_digits. lia.
  - unfold zero_pad. rewrite length_append, zeros_length.
    pose proof (str_length n Hn). unfold Py.max_str_digits. lia.
Qed.

Lemma rev_app_rev_app (a cur r : string) :
  String.rev_app (String.rev_app a cur) r = String.rev_app cur (a +:+ r).
Proof.
  revert cur r. induction a as [| c a IH]; intros cur r; [reflexivity |].
  cbn [String.rev_app]. by rewrite IH.
Qed.

(** Splitting on a separator that is not a digit, after a piece made of
    digits. *)
Lemma split_go_piece (sep : ascii) (a cur r : string) :
  Py.digit_of sep = None → all_digits a = true →
  Py.split_go sep cur (a +:+ String sep r)
  = String.rev_app cur a :: Py.split_go sep "" r.
Proof.
  intros Hsep. revert cur. induction a as [| c a IH]; intros cur Ha.
  - change (Py.split_go sep cur (String sep r)
            = String.rev_app cur "" :: Py.split_go sep "" r).
    cbn [Py.split_go]. by rewrite Ascii.eqb_refl.
  - cbn [all_digits] in Ha. apply andb_true_iff in Ha as [Hc Ha].
    apply bool_decide_eq_true in Hc.
    change (Py.split_go sep cur (String c (a +:+ String sep r))
            = String.rev_app cur (String c a) :: Py.split_go sep "" r).
    cbn [Py.split_go].
    destruct (Ascii.eqb_spec c sep) as [-> | Hne].
    + rewrite Hsep in Hc. by destruct Hc.
    + rewrite IH by done. reflexivity.
Qed.

Lemma split_go_last (sep : ascii) (a cur : string) :
  Py.digit_of sep = None → all_digits a = true →
  Py.split_go sep cur a = [String.rev_app cur a].
Proof.
  intros Hsep. revert cur. induction a as [| c a IH]; intros cur Ha.
  - reflexivity.
  - cbn [all_digits] in Ha. apply andb_true_iff in Ha as [Hc Ha].
    apply bool_decide_eq_true in Hc. cbn [Py.split_go].
    destruct (Ascii.eqb_spec c sep) as [-> | Hne].
    + rewrite Hsep in Hc. by destruct Hc.
    + rewrite IH by done. reflexivity.
Qed.

Lemma split_three (sep : ascii) (a b c : string) :
  Py.digit_of sep = None →
  all_digits a = true → all_digits b = true → all_digits c = true →
  Py.split sep (a +:+ String sep "" +:+ b +:+ String sep "" +:+ c) = [a; b; c].
Proof.
  intros Hsep Ha Hb Hc. unfold Py.split.
  change (Py.split_go sep "" (a +:+ String sep (b +:+ String sep c)) = [a; b; c]).
  rewrite !split_go_piece, split_go_last by done. reflexivity.
Qed.

Lemma split_two (sep : ascii) (a b : string) :
  Py.digit_of sep = None → all_digits a = true → all_digits b = true →
  Py.split sep (a +:+ String sep "" +:+ b) = [a; b].
Proof.
  intros Hsep Ha Hb. unfold Py.split.
  change (Py.split_go sep "" (a +:+ String sep b) = [a; b]).
  rewrite split_go_piece, split_go_last by done. reflexivity.
Qed.

Lemma days_in_month_le (y m : Z) : days_in_month y m ≤ 31.
Proof. unfold days_in_month. repeat case_match; lia. Qed.

Lemma valid_fields_small (y mo d h mi : Z) :
  valid_fields y mo d h mi = true →
  0 ≤ y ≤ 9999 ∧ 0 ≤ mo ≤ 9999 ∧ 0 ≤ d ≤ 9999 ∧ 0 ≤ h ≤ 9999 ∧ 0 ≤ mi ≤ 9999.
Proof.
  intros Hv%valid_fields_spec. pose proof (days_in_month_le y mo). lia.
Qed.

Lemma utc_minute_reads_back (t : datetime) :
  utc_minute t →
  parse_datetime_utc (iso_date t) (iso_minute t) = Some t
  ∧ isoformat t = iso_date t +:+ "T" +:+ iso_minute t +:+ ":00+00:00".
Proof.
  intros (Htz & Hs & Hus & Hv).
  destruct t as [y mo d h mi s us tz]. cbn in Htz, Hs, Hus, Hv. subst s us tz.
  destruct (valid_fields_small _ _ _ _ _ Hv) as (Hy & Hmo & Hd & Hh & Hmi).
  split.
  - unfold parse_datetime_utc, iso_date, iso_minute. cbn [year month day hour minute].
    rewrite (split_three "-"), (split_two ":")
      by (done || apply zero_pad_digits; lia).
    cbn [fmap list_fmap]. rewrite !int_zero_pad by (done || lia).
    unfold datetime_new. by rewrite Hv.
  - unfold isoformat, iso_date, iso_minute, zero_pad.
    cbn [year month day hour minute second microsecond tzinfo].
    change (0 =? 0) with true. cbn iota.
    rewrite !append_assoc. reflexivity.
Qed.

(** X13. A timestamp the parser returned reads back from its own ISO
    form: parsing the date and the hour and minute that [isoformat] prints
    (zero-padded, as in the replies of the bot) gives the timestamp again;
    and [isoformat] of it is that date, 'T', that hour and minute, and
    ":00+00:00". *)
Theorem parse_reads_back_isoformat (date_str time_str : string) (t : datetime) :
  parse_datetime_utc date_str time_str = Some t →
  parse_datetime_utc (iso_date t) (iso_minute t) = Some t
  ∧ isoformat t = iso_date t +:+ "T" +:+ iso_minute t +:+ ":00+00:00".
Proof.
  intros Hp. by apply utc_minute_reads_back, (parsed_utc_minute date_str time_str).
Qed.

Lemma parse_reads_back_isoformat_witness :
  isoformat ex_target = "2026-01-20T16:47:00+00:00"
  ∧ parse_datetime_utc (iso_date ex_target) (iso_minute ex_target) = Some ex_target.
Proof.
  split; [by vm_compute |].
  assert (parse_datetime_utc "2026-1-20" "16:47" = Some ex_target) as Hp
    by (by vm_compute).
  by destruct (parse_reads_back_isoformat "2026-1-20" "16:47" ex_target Hp) as [Hback _].
Defined.


(** X2. With an event whose target time is a UTC calendar minute (as every
    target the bot stores is), [!impact] changes nothing and attempts one
    reply, which shows the target in ISO form as date, 'T', hour and
    minute, ":00+00:00"; that date and that hour and minute, given to
    [!createmeteor], parse to the same target time. *)
Theorem impact_info_shows_target (strftime : datetime → string) (env : Env)
    (g : Globals) (gld : gmap Z string) (target : datetime) :
  TARGET_TIME g = Some target → utc_minute target →
  let w := MkWorld g gld in
  run (impact_info strftime env) w = w
  ∧ actions (trace (impact_info strftime env) w)
    = [Reply (impact_text (strftime target)
                (iso_date target +:+ "T" +:+ iso_minute target +:+ ":00+00:00"))]
  ∧ parse_datetime_utc (iso_date target) (iso_minute target) = Some target.
Proof.
  intros Ht Hutc w. subst w.
  destruct (utc_minute_reads_back target Hutc) as [Hback <-].
  unfold impact_info, run, trace. run_m. rewrite Ht. run_m.
  destruct (raises env (Reply (impact_text (strftime target) (isoformat target))));
    by split_and!.
Qed.

Lemma impact_info_shows_target_witness :
  let w := MkWorld ex_globals ex_guild in
  let m := impact_info (λ _, "2026-01-20 16:47 (UTC)")
                       (ex_env (jan 14 9 0 0 0) no_failure) in
  run m w = w
  ∧ actions (trace m w)
    = [Reply (impact_text "2026-01-20 16:47 (UTC)" "2026-01-20T16:47:00+00:00")].
Proof.
  intros w m.
  assert (utc_minute ex_target) as Hutc by (by vm_compute).
  destruct (impact_info_shows_target (λ _, "2026-01-20 16:47 (UTC)")
              (ex_env (jan 14 9 0 0 0) no_failure) ex_globals ex_guild ex_target
              eq_refl Hutc) as (Hrun & Hact & _).
  split; [exact Hrun |]. etrans; [exact Hact | by vm_compute].
Defined.

(** ** Markers and names *)

Lemma hour_marked_means_sent (days hours : gset Z) (env : Env) (g : Globals)
    (gld : gmap Z string) (id n : Z) :
  COUNTDOWN_CHANNEL_ID g = Some id →
  n ∉ sent_hour_reminders g →
  n ∈ sent_hour_reminders (globals (run (update_loop_with days hours env) (MkWorld g gld))) →
  Send id (hour_text n) ∈ actions (trace (update_loop_with days hours env) (MkWorld g gld)).
Proof.
  intros Hi Hnot. unfold run, trace.
  destruct (tick_cases days hours env g gld)
    as [-> | (target & id' & name & _ & Hi' & _ & ->)]; [done |].
  assert (id' = id) as -> by congruence.
  unfold tick_outcome. destruct (_ <=? 0); proj; [done |].
  assert (∀ b d g', sent_hour_reminders (if b : bool then mark_day d g' else g')
                    = sent_hour_reminders g') as Hsame by (by intros []).
  match goal with |- context [if ?b then mark_hour _ _ else _] => destruct b end.
  - proj. rewrite Hsame, elem_of_union, elem_of_singleton.
    intros [-> | Hin]; [| done].
    apply elem_of_actions. eexists. rewrite !elem_of_app, !elem_of_logged.
    right; right. by split.
  - by rewrite Hsame.
Qed.

(** X14. The fired-sets record exactly the reminders attempted: after a
    tick, a threshold is in the day (hour) fired-set when it was there
    before or its day (hour) reminder was attempted in this tick, and only
    then, whether or not the send went through.  The channel id and the
    target time are left as they were. *)
Theorem markers_record_attempts (days hours : gset Z) (env : Env)
    (g : Globals) (gld : gmap Z string) (id n : Z) :
  COUNTDOWN_CHANNEL_ID g = Some id →
  let m := update_loop_with days hours env in
  let w := MkWorld g gld in
  (n ∈ sent_day_reminders (globals (run m w))
   ↔ n ∈ sent_day_reminders g ∨ Send id (day_text n) ∈ actions (trace m w))
  ∧ (n ∈ sent_hour_reminders (globals (run m w))
     ↔ n ∈ sent_hour_reminders g ∨ Send id (hour_text n) ∈ actions (trace m w))
  ∧ TARGET_TIME (globals (run m w)) = TARGET_TIME g
  ∧ COUNTDOWN_CHANNEL_ID (globals (run m w)) = COUNTDOWN_CHANNEL_ID g.
Proof.
  intros Hi m w. subst m w.
  destruct (tick_keeps_event days hours env g gld) as (Ht & Hc & Hd & Hh).
  split_and!; [| | exact Ht | exact Hc].
  - split.
    + intros Hin. destruct (decide (n ∈ sent_day_reminders g)) as [| Hnot]; [by left |].
      right. by apply day_marked_means_sent.
    + intros [Hin | (gs & Hin)%elem_of_actions]; [by apply Hd |].
      by apply day_send_inv in Hin as (_ & _ & _ & _ & _ & _ & _ & _ & _ & _ & Hn).
  - split.
    + intros Hin. destruct (decide (n ∈ sent_hour_reminders g)) as [| Hnot]; [by left |].
      right. by apply hour_marked_means_sent.
    + intros [Hin | (gs & Hin)%elem_of_actions]; [by apply Hh |].
      by apply hour_send_inv in Hin as (_ & _ & _ & _ & _ & _ & _ & _ & _ & _ & Hn).
Qed.

(** The "7 days" reminder is rejected by Discord, and is marked as fired. *)
Lemma markers_record_attempts_witness :
  let m := update_loop (ex_env (jan 13 16 0 0 0) sends_fail) in
  let w := MkWorld ex_globals ex_guild in
  Send 5 (day_text 7) ∈ actions (trace m w)
  ∧ 7 ∈ sent_day_reminders (globals (run m w)).
Proof.
  intros m w.
  assert (Send 5 (day_text 7) ∈ actions (trace m w)) as Hsent.
  { apply list_elem_of_In.
    change (In (Send 5 (day_text 7)) (actions (trace m w))).
    assert (actions (trace m w)
            = [Edit 5 (countdown_name (mk_timedelta 7 0 47 0 0)); Send 5 (day_text 7)])
      as -> by (by vm_compute).
    right. by left. }
  split; [exact Hsent |].
  destruct (markers_record_attempts REMINDER_DAYS REMINDER_HOURS
              (ex_env (jan 13 16 0 0 0) sends_fail) ex_globals ex_guild 5 7 eq_refl)
    as (Hday & _).
  apply Hday. by right.
Defined.

Lemma append_inv_tail (a b c : string) : a +:+ c = b +:+ c → a = b.
Proof.
  revert b. induction a as [| x a IH]; intros [| y b] Heq.
  - reflexivity.
  - apply (f_equal String.length) in Heq.
    rewrite !length_append in Heq. cbn [String.length] in Heq. lia.
  - apply (f_equal String.length) in Heq.
    rewrite !length_append in Heq. cbn [String.length] in Heq. lia.
  - injection Heq as -> Heq. by rewrite (IH b Heq).
Qed.

Lemma str_head (n : Z) :
  0 ≤ n → ∃ c s, Py.str n = String c s ∧ is_Some (Py.digit_of c).
Proof.
  intros Hn. pose proof (str_digits n Hn) as Hd.
  pose proof (digits_str n Py.AtStart Hn) as Hr.
  destruct (Py.str n) as [| c s]; [discriminate Hr |].
  cbn [all_digits] in Hd. apply andb_true_iff in Hd as [Hc _].
  apply bool_decide_eq_true in Hc. eauto.
Qed.

Lemma render_minutes_head (M : Z) :
  0 ≤ M → ∃ c s, render_minutes M = String c s ∧ is_Some (Py.digit_of c).
Proof.
  intros HM. unfold render_minutes.
  set (d := M / 1440). set (h := (M / 60) mod 24). set (m := M mod 60).
  assert (0 ≤ d ∧ 0 ≤ h ∧ 0 ≤ m) as (Hd & Hh & Hm).
  { subst d h m. Z.to_euclidean_division_equations. lia. }
  destruct (str_head d Hd) as (cd & sd & Ed & Hcd).
  destruct (str_head h Hh) as (ch & sh & Eh & Hch).
  destruct (str_head m Hm) as (cm & sm & Em & Hcm).
  destruct (d >? 0); [rewrite Ed; eauto |].
  destruct (h >? 0); cbn [orb]; rewrite append_nil_l; [rewrite Eh; eauto |].
  rewrite append_nil_l, Em. eauto.
Qed.

Lemma countdown_name_not_finished (remaining : timedelta) :
  countdown_name remaining ≠ FINISHED_NAME.
Proof.
  unfold countdown_name.
  change FINISHED_NAME with (METEOR_ICON +:+ " · " +:+ "Impact imminent!").
  intros Heq. apply (inj (String.append _)), (inj (String.append _)) in Heq.
  rewrite format_time_shown in Heq.
  destruct (render_minutes_head (shown_minutes remaining)) as (c & s & E & Hc).
  { apply shown_minutes_nonneg. }
  rewrite E in Heq. injection Heq as -> _. by destruct Hc.
Qed.

Lemma countdown_name_minute (a b : timedelta) :
  a < float_exact_below → b < float_exact_below →
  countdown_name a = countdown_name b ↔ whole_minutes a = whole_minutes b.
Proof.
  intros Ha Hb. unfold countdown_name. split.
  - intros Heq. apply (inj (String.append _)), (inj (String.append _)) in Heq.
    apply append_inv_tail in Heq. rewrite !format_time_render in Heq by done.
    apply render_minutes_inj in Heq; [done | |]; unfold whole_minutes;
      apply Z.div_pos; lia.
  - intros Heq. by rewrite !format_time_render, Heq.
Qed.

(** X15. A channel that shows the countdown name of some remaining time
    is renamed by a tick exactly when the target time is reached or the
    remaining time now has another number of whole minutes, both times
    being below 2^34 seconds (some 544 years, where [format_time] reads the
    whole minutes off exactly): the imminent label differs from every
    countdown name, and countdown names differ from minute to minute.  A
    second tick within the same minute renames nothing. *)
Theorem stale_name_is_renamed (days hours : gset Z) (env : Env) (g : Globals)
    (gld : gmap Z string) (target : datetime) (id : Z) (shown : timedelta) :
  TARGET_TIME g = Some target → COUNTDOWN_CHANNEL_ID g = Some id →
  resolve env gld id = Some (countdown_name shown) →
  let remaining := datetime_sub target (now env) in
  let edits := List.filter is_edit
                 (actions (trace (update_loop_with days hours env) (MkWorld g gld))) in
  shown < float_exact_below → remaining < float_exact_below →
  (remaining ≤ 0 ∨ whole_minutes shown ≠ whole_minutes remaining
   → edits = [Edit id (desired_name remaining)])
  ∧ (0 < remaining ∧ whole_minutes shown = whole_minutes remaining → edits = []).
Proof.
  intros Ht Hi Hn remaining edits Hshown Hrem. subst edits. unfold trace.
  rewrite (tick_resolved days hours env g gld target id _ Ht Hi Hn).
  fold remaining. unfold tick_outcome, desired_name.
  destruct (Z.leb_spec remaining 0) as [Hle | Hpos]; proj.
  - destruct (String.eqb_spec (countdown_name shown) FINISHED_NAME) as [Heq | Hne].
    { by apply countdown_name_not_finished in Heq. }
    split; [reflexivity | lia].
  - destruct (String.eqb_spec (countdown_name shown) (countdown_name remaining))
      as [Heq | Hne]; cbn [negb].
    + apply countdown_name_minute in Heq; [| done | done].
      split; [intros [? | ?]; [lia | done] |].
      intros _.
      match goal with
      | |- context [logged false ?a1 ?g0 ++ logged ?b2 ?a2 ?g1 ++ logged ?b3 ?a3 ?g2] =>
          destruct b2, b3
      end; reflexivity.
    + split.
      * intros _.
        match goal with
        | |- context [logged true ?a1 ?g0 ++ logged ?b2 ?a2 ?g1 ++ logged ?b3 ?a3 ?g2] =>
            destruct b2, b3
        end; reflexivity.
      * intros [_ Hsame]. exfalso. apply Hne. by apply countdown_name_minute.
Qed.

(** At 16:00:15 the channel was named "7d 0h 46m"; the tick of 16:00:45
    renames nothing, the tick of 16:01:15 sets "7d 0h 45m". *)
Lemma stale_name_is_renamed_witness :
  let gld : gmap Z string := {[ 5 := countdown_name (mk_timedelta 7 0 46 45 0) ]} in
  List.filter is_edit
    (actions (trace (update_loop (ex_env (jan 13 16 0 45 0) no_failure))
                    (MkWorld ex_globals gld))) = []
  ∧ List.filter is_edit
      (actions (trace (update_loop (ex_env (jan 13 16 1 15 0) no_failure))
                      (MkWorld ex_globals gld)))
    = [Edit 5 (countdown_name (mk_timedelta 7 0 45 45 0))].
Proof.
  intros gld. split.
  - assert (resolve (ex_env (jan 13 16 0 45 0) no_failure) gld 5
            = Some (countdown_name (mk_timedelta 7 0 46 45 0))) as Hn by (by vm_compute).
    assert (mk_timedelta 7 0 46 45 0 < float_exact_below) as Hs by (vm_compute; reflexivity).
    assert (datetime_sub ex_target (now (ex_env (jan 13 16 0 45 0) no_failure))
            < float_exact_below) as Hr by (vm_compute; reflexivity).
    assert (0 < datetime_sub ex_target (now (ex_env (jan 13 16 0 45 0) no_failure))
            ∧ whole_minutes (mk_timedelta 7 0 46 45 0)
              = whole_minutes (datetime_sub ex_target
                                 (now (ex_env (jan 13 16 0 45 0) no_failure)))) as Hsame
      by (vm_compute; split; reflexivity).
    destruct (stale_name_is_renamed REMINDER_DAYS REMINDER_HOURS
                (ex_env (jan 13 16 0 45 0) no_failure) ex_globals gld ex_target 5
                (mk_timedelta 7 0 46 45 0) eq_refl eq_refl Hn Hs Hr) as [_ Hnone].
    exact (Hnone Hsame).
  - vm_compute. reflexivity.
Defined.
